(** * Visualizer front end: state reconciliation core

    A shallow embedding of the browser-side modules of the visualizer
    (static/js): the chat manager, the conversation boxes, the agent
    panels, the stateful pipeline manager and the socket event handlers.

    The document is modelled by the pieces of it these modules touch: the
    text content and the classes of the elements they read and write.  The
    elements of the static page (agentN-name, agentN-pipeline, prompt-box-K
    and so on) are taken to exist; the chat container is the one element
    the code itself tests for, and it is optional here as well.  Agent ids
    are the two ids of the JSDoc comments, 0 and 1. *)

From Stdlib Require Import String Ascii ZArith List Bool Lia.
From Stdlib Require Import DecimalString.
Import ListNotations.
Open Scope string_scope.
Open Scope Z_scope.

(** ** JavaScript primitive values

    Payload fields are primitives here; numbers are integers (ids,
    tension levels), so NaN and fractions do not arise. *)

Module JS.

Inductive value : Type :=
| VUndefined
| VNull
| VBool (b : bool)
| VNum (n : Z)
| VStr (s : string).

(** ToBoolean on primitives: [if (v)], [!v], [v || d]. *)
Definition truthy (v : value) : bool :=
  match v with
  | VUndefined | VNull => false
  | VBool b => b
  | VNum n => negb (n =? 0)
  | VStr s => negb (s =? "")%string
  end.

(** ToString, as a template literal applies it. *)
Definition to_string (v : value) : string :=
  match v with
  | VUndefined => "undefined"
  | VNull => "null"
  | VBool true => "true"
  | VBool false => "false"
  | VNum n => NilZero.string_of_int (Z.to_int n)
  | VStr s => s
  end.

(** The [textContent] setter: null and undefined give the empty text,
    anything else is converted to a string. *)
Definition text_of (v : value) : string :=
  match v with
  | VUndefined | VNull => ""
  | _ => to_string v
  end.

(** [v || d] inside a template literal. *)
Definition or_default (v : value) (d : string) : string :=
  if truthy v then to_string v else d.

(** [v === 'lit'] for a string literal. *)
Definition is_string (v : value) (lit : string) : bool :=
  match v with
  | VStr s => (s =? lit)%string
  | _ => false
  end.

(** [v === k] for a number literal. *)
Definition is_number (v : value) (k : Z) : bool :=
  match v with
  | VNum n => n =? k
  | _ => false
  end.

(** [v !== undefined]. *)
Definition defined (v : value) : bool :=
  match v with
  | VUndefined => false
  | _ => true
  end.

(** [arr[i]]: out of range reads give undefined. *)
Definition at_index (arr : list value) (i : nat) : value :=
  nth i arr VUndefined.

(** The double quote character, for the quoted summaries. *)
Definition dquote : string := String (ascii_of_nat 34) EmptyString.

End JS.

(** ** The two agents *)

Inductive agent : Type := Agent0 | Agent1.

(** [`${agentId}`] *)
Definition agent_digit (a : agent) : string :=
  match a with Agent0 => "0" | Agent1 => "1" end.

(** An object with the two keys 0 and 1. *)
Record per_agent (A : Type) : Type := PerAgent { at0 : A; at1 : A }.
Arguments PerAgent {A} _ _.
Arguments at0 {A} _.
Arguments at1 {A} _.

Definition get {A} (a : agent) (m : per_agent A) : A :=
  match a with Agent0 => at0 m | Agent1 => at1 m end.

Definition set {A} (a : agent) (x : A) (m : per_agent A) : per_agent A :=
  match a with
  | Agent0 => PerAgent x (at1 m)
  | Agent1 => PerAgent (at0 m) x
  end.

Definition other (a : agent) : agent :=
  match a with Agent0 => Agent1 | Agent1 => Agent0 end.

(** ** Pipeline manager

    The repository holds several revisions of this module; the one
    modelled is the revision that keeps [pipelineStates] and has
    switchActiveFlag and getActiveFlag.  Of the console output only what
    this manager writes is recorded; the debug output of the other modules
    (Logger.log, console.log) is left out. *)

Module Pipeline.

(** One entry of [pipelineStates]. *)
Record PipelineState : Type := mkState {
  components : list string;
  currentStep : Z;
  isActive : bool
}.

(** A [div.pipeline-summary] of the rendered pipeline: its id, whether
    its class list holds 'current', and its text. *)
Record SummaryEl : Type := mkSummary {
  el_id : string;
  current : bool;
  textContent : string
}.

(** The element agent1-pipeline or agent2-pipeline: whether its class
    list holds 'pipeline-completed', and the summaries below it in
    document order.  The title elements carry ids that end in "-title"
    and are never looked up, so they are left out. *)
Record PipelineEl : Type := mkEl {
  completed_class : bool;
  summaries : list SummaryEl
}.

Inductive level : Type := Warn | Log.

Record Manager : Type := mkManager {
  pipelineStates : per_agent PipelineState;
  dom : per_agent PipelineEl;
  console : list (level * string)
}.

Definition initial : Manager :=
  mkManager
    (PerAgent (mkState [] 0 false) (mkState [] 0 false))
    (PerAgent (mkEl false []) (mkEl false []))
    [].

(** The [components] argument of createPipelineFlow as JavaScript sees
    it: missing (undefined or null), some value that is not an array, or
    an array of stage names. *)
Inductive components_arg : Type :=
| CAbsent
| CNotArray
| CArray (l : list string).

(** The [data] argument of updatePipelineStage; [{}] by default. *)
Record stage_data : Type := mkData { summary : JS.value }.
Definition no_data : stage_data := mkData JS.VUndefined.

Definition log_to (lv : level) (msg : string) (m : Manager) : Manager :=
  mkManager (pipelineStates m) (dom m) (console m ++ [(lv, msg)]).

(** [`${agentId}-${component}-summary`] *)
Definition summary_id (a : agent) (component : string) : string :=
  agent_digit a ++ "-" ++ component ++ "-summary".

Definition fresh_summary (a : agent) (component : string) : SummaryEl :=
  mkSummary (summary_id a component) false "".

Definition createPipelineFlow (a : agent) (arg : components_arg)
    (m : Manager) : Manager :=
  let invalid :=
    log_to Warn
      ("Cannot create pipeline flow: Invalid components for agent "
         ++ agent_digit a) m in
  match arg with
  | CAbsent | CNotArray | CArray [] => invalid
  | CArray l =>
      mkManager
        (set a (mkState l 0 false) (pipelineStates m))
        (set a (mkEl (completed_class (get a (dom m)))
                     (map (fresh_summary a) l))
             (dom m))
        (console m)
  end.

(** [components.indexOf(stage)], strict equality on each entry. *)
Fixpoint index_from (l : list string) (x : string) (i : Z) : Z :=
  match l with
  | [] => -1
  | c :: l' => if (c =? x)%string then i else index_from l' x (i + 1)
  end.

Definition indexOf (l : list string) (stage : JS.value) : Z :=
  match stage with
  | JS.VStr x => index_from l x 0
  | _ => -1
  end.

(** [summaries.forEach(summary => summary.classList.remove('current'))] *)
Definition remove_current (l : list SummaryEl) : list SummaryEl :=
  map (fun e => mkSummary (el_id e) false (textContent e)) l.

(** [document.getElementById(id)] followed by an update of the element
    found: the first one in document order, or nothing. *)
Fixpoint with_element (id : string) (f : SummaryEl -> SummaryEl)
    (l : list SummaryEl) : option (list SummaryEl) :=
  match l with
  | [] => None
  | e :: l' =>
      if (el_id e =? id)%string then Some (f e :: l')
      else option_map (cons e) (with_element id f l')
  end.

Definition mark_current (data : stage_data) (e : SummaryEl) : SummaryEl :=
  mkSummary (el_id e) true
    (if JS.truthy (summary data)
     then JS.dquote ++ JS.to_string (summary data) ++ JS.dquote
     else textContent e).

Definition switchActiveFlag (a : agent) (m : Manager) : Manager :=
  let st := get a (pipelineStates m) in
  if isActive st then
    let st' := mkState (components st) (currentStep st) (negb (isActive st)) in
    let el := get a (dom m) in
    mkManager
      (set a st' (pipelineStates m))
      (set a (mkEl (negb (completed_class el)) (summaries el)) (dom m))
      (console m
         ++ [(Log, "Agent " ++ agent_digit a
                     ++ " pipeline completed and active flag switched")])
  else m.

Definition updatePipelineStage (a : agent) (stage : JS.value)
    (data : stage_data) (m : Manager) : Manager :=
  if negb (JS.truthy stage) then
    log_to Warn
      ("Cannot update pipeline stage: No stage provided for agent "
         ++ agent_digit a) m
  else
    let st := get a (pipelineStates m) in
    let stageIndex := indexOf (components st) stage in
    let st1 :=
      if stageIndex =? -1 then st
      else mkState (components st) stageIndex (isActive st) in
    let el := get a (dom m) in
    let cleared := remove_current (summaries el) in
    let id := summary_id a (JS.to_string stage) in
    match with_element id (mark_current data) cleared with
    | Some sums =>
        let dom1 := set a (mkEl (completed_class el) sums) (dom m) in
        if stageIndex =? Z.of_nat (length (components st)) - 1 then
          switchActiveFlag a
            (mkManager
               (set a (mkState (components st1) (currentStep st1) true)
                    (pipelineStates m))
               dom1 (console m))
        else mkManager (set a st1 (pipelineStates m)) dom1 (console m)
    | None =>
        log_to Warn ("Pipeline stage element not found: " ++ id)
          (mkManager (set a st1 (pipelineStates m))
                     (set a (mkEl (completed_class el) cleared) (dom m))
                     (console m))
    end.

Definition getActiveFlag (a : agent) (m : Manager) : bool :=
  isActive (get a (pipelineStates m)).

(** Calls a client of the manager can make, and their effect in order. *)
Inductive call : Type :=
| Create (a : agent) (arg : components_arg)
| Update (a : agent) (stage : JS.value) (data : stage_data)
| Switch (a : agent).

Definition exec_call (c : call) (m : Manager) : Manager :=
  match c with
  | Create a arg => createPipelineFlow a arg m
  | Update a stage data => updatePipelineStage a stage data m
  | Switch a => switchActiveFlag a m
  end.

Definition exec (calls : list call) (m : Manager) : Manager :=
  fold_left (fun acc c => exec_call c acc) calls m.

(** The rendered summaries of an agent are those of its stored
    components, in order. *)
Definition synced (a : agent) (m : Manager) : Prop :=
  map el_id (summaries (get a (dom m)))
  = map (summary_id a) (components (get a (pipelineStates m))).

(** Ids of the summaries that carry the 'current' class. *)
Definition current_ids (a : agent) (m : Manager) : list string :=
  map el_id (filter current (summaries (get a (dom m)))).

Definition summary_texts (a : agent) (m : Manager) : list string :=
  map textContent (summaries (get a (dom m))).

End Pipeline.

(** ** Chat manager *)

Module Chat.

(** A rendered message: the class of the message element, the text of
    its sender line, and the text, class and title of its content. *)
Record MessageEl : Type := mkMessage {
  className : string;
  senderText : string;
  contentText : string;
  contentClass : string;
  contentTitle : option string
}.

(** The optional fourth argument of addMessage; [{}] by default. *)
Record extra : Type := mkExtra {
  emotion : JS.value;
  original_speech : JS.value
}.
Definition no_extra : extra := mkExtra JS.VUndefined JS.VUndefined.

(** [UI.conversationMessages]: the children of the chat container, or
    nothing when the page has no such element.  The manager keeps no
    other record of the messages. *)
Definition container : Type := option (list MessageEl).

Definition messageClass (sender senderId : JS.value) : string :=
  "message" ++
  (if JS.is_string sender "Error" then " message-error"
   else if JS.is_number senderId 0 then " message-left"
   else if JS.is_number senderId 1 then " message-right"
   else " message-system").

Definition render (sender message senderId : JS.value) (data : extra)
    : MessageEl :=
  mkMessage
    (messageClass sender senderId)
    (JS.text_of sender)
    (if JS.truthy (emotion data)
     then "[" ++ JS.to_string (emotion data) ++ "]"
     else JS.text_of message)
    (if JS.truthy (emotion data) then "emotion-display" else "")
    (if JS.truthy (emotion data) && JS.truthy (original_speech data)
     then Some ("Original speech: " ++ JS.dquote
                  ++ JS.to_string (original_speech data) ++ JS.dquote)
     else None).

Definition addMessage (sender message senderId : JS.value) (data : extra)
    (c : container) : container :=
  match c with
  | None => None
  | Some log =>
      if JS.is_string sender "System" then Some log
      else Some (log ++ [render sender message senderId data])%list
  end.

Definition clearMessages (c : container) : container :=
  match c with
  | None => None
  | Some _ => Some []
  end.

(** Number of messages the container shows; 0 without a container. *)
Definition log_length (c : container) : nat :=
  match c with
  | None => 0%nat
  | Some log => length log
  end.

End Chat.

(** ** Conversation boxes (the three prompt/response slots) *)

Module Conversation.

(** Slot [i] of the page: the texts of [UI.promptBoxes[i]],
    [UI.promptTitles[i]], [UI.responseBoxes[i]] and
    [UI.responseTimeDisplays[i]]. *)
Record Box : Type := mkBox {
  promptBox : string;
  promptTitle : string;
  responseBox : string;
  responseTime : string
}.

Record Boxes : Type := mkBoxes { box0 : Box; box1 : Box; box2 : Box }.

Definition to_list (b : Boxes) : list Box := [box0 b; box1 b; box2 b].

(** Payload of llm_interaction. *)
Record entry : Type := mkEntry {
  prompt : JS.value;
  step_title : JS.value;
  response : JS.value;
  elapsed_time : JS.value
}.

(** What a pushed entry looks like in slot 0. *)
Definition render (d : entry) : Box :=
  mkBox (JS.text_of (prompt d))
        ("Step: " ++ JS.or_default (step_title d) "--")
        (JS.text_of (response d))
        ("Time elapsed: " ++ JS.or_default (elapsed_time d) "--").

Definition updateConversation (d : entry) (b : Boxes) : Boxes :=
  let b2 := mkBox (promptBox (box1 b)) (promptTitle (box1 b))
                  (responseBox (box1 b)) (responseTime (box1 b)) in
  let b1 := mkBox (promptBox (box0 b)) (promptTitle (box0 b))
                  (responseBox (box0 b)) (responseTime (box0 b)) in
  mkBoxes (render d) b1 b2.

(** A run of llm_interaction events, oldest first. *)
Definition push_all (pushes : list entry) (b : Boxes) : Boxes :=
  fold_left (fun acc d => updateConversation d acc) pushes b.

(** The saved history: four parallel arrays. *)
Record history : Type := mkHistory {
  prompts : list JS.value;
  responses : list JS.value;
  titles : list JS.value;
  times : list JS.value
}.

Definition set_box (i : nat) (x : Box) (b : Boxes) : Boxes :=
  match i with
  | 0%nat => mkBoxes x (box1 b) (box2 b)
  | 1%nat => mkBoxes (box0 b) x (box2 b)
  | 2%nat => mkBoxes (box0 b) (box1 b) x
  | _ => b
  end.

(** Body of the restore loop at index [i]. *)
Definition restored_box (h : history) (i : nat) : Box :=
  mkBox (JS.or_default (JS.at_index (prompts h) i) "")
        ("Step: " ++ JS.or_default (JS.at_index (titles h) i) "--")
        (JS.or_default (JS.at_index (responses h) i) "")
        ("Time elapsed: " ++ JS.or_default (JS.at_index (times h) i) "--").

Definition restoreConversationHistory (h : option history) (b : Boxes)
    : Boxes :=
  match h with
  | None => b
  | Some h =>
      fold_left (fun acc i => set_box i (restored_box h i) acc)
                (seq 0 (Nat.min (length (prompts h)) 3)) b
  end.

End Conversation.

(** ** Agent manager *)

Module Agent.

(** The text of the seven elements of an agent's panel. *)
Record Panel : Type := mkPanel {
  name_text : string;
  personality_text : string;
  tension_text : string;
  goal_text : string;
  tactic_text : string;
  plan_text : string;
  interior_text : string
}.

(** [data.plan] when it is an object. *)
Record plan_obj : Type := mkPlan {
  plan_goal : JS.value;
  plan_active_tactic : JS.value;
  plan_tactics : option (list string)
}.

(** [data.interior]: a primitive, or an object with [principles]. *)
Inductive interior_val : Type :=
| IValue (v : JS.value)
| IObject (principles : JS.value).

(** [agentState.pipeline] when it is an object: [components] is a
    primitive or an array, [stage] a primitive. *)
Inductive components_val : Type :=
| CValue (v : JS.value)
| CArray (l : list string).

Record pipeline_desc : Type := mkDesc {
  desc_components : components_val;
  desc_stage : JS.value
}.

(** An update payload.  [active_tactic] and [tactics] are the fields a
    sender may put on the payload itself rather than under [plan];
    updateAgentInfo reads neither. *)
Record patch : Type := mkPatch {
  name : JS.value;
  personality : JS.value;
  tension : JS.value;
  goal : JS.value;
  active_tactic : JS.value;
  tactics : option (list string);
  plan : option plan_obj;
  interior : interior_val;
  pipeline : option pipeline_desc
}.

Definition empty_patch : patch :=
  mkPatch JS.VUndefined JS.VUndefined JS.VUndefined JS.VUndefined
          JS.VUndefined None None (IValue JS.VUndefined) None.

(** Payloads built field by field, as in [{tension: 5}] or
    [{goal: 'x', plan: {goal: 'y'}}]. *)
Definition with_name (x : JS.value) (d : patch) : patch :=
  mkPatch x (personality d) (tension d) (goal d) (active_tactic d)
          (tactics d) (plan d) (interior d) (pipeline d).
Definition with_tension (x : JS.value) (d : patch) : patch :=
  mkPatch (name d) (personality d) x (goal d) (active_tactic d)
          (tactics d) (plan d) (interior d) (pipeline d).
Definition with_goal (x : JS.value) (d : patch) : patch :=
  mkPatch (name d) (personality d) (tension d) x (active_tactic d)
          (tactics d) (plan d) (interior d) (pipeline d).
Definition with_direct_tactics (x : JS.value) (l : option (list string))
    (d : patch) : patch :=
  mkPatch (name d) (personality d) (tension d) (goal d) x l
          (plan d) (interior d) (pipeline d).
Definition with_plan (x : option plan_obj) (d : patch) : patch :=
  mkPatch (name d) (personality d) (tension d) (goal d) (active_tactic d)
          (tactics d) x (interior d) (pipeline d).

(** [data.plan?.goal] and [data.plan?.active_tactic] *)
Definition plan_goal_of (d : patch) : JS.value :=
  match plan d with Some p => plan_goal p | None => JS.VUndefined end.
Definition plan_tactic_of (d : patch) : JS.value :=
  match plan d with
  | Some p => plan_active_tactic p
  | None => JS.VUndefined
  end.
Definition plan_tactics_of (d : patch) : option (list string) :=
  match plan d with Some p => plan_tactics p | None => None end.

Definition updateAgentInfo (d : patch) (p : Panel) : Panel :=
  mkPanel
    (if JS.truthy (name d) then JS.text_of (name d) else name_text p)
    (if JS.truthy (personality d) then JS.text_of (personality d)
     else personality_text p)
    (if JS.defined (tension d) then JS.text_of (tension d)
     else tension_text p)
    (if JS.truthy (goal d) then JS.text_of (goal d)
     else if JS.truthy (plan_goal_of d) then JS.text_of (plan_goal_of d)
     else goal_text p)
    (if JS.truthy (plan_tactic_of d) then JS.text_of (plan_tactic_of d)
     else tactic_text p)
    (match plan_tactics_of d with
     | Some l => String.concat ", " l
     | None => plan_text p
     end)
    (match interior d with
     | IObject principles =>
         if JS.truthy principles then JS.text_of principles else "--"
     | IValue v => if JS.truthy v then JS.text_of v else interior_text p
     end).

(** The part of the page AgentManager works on: the two panels and,
    through PipelineManager, the pipelines. *)
Record View : Type := mkView {
  panels : per_agent Panel;
  manager : Pipeline.Manager
}.

Definition applyUpdate (a : agent) (d : patch) (v : View) : View :=
  mkView (set a (updateAgentInfo d (get a (panels v))) (panels v))
         (manager v).

Definition components_truthy (c : components_val) : bool :=
  match c with
  | CValue v => JS.truthy v
  | CArray _ => true
  end.

Definition to_arg (c : components_val) : Pipeline.components_arg :=
  match c with
  | CValue JS.VUndefined | CValue JS.VNull => Pipeline.CAbsent
  | CValue _ => Pipeline.CNotArray
  | CArray l => Pipeline.CArray l
  end.

(** [agentState] is tested by the caller and again here; [None] is a
    missing or falsy slot. *)
Definition restoreAgent (agentState : option patch) (a : agent) (v : View)
    : View :=
  match agentState with
  | None => v
  | Some d =>
      let v1 := applyUpdate a d v in
      match pipeline d with
      | Some pd =>
          if components_truthy (desc_components pd) then
            let m1 := Pipeline.createPipelineFlow a
                        (to_arg (desc_components pd)) (manager v1) in
            let m2 :=
              if JS.truthy (desc_stage pd)
              then Pipeline.updatePipelineStage a (desc_stage pd)
                     Pipeline.no_data m1
              else m1 in
            mkView (panels v1) m2
          else v1
      | None => v1
      end
  end.

End Agent.

(** ** Socket event handlers *)

Module SocketEvents.

(** The State module. *)
Record AppState : Type := mkApp {
  conversationActive : JS.value;
  currentConversationId : JS.value;
  agent_names : per_agent JS.value
}.

Definition initial_app : AppState :=
  mkApp (JS.VBool false) JS.VNull
        (PerAgent (JS.VStr "Agent 1") (JS.VStr "Agent 2")).

(** Everything the handlers read and write: the chat container, the
    agent panels and pipelines, the conversation boxes, the State module
    and the events sent back to the server. *)
Record Page : Type := mkPage {
  chat : Chat.container;
  view : Agent.View;
  boxes : Conversation.Boxes;
  app : AppState;
  emitted : list string
}.

Record message : Type := mkMsg {
  sender : JS.value;
  text : JS.value;
  sender_id : JS.value
}.

(** Payload of restore_state.  A slot of [agent_states] is [None] when
    it is missing or falsy. *)
Record restore_payload : Type := mkRestore {
  agent_states : option (per_agent (option Agent.patch));
  conversation_history : option Conversation.history;
  messages : option (list message)
}.

(** [data.agent_states && data.agent_states[a]] *)
Definition slot_of (a : agent) (d : restore_payload) : option Agent.patch :=
  match agent_states d with
  | Some slots => get a slots
  | None => None
  end.

Record init_agent : Type := mkInit {
  init_id : agent;
  init_data : Agent.patch;
  init_components : Agent.components_val
}.

Record config_agent : Type := mkConfig {
  config_name : JS.value;
  config_personality : JS.value
}.

Inductive event : Type :=
| connect
| restore_state (d : restore_payload)
| initialize_agents (agents : list init_agent)
| config (agents : option (list config_agent))
| llm_interaction (d : Conversation.entry)
| message_event (d : message)
| add_message (d : message)
| conversation_status (active conversation_id status : JS.value)
| update_agent1 (d : Agent.patch)
| update_agent2 (d : Agent.patch)
| pipeline_update (agent_id : agent) (stage : JS.value)
    (d : option Pipeline.stage_data)
| agent_update (agent_id : agent) (d : Agent.patch).

Definition with_chat (f : Chat.container -> Chat.container) (p : Page)
    : Page :=
  mkPage (f (chat p)) (view p) (boxes p) (app p) (emitted p).

Definition with_view (f : Agent.View -> Agent.View) (p : Page) : Page :=
  mkPage (chat p) (f (view p)) (boxes p) (app p) (emitted p).

Definition with_boxes (f : Conversation.Boxes -> Conversation.Boxes)
    (p : Page) : Page :=
  mkPage (chat p) (view p) (f (boxes p)) (app p) (emitted p).

Definition with_app (f : AppState -> AppState) (p : Page) : Page :=
  mkPage (chat p) (view p) (boxes p) (f (app p)) (emitted p).

Definition set_agent_name (a : agent) (n : JS.value) (s : AppState)
    : AppState :=
  mkApp (conversationActive s) (currentConversationId s)
        (set a n (agent_names s)).

(** One slot of [data.agent_states] in the restore handler. *)
Definition restore_slot (a : agent) (slot : option Agent.patch) (p : Page)
    : Page :=
  match slot with
  | None => p
  | Some d =>
      let p1 := with_view (Agent.restoreAgent (Some d) a) p in
      if JS.truthy (Agent.name d)
      then with_app (set_agent_name a (Agent.name d)) p1
      else p1
  end.

Definition replay (msgs : list message) (c : Chat.container)
    : Chat.container :=
  fold_left
    (fun acc m =>
       Chat.addMessage (sender m) (text m) (sender_id m) Chat.no_extra acc)
    msgs c.

Definition on_restore_state (d : restore_payload) (p : Page) : Page :=
  let p1 := with_chat Chat.clearMessages p in
  let p2 :=
    match agent_states d with
    | Some slots =>
        restore_slot Agent1 (at1 slots)
          (restore_slot Agent0 (at0 slots) p1)
    | None => p1
    end in
  let p3 :=
    with_boxes
      (Conversation.restoreConversationHistory (conversation_history d))
      p2 in
  match messages d with
  | Some msgs => with_chat (replay msgs) p3
  | None => p3
  end.

(** [agent.components && agent.components.length > 0] *)
Definition has_components (c : Agent.components_val) : bool :=
  match c with
  | Agent.CArray l => negb (Nat.eqb (length l) 0)
  | Agent.CValue (JS.VStr s) => negb (s =? "")%string
  | Agent.CValue _ => false
  end.

Definition init_one (p : Page) (ag : init_agent) : Page :=
  let a := init_id ag in
  let p1 := with_view (Agent.applyUpdate a (init_data ag)) p in
  let p2 :=
    if has_components (init_components ag)
    then with_view
           (fun v =>
              Agent.mkView (Agent.panels v)
                (Pipeline.createPipelineFlow a
                   (Agent.to_arg (init_components ag)) (Agent.manager v)))
           p1
    else p1 in
  with_app (set_agent_name a (Agent.name (init_data ag))) p2.

Definition set_name_personality (c : config_agent) (pn : Agent.Panel)
    : Agent.Panel :=
  Agent.mkPanel
    (JS.text_of (config_name c))
    (if JS.truthy (config_personality c)
     then JS.text_of (config_personality c) else "--")
    (Agent.tension_text pn) (Agent.goal_text pn) (Agent.tactic_text pn)
    (Agent.plan_text pn) (Agent.interior_text pn).

Definition on_config (agents : option (list config_agent)) (p : Page)
    : Page :=
  match agents with
  | Some (c0 :: c1 :: _) =>
      with_view
        (fun v =>
           Agent.mkView
             (PerAgent
                (set_name_personality c0 (at0 (Agent.panels v)))
                (set_name_personality c1 (at1 (Agent.panels v))))
             (Agent.manager v))
        p
  | _ => p
  end.

Definition on_message (d : message) (p : Page) : Page :=
  with_chat
    (Chat.addMessage (sender d) (text d) (sender_id d) Chat.no_extra) p.

Definition with_manager (f : Pipeline.Manager -> Pipeline.Manager)
    (v : Agent.View) : Agent.View :=
  Agent.mkView (Agent.panels v) (f (Agent.manager v)).

Definition handle (e : event) (p : Page) : Page :=
  match e with
  | connect =>
      if JS.truthy (conversationActive (app p)) then p
      else mkPage (chat p) (view p) (boxes p) (app p)
                  (emitted p ++ ["request_autostart"])
  | restore_state d => on_restore_state d p
  | initialize_agents agents => fold_left init_one agents p
  | config agents => on_config agents p
  | llm_interaction d => with_boxes (Conversation.updateConversation d) p
  | message_event d => on_message d p
  | add_message d => on_message d p
  | conversation_status active conversation_id status =>
      let p1 :=
        with_app
          (fun s => mkApp active conversation_id (agent_names s)) p in
      with_chat
        (Chat.addMessage (JS.VStr "System")
           (JS.VStr ("Conversation status: " ++ JS.to_string status))
           JS.VUndefined Chat.no_extra)
        p1
  | update_agent1 d => with_view (Agent.applyUpdate Agent0 d) p
  | update_agent2 d => with_view (Agent.applyUpdate Agent1 d) p
  | pipeline_update a stage d =>
      if JS.truthy stage then
        with_view
          (with_manager
             (Pipeline.updatePipelineStage a stage
                (match d with Some x => x | None => Pipeline.no_data end)))
          p
      else p
  | agent_update a d =>
      (* The handler also assigns
         State.agents[id] = {name: data.name, ...State.agents[id]}; the
         spread comes last and State.agents[id] always has a name, so the
         stored name stays what it was. *)
      with_view (Agent.applyUpdate a d) p
  end.

(** Events are handled one at a time, in order of arrival. *)
Definition run (events : list event) (p : Page) : Page :=
  fold_left (fun acc e => handle e acc) events p.

(** A page as first loaded: an empty chat container, placeholders in
    the panels and boxes, no pipelines. *)
Definition placeholder_box : Conversation.Box :=
  Conversation.mkBox "" "Step: --" "" "Time elapsed: --".

Definition placeholder_panel : Agent.Panel :=
  Agent.mkPanel "--" "--" "--" "--" "--" "--" "--".

Definition loaded_page : Page :=
  mkPage (Some [])
         (Agent.mkView (PerAgent placeholder_panel placeholder_panel)
                       Pipeline.initial)
         (Conversation.mkBoxes placeholder_box placeholder_box
                               placeholder_box)
         initial_app [].

End SocketEvents.

(** ** Conversation controller *)

Module ConversationController.
Import SocketEvents.

(** startConversation: nothing when State says a conversation is active;
    otherwise the chat is cleared and start_conversation is sent.  State
    itself is only written by the conversation_status handler. *)
Definition startConversation (p : Page) : Page :=
  if JS.truthy (conversationActive (app p)) then p
  else mkPage (Chat.clearMessages (chat p)) (view p) (boxes p) (app p)
              (emitted p ++ ["start_conversation"]).

End ConversationController.

(** ** Agent page (the page that shows one agent's portrait and speech) *)

Module AgentPage.

(** A chat message as the agent page reads it. *)
Record message : Type := mkMessage {
  sender_id : JS.value;
  text : JS.value;
  emotion : JS.value;
  original_speech : JS.value;
  speech : JS.value
}.

(** [s.trim() !== ''] depends on which characters count as white space,
    a table of the language and not of this code: it is a parameter. *)
Section Trim.
Variable is_space : ascii -> bool.

Fixpoint blank (s : string) : bool :=
  match s with
  | EmptyString => true
  | String c s' => is_space c && blank s'
  end.

(** The tests findLatestAgentMessage makes before it trims, and the
    messages it accepts. *)
Definition candidate (m : message) : bool :=
  JS.is_number (sender_id m) 1 && JS.truthy (text m).

Definition speaks (m : message) : bool :=
  candidate m
  && match text m with
     | JS.VStr s => negb (blank s)
     | _ => false
     end.

(** Outcome of a search that calls [.trim()] on each candidate: a
    message, nothing, or the TypeError raised when [.trim] is missing
    (a truthy message that is not a string). *)
Inductive found : Type :=
| Found (m : message)
| NotFound
| TypeError.

(** The loop of findLatestAgentMessage, from the last index down;
    [later_first] is the array read backwards. *)
Fixpoint scan (later_first : list message) : found :=
  match later_first with
  | [] => NotFound
  | m :: rest =>
      if JS.is_number (sender_id m) 1 then
        if JS.truthy (text m) then
          match text m with
          | JS.VStr s => if negb (blank s) then Found m else scan rest
          | _ => TypeError
          end
        else scan rest
      else scan rest
  end.

Definition findLatestAgentMessage (messages : list message) : found :=
  scan (rev messages).

(** What happens to the dialogue box: a text is typed out, the box is
    left as it is, or the handler stops on a TypeError. *)
Inductive shown : Type :=
| Says (s : string)
| Silent
| Raises.

(** [if (speechToDisplay && speechToDisplay.trim() !== '')
       updateDialogueBox(speechToDisplay)] *)
Definition display (v : JS.value) : shown :=
  if JS.truthy v then
    match v with
    | JS.VStr s => if negb (blank s) then Says s else Silent
    | _ => Raises
    end
  else Silent.

(** [data.message && typeof data.message === 'string'] *)
Definition string_message (m : message) : JS.value :=
  match text m with
  | JS.VStr s => if JS.truthy (text m) then text m else JS.VStr ""
  | _ => JS.VStr ""
  end.

(** handleMessage, for the page of agent 1: speech, else original_speech,
    else a string message. *)
Definition handleMessage (m : message) : shown :=
  if negb (JS.is_number (sender_id m) 1) then Silent
  else
    display
      (if JS.truthy (speech m) then speech m
       else if JS.truthy (original_speech m) then original_speech m
       else string_message m).

(** handleStateRestore: the latest message of the agent, shown by its
    original_speech, else its message; [None] is a payload without a
    messages array. *)
Definition handleStateRestore (messages : option (list message)) : shown :=
  match messages with
  | None => Silent
  | Some msgs =>
      match findLatestAgentMessage msgs with
      | Found m =>
          display
            (if JS.truthy (original_speech m) then original_speech m
             else string_message m)
      | NotFound => Silent
      | TypeError => Raises
      end
  end.

End Trim.

(** [s.replace(/c/g, r)] for a single character [c]. *)
Fixpoint replace_all (c : ascii) (r : string) (s : string) : string :=
  match s with
  | EmptyString => EmptyString
  | String x s' =>
      if Ascii.eqb x c then r ++ replace_all c r s'
      else String x (replace_all c r s')
  end.

(** The escaping step of typeWriterEffect:
    [text.replace(/&/g,'&amp;').replace(/</g,'&lt;').replace(/>/g,'&gt;')]. *)
Definition escape (s : string) : string :=
  replace_all ">"%char "&gt;"
    (replace_all "<"%char "&lt;" (replace_all "&"%char "&amp;" s)).

(** The same text written one character at a time. *)
Definition escape_char (c : ascii) : string :=
  if Ascii.eqb c "&"%char then "&amp;"
  else if Ascii.eqb c "<"%char then "&lt;"
  else if Ascii.eqb c ">"%char then "&gt;"
  else String c EmptyString.

Fixpoint escape_chars (s : string) : string :=
  match s with
  | EmptyString => EmptyString
  | String c s' => escape_char c ++ escape_chars s'
  end.

(** The source a portrait is given for an emotion. *)
Definition portrait_src (folder emotion : string) : string :=
  "/static/" ++ folder ++ "/" ++ emotion ++ ".png".

(** [x === y] on primitives. *)
Definition strict_eq (x y : JS.value) : bool :=
  match x, y with
  | JS.VUndefined, JS.VUndefined => true
  | JS.VNull, JS.VNull => true
  | JS.VBool a, JS.VBool b => Bool.eqb a b
  | JS.VNum a, JS.VNum b => a =? b
  | JS.VStr a, JS.VStr b => (a =? b)%string
  | _, _ => false
  end.

(** updateAgentImage of the single-agent pages: the portrait is switched
    only when the emotion changes.  The state is [lastEmotion] and the
    image sources assigned so far, oldest first. *)
Record Portrait : Type := mkPortrait {
  lastEmotion : JS.value;
  assigned : list string
}.

Definition updateAgentImage (folder : string) (emotion : JS.value)
    (p : Portrait) : Portrait :=
  let e := if JS.truthy emotion then emotion else JS.VStr "neutral" in
  if strict_eq (lastEmotion p) e then p
  else mkPortrait e (assigned p ++ [portrait_src folder (JS.to_string e)]).

(** The portrait when the page is loaded, and a run of emotions. *)
Definition initial_portrait : Portrait :=
  mkPortrait (JS.VStr "neutral") [].

Definition show_all (folder : string) (emotions : list JS.value)
    (p : Portrait) : Portrait :=
  fold_left (fun acc e => updateAgentImage folder e acc) emotions p.

(** An emotion as the server sends it: a name, or nothing. *)
Definition emotion_name (v : JS.value) : bool :=
  match v with
  | JS.VStr _ | JS.VUndefined | JS.VNull => true
  | _ => false
  end.

(** No two neighbours of a list are equal. *)
Fixpoint no_repeat (l : list string) : Prop :=
  match l with
  | x :: ((y :: _) as rest) => x <> y /\ no_repeat rest
  | _ => True
  end.

End AgentPage.

(** ** Pipeline manager, the revision without stored state

    This revision of the module keeps nothing but the page: the marker
    class is 'active' and a summary is shown as it comes, without
    quotes. *)

Module StatelessPipeline.

(** The summaries under agent1-pipeline and agent2-pipeline, and the
    warnings written to the console.  [Pipeline.current] stands for the
    marker class, here 'active'. *)
Record Rendering : Type := mkRendering {
  summaries_of : per_agent (list Pipeline.SummaryEl);
  warnings : list string
}.

Definition initial : Rendering := mkRendering (PerAgent [] []) [].

Definition warn (msg : string) (r : Rendering) : Rendering :=
  mkRendering (summaries_of r) (warnings r ++ [msg]).

Definition createPipelineFlow (a : agent) (arg : Pipeline.components_arg)
    (r : Rendering) : Rendering :=
  let invalid :=
    warn ("Cannot create pipeline flow: Invalid components for agent "
            ++ agent_digit a) r in
  match arg with
  | Pipeline.CAbsent | Pipeline.CNotArray | Pipeline.CArray [] => invalid
  | Pipeline.CArray l =>
      mkRendering (set a (map (Pipeline.fresh_summary a) l) (summaries_of r))
                  (warnings r)
  end.

Definition mark_active (data : Pipeline.stage_data) (e : Pipeline.SummaryEl)
    : Pipeline.SummaryEl :=
  Pipeline.mkSummary (Pipeline.el_id e) true
    (if JS.truthy (Pipeline.summary data)
     then JS.text_of (Pipeline.summary data)
     else Pipeline.textContent e).

Definition updatePipelineStage (a : agent) (stage : JS.value)
    (data : Pipeline.stage_data) (r : Rendering) : Rendering :=
  if negb (JS.truthy stage) then
    warn ("Cannot update pipeline stage: No stage provided for agent "
            ++ agent_digit a) r
  else
    let cleared := Pipeline.remove_current (get a (summaries_of r)) in
    let id := Pipeline.summary_id a (JS.to_string stage) in
    match Pipeline.with_element id (mark_active data) cleared with
    | Some sums => mkRendering (set a sums (summaries_of r)) (warnings r)
    | None =>
        warn ("Pipeline stage element not found: " ++ id)
          (mkRendering (set a cleared (summaries_of r)) (warnings r))
    end.

Inductive call : Type :=
| Create (a : agent) (arg : Pipeline.components_arg)
| Update (a : agent) (stage : JS.value) (data : Pipeline.stage_data).

Definition exec_call (c : call) (r : Rendering) : Rendering :=
  match c with
  | Create a arg => createPipelineFlow a arg r
  | Update a stage data => updatePipelineStage a stage data r
  end.

Definition exec (calls : list call) (r : Rendering) : Rendering :=
  fold_left (fun acc c => exec_call c acc) calls r.

(** The same call made to the revision with stored state. *)
Definition stateful (c : call) : Pipeline.call :=
  match c with
  | Create a arg => Pipeline.Create a arg
  | Update a stage data => Pipeline.Update a stage data
  end.

(** A summary of this revision and one of the stateful revision that show
    the same: same id, same marker, and the same text, which the stateful
    revision puts between double quotes. *)
Definition same_summary (e e' : Pipeline.SummaryEl) : Prop :=
  Pipeline.el_id e' = Pipeline.el_id e
  /\ Pipeline.current e' = Pipeline.current e
  /\ ((Pipeline.textContent e = "" /\ Pipeline.textContent e' = "")
      \/ Pipeline.textContent e'
         = JS.dquote ++ Pipeline.textContent e ++ JS.dquote).

(** The warnings among the console entries of the stateful revision. *)
Definition warnings_of (m : Pipeline.Manager) : list string :=
  map snd
    (filter (fun entry => match fst entry with
                          | Pipeline.Warn => true
                          | Pipeline.Log => false
                          end)
            (Pipeline.console m)).

(** The two revisions show the same and have warned the same. *)
Definition alike (r : Rendering) (m : Pipeline.Manager) : Prop :=
  (forall a, Forall2 same_summary (get a (summaries_of r))
               (Pipeline.summaries (get a (Pipeline.dom m))))
  /\ warnings_of m = warnings r.

End StatelessPipeline.

(** ** Vocabulary for the properties *)

Module Observe.
Import SocketEvents.

(** The summaries of the addressed agent after an update with a truthy
    stage: markers cleared, then the element of that stage marked if the
    page has one. *)
Definition updated_summaries (a : agent) (stage : JS.value)
    (data : Pipeline.stage_data) (sums : list Pipeline.SummaryEl)
    : list Pipeline.SummaryEl :=
  match Pipeline.with_element (Pipeline.summary_id a (JS.to_string stage))
          (Pipeline.mark_current data) (Pipeline.remove_current sums) with
  | Some s => s
  | None => Pipeline.remove_current sums
  end.

(** The agent a pipeline call is addressed to. *)
Definition call_agent (c : Pipeline.call) : agent :=
  match c with
  | Pipeline.Create a _ => a
  | Pipeline.Update a _ _ => a
  | Pipeline.Switch a => a
  end.

Definition is_system (m : message) : bool := JS.is_string (sender m) "System".

(** A message as the socket handlers render it: no extra data. *)
Definition render_message (m : message) : Chat.MessageEl :=
  Chat.render (sender m) (text m) (sender_id m) Chat.no_extra.

(** A rendered message without emotion styling, without hover title and
    with a sender line other than 'System'. *)
Definition plain (e : Chat.MessageEl) : Prop :=
  Chat.contentClass e = ""
  /\ Chat.contentTitle e = None
  /\ Chat.senderText e <> "System".

(** The four parallel arrays of a history, from entries newest first. *)
Definition history_of (entries : list Conversation.entry)
    : Conversation.history :=
  Conversation.mkHistory
    (map Conversation.prompt entries)
    (map Conversation.response entries)
    (map Conversation.step_title entries)
    (map Conversation.elapsed_time entries).

Definition truncate (h : Conversation.history) : Conversation.history :=
  Conversation.mkHistory
    (firstn 3 (Conversation.prompts h))
    (firstn 3 (Conversation.responses h))
    (firstn 3 (Conversation.titles h))
    (firstn 3 (Conversation.times h)).

(** Values a box shows alike whether pushed or restored: everything but
    the falsy values that have a text of their own, 0 and false. *)
Definition shown_alike (v : JS.value) : bool :=
  match v with
  | JS.VNum n => negb (n =? 0)
  | JS.VBool b => b
  | _ => true
  end.

Definition is_status (e : event) : bool :=
  match e with
  | conversation_status _ _ _ => true
  | _ => false
  end.

(** The warning updatePipelineStage logs for a falsy stage. *)
Definition no_stage_warning (a : agent) : Pipeline.level * string :=
  (Pipeline.Warn,
   "Cannot update pipeline stage: No stage provided for agent "
     ++ agent_digit a).

Definition is_no_stage_warning (entry : Pipeline.level * string) : bool :=
  match entry with
  | (Pipeline.Warn, msg) =>
      (msg =? snd (no_stage_warning Agent0))%string
      || (msg =? snd (no_stage_warning Agent1))%string
  | _ => false
  end.

(** The no-stage warnings among the console entries of a manager. *)
Definition no_stage_warnings (m : Pipeline.Manager)
    : list (Pipeline.level * string) :=
  filter is_no_stage_warning (Pipeline.console m).

End Observe.

(** * Properties *)

(** ** Two-slot objects and strings *)

Lemma get_set_same {A} (a : agent) (x : A) (m : per_agent A) :
  get a (set a x m) = x.
Proof. destruct a; reflexivity. Qed.

Lemma get_set_other {A} (a b : agent) (x : A) (m : per_agent A) :
  a <> b -> get b (set a x m) = get b m.
Proof. destruct a, b; intros H; try reflexivity; congruence. Qed.

Lemma set_get_frame {A} (a : agent) (x : A) (m : per_agent A) :
  get (other a) (set a x m) = get (other a) m.
Proof. destruct a; reflexivity. Qed.

Lemma append_inj_l (s a b : string) : s ++ a = s ++ b -> a = b.
Proof.
  induction s as [|c s IH]; simpl; intros H.
  - exact H.
  - inversion H; auto.
Qed.

Lemma length_append (a b : string) :
  String.length (a ++ b) = (String.length a + String.length b)%nat.
Proof. induction a as [|c a IH]; simpl; [reflexivity | now rewrite IH]. Qed.

Lemma append_inj_r (a b s : string) : a ++ s = b ++ s -> a = b.
Proof.
  revert b; induction a as [|c a IH]; intros [|d b] H; simpl in H.
  - reflexivity.
  - apply (f_equal String.length) in H. simpl in H.
    rewrite length_append in H. lia.
  - apply (f_equal String.length) in H. simpl in H.
    rewrite length_append in H. lia.
  - inversion H; subst. f_equal. eauto.
Qed.

(** ** Pipeline manager: supporting lemmas *)

Module PipelineFacts.
Import Pipeline.

Lemma summary_id_inj (a : agent) (c x : string) :
  summary_id a c = summary_id a x -> c = x.
Proof.
  unfold summary_id. intros H.
  apply append_inj_l in H. apply append_inj_l in H.
  apply append_inj_r in H. exact H.
Qed.

Lemma index_from_notin (l : list string) (x : string) (i : Z) :
  ~ In x l -> index_from l x i = -1.
Proof.
  revert i; induction l as [|c l IH]; intros i H; simpl.
  - reflexivity.
  - destruct (String.eqb_spec c x) as [->|Hne].
    + exfalso; apply H; left; reflexivity.
    + apply IH. intros Hin; apply H; right; exact Hin.
Qed.

Lemma index_from_in (l : list string) (x : string) (i : Z) :
  In x l -> i <= index_from l x i < i + Z.of_nat (length l).
Proof.
  revert i; induction l as [|c l IH]; intros i H; simpl.
  - destruct H.
  - destruct (String.eqb_spec c x) as [->|Hne].
    + lia.
    + destruct H as [H|H]; [congruence|].
      specialize (IH (i + 1) H). lia.
Qed.

Lemma index_last_in (l : list string) (x : string) :
  l <> [] -> index_from l x 0 = Z.of_nat (length l) - 1 -> In x l.
Proof.
  intros Hne Hidx.
  destruct (in_dec string_dec x l) as [Hin|Hnin]; [exact Hin|].
  rewrite (index_from_notin l x 0 Hnin) in Hidx.
  destruct l as [|c l]; [congruence|].
  change (length (c :: l)) with (S (length l)) in Hidx. lia.
Qed.

Lemma remove_current_ids (l : list SummaryEl) :
  map el_id (remove_current l) = map el_id l.
Proof. unfold remove_current. rewrite map_map. reflexivity. Qed.

Lemma remove_current_texts (l : list SummaryEl) :
  map textContent (remove_current l) = map textContent l.
Proof. unfold remove_current. rewrite map_map. reflexivity. Qed.

Lemma remove_current_none (l : list SummaryEl) :
  filter current (remove_current l) = [].
Proof. induction l as [|e l IH]; simpl; auto. Qed.

Lemma with_element_none (id : string) f (l : list SummaryEl) :
  ~ In id (map el_id l) -> with_element id f l = None.
Proof.
  induction l as [|e l IH]; simpl; intros H.
  - reflexivity.
  - destruct (String.eqb_spec (el_id e) id) as [Heq|Hne].
    + exfalso; apply H; left; exact Heq.
    + rewrite IH; [reflexivity|]. intros Hin; apply H; right; exact Hin.
Qed.

Lemma with_element_some (id : string) f (l : list SummaryEl) :
  In id (map el_id l) -> exists l', with_element id f l = Some l'.
Proof.
  induction l as [|e l IH]; simpl; intros H.
  - destruct H.
  - destruct (String.eqb_spec (el_id e) id) as [Heq|Hne].
    + eexists; reflexivity.
    + destruct H as [H|H]; [congruence|].
      destruct (IH H) as [l' ->]. eexists; reflexivity.
Qed.

Lemma with_element_ids (id : string) f (l l' : list SummaryEl) :
  (forall e, el_id (f e) = el_id e) ->
  with_element id f l = Some l' -> map el_id l' = map el_id l.
Proof.
  intros Hf. revert l'; induction l as [|e l IH]; simpl; intros l' H.
  - discriminate.
  - destruct (String.eqb (el_id e) id).
    + inversion H; subst. simpl. rewrite Hf. reflexivity.
    + destruct (with_element id f l) as [r|]; simpl in H; [|discriminate].
      inversion H; subst. simpl. f_equal. apply IH. reflexivity.
Qed.

Lemma notin_summary_ids (a : agent) (x : string) (l : list string) :
  ~ In x l -> ~ In (summary_id a x) (map (summary_id a) l).
Proof.
  intros H Hin. apply in_map_iff in Hin. destruct Hin as [c [Heq Hc]].
  apply summary_id_inj in Heq. subst. contradiction.
Qed.

(** *** The rendering follows the stored components *)

Lemma synced_initial (a : agent) : synced a initial.
Proof. destruct a; reflexivity. Qed.

Lemma synced_log (a : agent) lv msg m :
  synced a m -> synced a (log_to lv msg m).
Proof. intros H; exact H. Qed.

Lemma synced_create (a b : agent) arg m :
  synced b m -> synced b (createPipelineFlow a arg m).
Proof.
  intros H. unfold createPipelineFlow.
  destruct arg as [| |[|c l]]; try exact H.
  unfold synced; simpl.
  destruct a, b; simpl; try exact H;
    rewrite map_map; reflexivity.
Qed.

Lemma synced_switch (a b : agent) m :
  synced b m -> synced b (switchActiveFlag a m).
Proof.
  intros H. unfold switchActiveFlag.
  destruct (isActive (get a (pipelineStates m))); [|exact H].
  unfold synced in *; simpl. destruct a, b; simpl in *; exact H.
Qed.

Lemma mark_current_id data e : el_id (mark_current data e) = el_id e.
Proof. reflexivity. Qed.

Lemma synced_update (a b : agent) stage data m :
  synced b m -> synced b (updatePipelineStage a stage data m).
Proof.
  intros H. unfold updatePipelineStage.
  destruct (negb (JS.truthy stage)); [exact H|].
  set (st := get a (pipelineStates m)).
  set (idx := indexOf (components st) stage).
  set (el := get a (dom m)).
  destruct (with_element _ _ _) as [sums|] eqn:Hw.
  - apply with_element_ids in Hw; [|apply mark_current_id].
    rewrite remove_current_ids in Hw.
    assert (Hs : synced b
      (mkManager
         (set a (mkState (components st)
                   (if idx =? -1 then currentStep st else idx)
                   (isActive st)) (pipelineStates m))
         (set a (mkEl (completed_class el) sums) (dom m)) (console m))).
    { unfold synced in *; simpl. subst st el.
      destruct a, b; simpl in *; congruence. }
    destruct (idx =? Z.of_nat (length (components st)) - 1).
    + apply synced_switch.
      unfold synced in *; simpl. subst st el.
      destruct (idx =? -1); destruct a, b; simpl in *; congruence.
    + unfold synced in *; simpl. subst st el.
      destruct (idx =? -1); destruct a, b; simpl in *; congruence.
  - apply synced_log. unfold synced in *; simpl. subst st el.
    destruct (idx =? -1); destruct a, b; simpl in *;
      rewrite ?remove_current_ids; congruence.
Qed.

Create HintDb pipeline.
#[export] Hint Resolve synced_initial synced_create synced_switch
  synced_update : pipeline.

Lemma synced_exec (calls : list call) (b : agent) (m : Manager) :
  synced b m -> synced b (exec calls m).
Proof.
  revert m; induction calls as [|c calls IH]; intros m H; simpl.
  - exact H.
  - apply IH. destruct c; simpl; auto with pipeline.
Qed.

Lemma synced_reachable (calls : list call) (b : agent) :
  synced b (exec calls initial).
Proof. apply synced_exec; auto with pipeline. Qed.

#[export] Hint Resolve synced_exec synced_reachable : pipeline.

End PipelineFacts.

Module PipelineSteps.
Import Pipeline PipelineFacts.

Lemma set_get_same {A} (a : agent) (m : per_agent A) :
  set a (get a m) m = m.
Proof. destruct a, m; reflexivity. Qed.

Lemma truthy_name (n : string) : n <> "" -> JS.truthy (JS.VStr n) = true.
Proof.
  intros H. simpl. destruct (String.eqb_spec n ""); [contradiction|].
  reflexivity.
Qed.

(** What switchActiveFlag does once the flag has been raised. *)
Lemma switch_raised (a : agent) cs step ps d c :
  switchActiveFlag a (mkManager (set a (mkState cs step true) ps) d c)
  = mkManager
      (set a (mkState cs step false) ps)
      (set a (mkEl (negb (completed_class (get a d)))
                   (summaries (get a d))) d)
      (c ++ [(Log, "Agent " ++ agent_digit a
                     ++ " pipeline completed and active flag switched")]).
Proof.
  unfold switchActiveFlag. cbn [pipelineStates dom console].
  rewrite get_set_same. cbn [isActive components currentStep negb].
  destruct a, ps; reflexivity.
Qed.

(** An update that names the last stored component of a rendered
    pipeline. *)
Lemma update_last_stage (a : agent) (n : string) data (m : Manager) :
  synced a m ->
  components (get a (pipelineStates m)) <> [] ->
  n <> "" ->
  index_from (components (get a (pipelineStates m))) n 0
  = Z.of_nat (length (components (get a (pipelineStates m)))) - 1 ->
  let m' := updatePipelineStage a (JS.VStr n) data m in
  components (get a (pipelineStates m'))
  = components (get a (pipelineStates m))
  /\ currentStep (get a (pipelineStates m'))
     = Z.of_nat (length (components (get a (pipelineStates m)))) - 1
  /\ isActive (get a (pipelineStates m')) = false
  /\ completed_class (get a (dom m'))
     = negb (completed_class (get a (dom m))).
Proof.
  intros Hs Hne Hn Hidx m'. subst m'.
  unfold updatePipelineStage.
  rewrite (truthy_name n Hn). cbn [negb JS.to_string indexOf].
  pose proof (index_last_in _ _ Hne Hidx) as Hin.
  destruct (with_element_some (summary_id a n) (mark_current data)
              (remove_current (summaries (get a (dom m))))) as [sums Hw].
  { rewrite remove_current_ids, Hs. apply in_map. exact Hin. }
  rewrite Hw, Hidx, Z.eqb_refl.
  rewrite switch_raised.
  cbn [pipelineStates dom]. rewrite !get_set_same.
  cbn [components currentStep isActive completed_class].
  repeat split.
  - destruct (_ =? -1); reflexivity.
  - destruct (Z.eqb_spec (Z.of_nat (length (components
                (get a (pipelineStates m)))) - 1) (-1)) as [E|E];
      cbn [currentStep]; [|reflexivity].
    destruct (components (get a (pipelineStates m))) as [|c l];
      [congruence|].
    change (length (c :: l)) with (S (length l)) in E. lia.
Qed.

(** An update with a name that is not among the stored components. *)
Lemma update_unknown_stage (a : agent) (n : string) data (m : Manager) :
  synced a m ->
  n <> "" ->
  ~ In n (components (get a (pipelineStates m))) ->
  updatePipelineStage a (JS.VStr n) data m
  = mkManager
      (pipelineStates m)
      (set a (mkEl (completed_class (get a (dom m)))
                   (remove_current (summaries (get a (dom m)))))
           (dom m))
      (console m
         ++ [(Warn, "Pipeline stage element not found: "
                      ++ summary_id a n)]).
Proof.
  intros Hs Hn Hnin.
  unfold updatePipelineStage.
  rewrite (truthy_name n Hn). cbn [negb JS.to_string indexOf].
  rewrite (index_from_notin _ _ 0 Hnin).
  change (-1 =? -1) with true. cbv iota.
  rewrite with_element_none.
  - unfold log_to. cbn [pipelineStates dom console].
    rewrite set_get_same. reflexivity.
  - rewrite remove_current_ids, Hs. apply notin_summary_ids. exact Hnin.
Qed.

(** No call leaves the flag raised. *)
Ltac by_agents H a b :=
  destruct a, b; cbn;
  first [reflexivity | exact (H Agent0) | exact (H Agent1)].

Lemma flag_down_call (c : call) (m : Manager) :
  (forall a, isActive (get a (pipelineStates m)) = false) ->
  forall a, isActive (get a (pipelineStates (exec_call c m))) = false.
Proof.
  intros H b. destruct c as [a arg|a stage data|a]; cbn [exec_call].
  - unfold createPipelineFlow.
    destruct arg as [| |[|c l]]; try apply H.
    cbn [pipelineStates]. by_agents H a b.
  - unfold updatePipelineStage.
    destruct (negb (JS.truthy stage)); [apply H|].
    destruct (with_element _ _ _) as [sums|].
    + destruct (_ =? Z.of_nat _ - 1).
      * destruct (indexOf _ stage =? -1); cbn [components currentStep];
          rewrite switch_raised; cbn [pipelineStates]; by_agents H a b.
      * cbn [pipelineStates].
        destruct (indexOf _ stage =? -1); by_agents H a b.
    + unfold log_to; cbn [pipelineStates].
      destruct (indexOf _ stage =? -1); by_agents H a b.
  - unfold switchActiveFlag.
    destruct (isActive (get a (pipelineStates m))) eqn:E; [|apply H].
    rewrite H in E. discriminate.
Qed.

Lemma flag_down_exec (calls : list call) (m : Manager) :
  (forall a, isActive (get a (pipelineStates m)) = false) ->
  forall a, isActive (get a (pipelineStates (exec calls m))) = false.
Proof.
  revert m; induction calls as [|c calls IH]; intros m H; simpl.
  - exact H.
  - apply IH. apply flag_down_call. exact H.
Qed.

Lemma flag_down_initial (a : agent) :
  isActive (get a (pipelineStates initial)) = false.
Proof. destruct a; reflexivity. Qed.

End PipelineSteps.

(** ** Pipeline manager: createPipelineFlow, updatePipelineStage and the
    completion flag *)

Import Pipeline PipelineFacts PipelineSteps.

(** C9, as the code has it.  createPipelineFlow with a missing,
    non-array or empty stage list logs a warning and changes neither the
    stored pipeline states nor the rendering.  With a non-empty list it
    stores the stages for that agent with [currentStep] at 0, the index of
    the first stage, and [isActive] false, and replaces the rendered
    summaries by fresh ones, one per stage in order, each with empty text
    and none marked current.  The rendered 'pipeline-completed' class is
    not reset: it stays what it was.  The other agent and the console are
    left as they were. *)
Theorem createPipelineFlow_resets (a : agent) (m : Manager) :
  let warned :=
    mkManager (pipelineStates m) (dom m)
      (console m
         ++ [(Warn, "Cannot create pipeline flow: Invalid components for agent "
                      ++ agent_digit a)]) in
  createPipelineFlow a CAbsent m = warned
  /\ createPipelineFlow a CNotArray m = warned
  /\ createPipelineFlow a (CArray []) m = warned
  /\ forall (c : string) (l : list string),
       let m' := createPipelineFlow a (CArray (c :: l)) m in
       get a (pipelineStates m') = mkState (c :: l) 0 false
       /\ getActiveFlag a m' = false
       /\ summaries (get a (dom m')) = map (fresh_summary a) (c :: l)
       /\ current_ids a m' = []
       /\ Forall (fun t => t = "") (summary_texts a m')
       /\ length (summary_texts a m') = length (c :: l)
       /\ completed_class (get a (dom m')) = completed_class (get a (dom m))
       /\ get (other a) (pipelineStates m')
          = get (other a) (pipelineStates m)
       /\ get (other a) (dom m') = get (other a) (dom m)
       /\ console m' = console m.
Proof.
  cbv zeta. repeat split; try reflexivity.
  - cbn [createPipelineFlow pipelineStates]. apply get_set_same.
  - unfold getActiveFlag. cbn [createPipelineFlow pipelineStates].
    rewrite get_set_same. reflexivity.
  - cbn [createPipelineFlow dom]. rewrite get_set_same. reflexivity.
  - unfold current_ids. cbn [createPipelineFlow dom].
    rewrite get_set_same. cbn [summaries].
    generalize (c :: l). intros l0.
    induction l0 as [|x l0 IH]; [reflexivity | exact IH].
  - unfold summary_texts. cbn [createPipelineFlow dom].
    rewrite get_set_same. cbn [summaries]. rewrite map_map.
    apply Forall_forall. intros t Hin. apply in_map_iff in Hin.
    destruct Hin as [x [Hx _]]. symmetry. exact Hx.
  - unfold summary_texts. cbn [createPipelineFlow dom].
    rewrite get_set_same. cbn [summaries]. rewrite !length_map.
    reflexivity.
  - cbn [createPipelineFlow dom]. rewrite get_set_same. reflexivity.
  - cbn [createPipelineFlow pipelineStates]. apply set_get_frame.
  - cbn [createPipelineFlow dom]. apply set_get_frame.
Qed.

(** C9, counterexample.  Agent 0 completes the pipeline ['a','b'], which
    turns the 'pipeline-completed' class on, and is then given the new
    pipeline ['x','y'].  The rebuilt pipeline still shows the class, and
    completing it turns the class off.  The stored [currentStep] after the
    rebuild is 0, and announcing the first stage 'x' leaves the stored
    states exactly as the rebuild left them: the index is that of the
    first stage, not a value of its own for no stage. *)
Lemma rebuilt_pipeline_still_completed :
  let m1 := exec [Create Agent0 (CArray ["a"; "b"]);
                  Update Agent0 (JS.VStr "b") no_data] initial in
  let m2 := createPipelineFlow Agent0 (CArray ["x"; "y"]) m1 in
  let m3 := updatePipelineStage Agent0 (JS.VStr "y") no_data m2 in
  completed_class (get Agent0 (dom m1)) = true
  /\ completed_class (get Agent0 (dom m2)) = true
  /\ completed_class (get Agent0 (dom m2)) <> false
  /\ completed_class (get Agent0 (dom m3)) = false
  /\ currentStep (get Agent0 (pipelineStates m2)) = 0
  /\ pipelineStates (updatePipelineStage Agent0 (JS.VStr "x") no_data m2)
     = pipelineStates m2.
Proof.
  cbv zeta. repeat split; try reflexivity. vm_compute. discriminate.
Qed.

(** The 'pipeline-completed' class of the pipeline element is not part of
    what createPipelineFlow replaces. *)
Lemma createPipelineFlow_keeps_completed_class (a : agent) arg (m : Manager) :
  completed_class (get a (dom (createPipelineFlow a arg m)))
  = completed_class (get a (dom m)).
Proof.
  unfold createPipelineFlow. destruct arg as [| |[|c l]]; try reflexivity.
  cbn [dom]. rewrite get_set_same. reflexivity.
Qed.

(** C10.  From the initial manager, after any sequence of
    createPipelineFlow, updatePipelineStage and switchActiveFlag calls,
    getActiveFlag returns false for both agents; an update that names the
    last stage of a built pipeline flips the rendered 'pipeline-completed'
    class instead. *)
Theorem active_flag_always_false :
  (forall (calls : list call) (a : agent),
     getActiveFlag a (exec calls initial) = false)
  /\ (forall (calls : list call) (a : agent) (n : string) data,
        let m := exec calls initial in
        let cs := components (get a (pipelineStates m)) in
        cs <> [] -> n <> "" ->
        index_from cs n 0 = Z.of_nat (length cs) - 1 ->
        completed_class
          (get a (dom (updatePipelineStage a (JS.VStr n) data m)))
        = negb (completed_class (get a (dom m)))).
Proof.
  split.
  - intros calls a. unfold getActiveFlag.
    apply flag_down_exec. apply flag_down_initial.
  - intros calls a n data m cs Hne Hn Hidx.
    apply (update_last_stage a n data m); auto.
    subst m. auto with pipeline.
Qed.

Lemma active_flag_always_false_witness :
  getActiveFlag Agent0
    (exec [Create Agent0 (CArray ["a"; "b"; "c"]);
           Update Agent0 (JS.VStr "c") no_data] initial) = false
  /\ completed_class
       (get Agent0
          (dom (updatePipelineStage Agent0 (JS.VStr "c") no_data
                  (exec [Create Agent0 (CArray ["a"; "b"; "c"])] initial))))
     = true.
Proof.
  split.
  - exact (proj1 active_flag_always_false
             [Create Agent0 (CArray ["a"; "b"; "c"]);
              Update Agent0 (JS.VStr "c") no_data] Agent0).
  - apply (proj2 active_flag_always_false
             [Create Agent0 (CArray ["a"; "b"; "c"])] Agent0 "c" no_data).
    + simpl. discriminate.
    + discriminate.
    + reflexivity.
Defined.

(** C3, as the code has it.  In any state reached from the initial
    manager, an update that names the last stage of a built pipeline sets
    [currentStep] to the last index, leaves the [isActive] flag false (it is
    raised and switched back within the call) and flips the rendered
    'pipeline-completed' class; a second such update flips the class back
    while [isActive] is false again. *)
Theorem last_stage_completion (calls : list call) (a : agent) (n : string)
    (data : stage_data) :
  let m := exec calls initial in
  let cs := components (get a (pipelineStates m)) in
  let last := Z.of_nat (length cs) - 1 in
  cs <> [] -> n <> "" -> index_from cs n 0 = last ->
  let m1 := updatePipelineStage a (JS.VStr n) data m in
  let m2 := updatePipelineStage a (JS.VStr n) data m1 in
  currentStep (get a (pipelineStates m1)) = last
  /\ getActiveFlag a m1 = false
  /\ completed_class (get a (dom m1)) = negb (completed_class (get a (dom m)))
  /\ currentStep (get a (pipelineStates m2)) = last
  /\ getActiveFlag a m2 = false
  /\ completed_class (get a (dom m2)) = completed_class (get a (dom m)).
Proof.
  intros m cs last Hne Hn Hidx m1 m2.
  assert (Hs : synced a m) by (subst m; auto with pipeline).
  destruct (update_last_stage a n data m Hs Hne Hn Hidx)
    as [Hc1 [Hstep1 [Hact1 Hcls1]]].
  fold m1 in Hc1, Hstep1, Hact1, Hcls1.
  assert (Hs1 : synced a m1) by (subst m1; auto with pipeline).
  assert (Hne1 : components (get a (pipelineStates m1)) <> [])
    by (rewrite Hc1; exact Hne).
  assert (Hidx1 : index_from (components (get a (pipelineStates m1))) n 0
                  = Z.of_nat (length (components (get a (pipelineStates m1))))
                    - 1)
    by (rewrite Hc1; exact Hidx).
  destruct (update_last_stage a n data m1 Hs1 Hne1 Hn Hidx1)
    as [Hc2 [Hstep2 [Hact2 Hcls2]]].
  fold m2 in Hc2, Hstep2, Hact2, Hcls2.
  unfold getActiveFlag. repeat split; auto.
  - rewrite Hstep2, Hc1. reflexivity.
  - rewrite Hcls2, Hcls1. apply negb_involutive.
Qed.

Lemma last_stage_completion_witness :
  let m := exec [Create Agent0 (CArray ["a"; "b"; "c"])] initial in
  let m1 := updatePipelineStage Agent0 (JS.VStr "c") no_data m in
  let m2 := updatePipelineStage Agent0 (JS.VStr "c") no_data m1 in
  currentStep (get Agent0 (pipelineStates m1)) = 2
  /\ getActiveFlag Agent0 m1 = false
  /\ completed_class (get Agent0 (dom m1)) = true
  /\ currentStep (get Agent0 (pipelineStates m2)) = 2
  /\ getActiveFlag Agent0 m2 = false
  /\ completed_class (get Agent0 (dom m2)) = false.
Proof.
  apply (last_stage_completion [Create Agent0 (CArray ["a"; "b"; "c"])]
           Agent0 "c" no_data).
  - simpl. discriminate.
  - discriminate.
  - reflexivity.
Defined.

(** C3, counterexample.  On the pipeline ['a','b','c'] of agent 0 the
    completion flag the manager stores is false before the first 'c'
    update, false after it and false after the second: the update does not
    toggle it and repeated updates do not alternate it. *)
Lemma completion_flag_does_not_alternate :
  let m0 := createPipelineFlow Agent0 (CArray ["a"; "b"; "c"]) initial in
  let m1 := updatePipelineStage Agent0 (JS.VStr "c") no_data m0 in
  let m2 := updatePipelineStage Agent0 (JS.VStr "c") no_data m1 in
  getActiveFlag Agent0 m0 = false
  /\ getActiveFlag Agent0 m1 = false
  /\ getActiveFlag Agent0 m2 = false
  /\ getActiveFlag Agent0 m1 <> negb (getActiveFlag Agent0 m0)
  /\ getActiveFlag Agent0 m2 <> negb (getActiveFlag Agent0 m1).
Proof. cbv zeta. repeat split; try reflexivity; vm_compute; discriminate. Qed.

(** C6, as the code has it.  In any state reached from the initial
    manager: an update with a falsy stage only logs a warning; an update
    with a non-empty name that is not among the agent's components leaves
    the stored pipeline states, the summary texts, the completion class
    and the other agent's rendering unchanged and logs a warning, but it
    removes the 'current' marker from every summary of that agent.  Either
    way the call returns: for the agent ids 0 and 1 nothing on this path
    can throw. *)
Theorem unknown_stage_rejected (calls : list call) (a : agent)
    (stage : JS.value) (data : stage_data) :
  let m := exec calls initial in
  let m' := updatePipelineStage a stage data m in
  (JS.truthy stage = false ->
     pipelineStates m' = pipelineStates m
     /\ dom m' = dom m
     /\ console m'
        = (console m
             ++ [(Warn,
                  ("Cannot update pipeline stage: No stage provided for agent "
                     ++ agent_digit a)%string)])%list)
  /\ (forall n : string,
        stage = JS.VStr n -> n <> "" ->
        ~ In n (components (get a (pipelineStates m))) ->
        pipelineStates m' = pipelineStates m
        /\ summary_texts a m' = summary_texts a m
        /\ map el_id (summaries (get a (dom m')))
           = map el_id (summaries (get a (dom m)))
        /\ completed_class (get a (dom m')) = completed_class (get a (dom m))
        /\ get (other a) (dom m') = get (other a) (dom m)
        /\ current_ids a m' = []
        /\ console m'
           = (console m
                ++ [(Warn, ("Pipeline stage element not found: "
                              ++ summary_id a n)%string)])%list).
Proof.
  intros m m'. split.
  - intros Hf. subst m'. unfold updatePipelineStage. rewrite Hf.
    cbn [negb]. repeat split.
  - intros n -> Hn Hnin.
    assert (Hs : synced a m) by (subst m; auto with pipeline).
    subst m'. rewrite (update_unknown_stage a n data m Hs Hn Hnin).
    unfold summary_texts, current_ids. cbn [pipelineStates dom console].
    rewrite get_set_same, set_get_frame. cbn [summaries completed_class].
    rewrite remove_current_texts, remove_current_ids, remove_current_none.
    repeat split.
Qed.

Lemma unknown_stage_rejected_witness :
  let m := exec [Create Agent0 (CArray ["a"; "b"; "c"]);
                 Update Agent0 (JS.VStr "b") no_data] initial in
  (pipelineStates (updatePipelineStage Agent0 (JS.VStr "") no_data m)
   = pipelineStates m
   /\ dom (updatePipelineStage Agent0 (JS.VStr "") no_data m) = dom m)
  /\ (pipelineStates (updatePipelineStage Agent0 (JS.VStr "zzz") no_data m)
      = pipelineStates m
      /\ current_ids Agent0
           (updatePipelineStage Agent0 (JS.VStr "zzz") no_data m) = []).
Proof.
  cbv zeta. split.
  - pose proof (proj1 (unknown_stage_rejected
                         [Create Agent0 (CArray ["a"; "b"; "c"]);
                          Update Agent0 (JS.VStr "b") no_data]
                         Agent0 (JS.VStr "") no_data) eq_refl) as H.
    split; [exact (proj1 H) | exact (proj1 (proj2 H))].
  - pose proof (proj2 (unknown_stage_rejected
                         [Create Agent0 (CArray ["a"; "b"; "c"]);
                          Update Agent0 (JS.VStr "b") no_data]
                         Agent0 (JS.VStr "zzz") no_data) "zzz" eq_refl) as H.
    assert (Hn : "zzz" <> "") by discriminate.
    assert (Hnin : ~ In "zzz" ["a"; "b"; "c"]).
    { simpl. intros [E|[E|[E|[]]]]; discriminate. }
    specialize (H Hn Hnin).
    split; [exact (proj1 H) | exact (proj1 (proj2 (proj2 (proj2 (proj2 (proj2 H))))))].
Defined.

(** C6, counterexample.  Agent 0 has the pipeline ['a','b','c'] with 'b'
    marked current; an update for the unknown stage 'zzz' takes the marker
    away, so the rendering after the call differs from the one before. *)
Lemma unknown_stage_clears_marker :
  let m0 := createPipelineFlow Agent0 (CArray ["a"; "b"; "c"]) initial in
  let m1 := updatePipelineStage Agent0 (JS.VStr "b") no_data m0 in
  let m2 := updatePipelineStage Agent0 (JS.VStr "zzz") no_data m1 in
  current_ids Agent0 m1 = ["0-b-summary"]
  /\ current_ids Agent0 m2 = []
  /\ dom m2 <> dom m1.
Proof.
  cbv zeta. repeat split; try reflexivity.
  vm_compute. intros H. discriminate H.
Qed.

(** ** Chat manager: System messages *)

(** C4, as the code has it.  addMessage with sender 'System' returns
    before anything is created: the chat container is exactly as before,
    so the number of stored messages does not change and nothing is
    rendered, whatever the message, sender id and extra data. *)
Theorem system_message_dropped (message senderId : JS.value)
    (data : Chat.extra) (c : Chat.container) :
  Chat.addMessage (JS.VStr "System") message senderId data c = c
  /\ Chat.log_length
       (Chat.addMessage (JS.VStr "System") message senderId data c)
     = Chat.log_length c.
Proof.
  assert (H : Chat.addMessage (JS.VStr "System") message senderId data c = c)
    by (destruct c; reflexivity).
  split; [exact H | rewrite H; reflexivity].
Qed.

(** C4, counterexample.  append('System', 'hello') on a chat that holds
    one message leaves it holding one message, not two. *)
Lemma system_message_not_stored :
  let c := Chat.addMessage (JS.VStr "Alice") (JS.VStr "hi") (JS.VNum 0)
             Chat.no_extra (Some []) in
  let c' := Chat.addMessage (JS.VStr "System") (JS.VStr "hello")
              JS.VUndefined Chat.no_extra c in
  Chat.log_length c = 1%nat
  /\ Chat.log_length c' = 1%nat
  /\ Chat.log_length c' <> S (Chat.log_length c).
Proof. cbv zeta. repeat split. vm_compute. discriminate. Qed.

(** Any other sender adds exactly one rendered message when the page has
    a chat container. *)
Lemma other_sender_rendered (sender message senderId : JS.value)
    (data : Chat.extra) (log : list Chat.MessageEl) :
  JS.is_string sender "System" = false ->
  Chat.addMessage sender message senderId data (Some log)
  = Some (log ++ [Chat.render sender message senderId data])%list.
Proof. intros H. unfold Chat.addMessage. rewrite H. reflexivity. Qed.

(** ** Conversation boxes: the ring of three *)

Module ConversationFacts.
Import Conversation.

Lemma box_eta (x : Box) :
  mkBox (promptBox x) (promptTitle x) (responseBox x) (responseTime x) = x.
Proof. destruct x; reflexivity. Qed.

Lemma updateConversation_shift (d : entry) (b : Boxes) :
  updateConversation d b = mkBoxes (render d) (box0 b) (box1 b).
Proof. unfold updateConversation. rewrite !box_eta. reflexivity. Qed.

Lemma push_all_snoc (pushes : list entry) (d : entry) (b : Boxes) :
  push_all (pushes ++ [d]) b = updateConversation d (push_all pushes b).
Proof. unfold push_all. rewrite fold_left_app. reflexivity. Qed.

Lemma to_list_push (d : entry) (b : Boxes) :
  to_list (updateConversation d b) = render d :: firstn 2 (to_list b).
Proof. rewrite updateConversation_shift. reflexivity. Qed.

Lemma to_list_push_all (pushes : list entry) (b : Boxes) :
  to_list (push_all pushes b)
  = firstn 3 (rev (map render pushes) ++ to_list b).
Proof.
  induction pushes as [|d pushes IH] using rev_ind.
  - reflexivity.
  - rewrite push_all_snoc, to_list_push, IH.
    rewrite map_app, rev_app_distr, <- app_assoc.
    generalize (rev (map render pushes) ++ to_list b)%list. intros L.
    rewrite firstn_firstn. reflexivity.
Qed.

End ConversationFacts.

(** C5.  A push moves slot 0 to slot 1 and slot 1 to slot 2, drops what
    slot 2 held and shows the new entry in slot 0: its prompt and response
    as they are, its title after "Step: " and its time after
    "Time elapsed: ", with "--" for a missing title or time.  After any
    run of pushes on any boxes, the three slots are the three first of:
    the pushed entries so shown, newest first, followed by the former
    contents; so the first min(3, n) slots hold the min(3, n) newest
    pushes, the rest keep former contents, and slot 0 holds the newest
    push. *)
Theorem ring_invariant (pushes : list Conversation.entry)
    (b : Conversation.Boxes) :
  let shown := fun d : Conversation.entry =>
    Conversation.mkBox
      (JS.text_of (Conversation.prompt d))
      ("Step: " ++ JS.or_default (Conversation.step_title d) "--")
      (JS.text_of (Conversation.response d))
      ("Time elapsed: " ++ JS.or_default (Conversation.elapsed_time d) "--") in
  (forall d,
     Conversation.updateConversation d b
     = Conversation.mkBoxes (shown d)
         (Conversation.box0 b) (Conversation.box1 b))
  /\ Conversation.to_list (Conversation.push_all pushes b)
     = firstn 3 (rev (map shown pushes) ++ Conversation.to_list b)%list
  /\ firstn (Nat.min 3 (length pushes))
       (Conversation.to_list (Conversation.push_all pushes b))
     = firstn 3 (rev (map shown pushes))
  /\ skipn (Nat.min 3 (length pushes))
       (Conversation.to_list (Conversation.push_all pushes b))
     = firstn (3 - Nat.min 3 (length pushes)) (Conversation.to_list b)
  /\ (forall d,
        Conversation.box0 (Conversation.push_all (pushes ++ [d]) b)
        = shown d)
  /\ (forall p t r e : string,
        t <> "" -> e <> "" ->
        Conversation.box0
          (Conversation.push_all
             (pushes ++ [Conversation.mkEntry (JS.VStr p) (JS.VStr t)
                           (JS.VStr r) (JS.VStr e)]) b)
        = Conversation.mkBox p ("Step: " ++ t) r ("Time elapsed: " ++ e))
  /\ (forall p r : string,
        Conversation.box0
          (Conversation.push_all
             (pushes ++ [Conversation.mkEntry (JS.VStr p) JS.VUndefined
                           (JS.VStr r) JS.VUndefined]) b)
        = Conversation.mkBox p "Step: --" r "Time elapsed: --").
Proof.
  intros shown.
  assert (Hshown : shown = Conversation.render) by reflexivity.
  clearbody shown. subst shown.
  assert (Hnew : forall d,
            Conversation.box0 (Conversation.push_all (pushes ++ [d]) b)
            = Conversation.render d).
  { intros d. rewrite ConversationFacts.push_all_snoc.
    rewrite ConversationFacts.updateConversation_shift. reflexivity. }
  repeat apply conj.
  - intros d. apply ConversationFacts.updateConversation_shift.
  - apply ConversationFacts.to_list_push_all.
  - rewrite ConversationFacts.to_list_push_all.
    rewrite firstn_firstn, firstn_app.
    rewrite length_rev, length_map.
    replace (Nat.min (Nat.min 3 (length pushes)) 3
             - length pushes)%nat with 0%nat by lia.
    rewrite firstn_O, app_nil_r.
    replace (Nat.min (Nat.min 3 (length pushes)) 3)
      with (Nat.min 3 (length pushes)) by lia.
    destruct (Nat.le_ge_cases 3 (length pushes)) as [H|H].
    + rewrite Nat.min_l by exact H. reflexivity.
    + rewrite Nat.min_r by exact H.
      assert (Hlen : (length (rev (map Conversation.render pushes))
                      = length pushes)%nat)
        by (rewrite length_rev, length_map; reflexivity).
      rewrite !firstn_all2 by lia. reflexivity.
  - rewrite ConversationFacts.to_list_push_all.
    rewrite firstn_app, length_rev, length_map.
    destruct (Nat.le_ge_cases 3 (length pushes)) as [H|H].
    + rewrite Nat.min_l by exact H.
      replace (3 - length pushes)%nat with 0%nat by lia.
      rewrite firstn_O, app_nil_r.
      replace (3 - 3)%nat with 0%nat by lia. rewrite firstn_O.
      apply skipn_all2. rewrite length_firstn. lia.
    + rewrite Nat.min_r by exact H.
      rewrite firstn_all2 by (rewrite length_rev, length_map; lia).
      rewrite skipn_app, length_rev, length_map.
      rewrite skipn_all2 by (rewrite length_rev, length_map; lia).
      replace (length pushes - length pushes)%nat with 0%nat by lia.
      reflexivity.
  - exact Hnew.
  - intros p t r e Ht He. rewrite Hnew.
    unfold Conversation.render, JS.or_default.
    cbn [Conversation.prompt Conversation.step_title Conversation.response
         Conversation.elapsed_time JS.text_of JS.to_string JS.truthy].
    destruct (String.eqb_spec t "") as [E|_]; [contradiction|].
    destruct (String.eqb_spec e "") as [E|_]; [contradiction|].
    reflexivity.
  - intros p r. rewrite Hnew. reflexivity.
Qed.

Lemma ring_invariant_witness :
  let pushes :=
    [Conversation.mkEntry (JS.VStr "first prompt") (JS.VStr "trigger")
       (JS.VStr "first response") (JS.VStr "1.2s")] in
  Conversation.box0
    (Conversation.push_all
       (pushes ++ [Conversation.mkEntry (JS.VStr "why?") (JS.VStr "plan")
                     (JS.VStr "because") (JS.VStr "0.8s")])
       (SocketEvents.boxes SocketEvents.loaded_page))
  = Conversation.mkBox "why?" "Step: plan" "because" "Time elapsed: 0.8s".
Proof.
  intros pushes.
  destruct (ring_invariant pushes (SocketEvents.boxes SocketEvents.loaded_page))
    as (_ & _ & _ & _ & _ & Hstr & _).
  apply (Hstr "why?" "plan" "because" "0.8s"); discriminate.
Defined.

(** ** Agent manager: what a payload overwrites *)

Module AgentFacts.
Import Agent.

Lemma panel_of_applyUpdate (a : agent) (d : patch) (v : View) :
  get a (panels (applyUpdate a d v)) = updateAgentInfo d (get a (panels v)).
Proof. unfold applyUpdate. cbn [panels]. apply get_set_same. Qed.

Lemma other_panel_of_applyUpdate (a : agent) (d : patch) (v : View) :
  get (other a) (panels (applyUpdate a d v)) = get (other a) (panels v).
Proof. unfold applyUpdate. cbn [panels]. apply set_get_frame. Qed.

Lemma updateAgentInfo_empty (p : Panel) : updateAgentInfo empty_patch p = p.
Proof. destruct p; reflexivity. Qed.

Lemma defined_iff (x : JS.value) :
  JS.defined x = true <-> x <> JS.VUndefined.
Proof. destruct x; simpl; split; intros H; congruence. Qed.

End AgentFacts.

(** C2, as the code has it.  applyUpdate touches the panel of the
    addressed agent only.  The tension text is overwritten whenever the
    payload carries a tension other than undefined, so 0 is applied, and is
    kept otherwise.  Name, personality, goal, active tactic, tactic list
    and interior are overwritten when the payload carries a truthy value
    and are kept at their prior text when the field is missing or falsy.
    {tension: 5} followed by {goal: 'x'} leaves tension 5 and goal x. *)
Theorem applyUpdate_patch_semantics (a : agent) (d : Agent.patch)
    (v : Agent.View) :
  let p := get a (Agent.panels v) in
  let p' := get a (Agent.panels (Agent.applyUpdate a d v)) in
  get (other a) (Agent.panels (Agent.applyUpdate a d v))
  = get (other a) (Agent.panels v)
  /\ Agent.manager (Agent.applyUpdate a d v) = Agent.manager v
  /\ (Agent.tension d <> JS.VUndefined ->
      Agent.tension_text p' = JS.text_of (Agent.tension d))
  /\ (Agent.tension d = JS.VUndefined ->
      Agent.tension_text p' = Agent.tension_text p)
  /\ (JS.truthy (Agent.name d) = true ->
      Agent.name_text p' = JS.text_of (Agent.name d))
  /\ (JS.truthy (Agent.name d) = false ->
      Agent.name_text p' = Agent.name_text p)
  /\ (JS.truthy (Agent.personality d) = true ->
      Agent.personality_text p' = JS.text_of (Agent.personality d))
  /\ (JS.truthy (Agent.personality d) = false ->
      Agent.personality_text p' = Agent.personality_text p)
  /\ (JS.truthy (Agent.goal d) = true ->
      Agent.goal_text p' = JS.text_of (Agent.goal d))
  /\ (JS.truthy (Agent.goal d) = false ->
      JS.truthy (Agent.plan_goal_of d) = false ->
      Agent.goal_text p' = Agent.goal_text p)
  /\ (JS.truthy (Agent.plan_tactic_of d) = false ->
      Agent.tactic_text p' = Agent.tactic_text p)
  /\ (Agent.plan_tactics_of d = None ->
      Agent.plan_text p' = Agent.plan_text p)
  /\ (forall x, Agent.interior d = Agent.IValue x -> JS.truthy x = false ->
      Agent.interior_text p' = Agent.interior_text p)
  /\ (let v2 :=
        Agent.applyUpdate a
          (Agent.with_goal (JS.VStr "x") Agent.empty_patch)
          (Agent.applyUpdate a
             (Agent.with_tension (JS.VNum 5) Agent.empty_patch) v) in
      Agent.tension_text (get a (Agent.panels v2)) = "5"
      /\ Agent.goal_text (get a (Agent.panels v2)) = "x")
  /\ Agent.tension_text
       (get a (Agent.panels
                 (Agent.applyUpdate a
                    (Agent.with_tension (JS.VNum 0) Agent.empty_patch) v)))
     = "0".
Proof.
  intros p p'. subst p p'. cbv zeta.
  rewrite !AgentFacts.panel_of_applyUpdate.
  split; [apply AgentFacts.other_panel_of_applyUpdate|].
  split; [reflexivity|].
  unfold Agent.updateAgentInfo.
  cbn [Agent.tension_text Agent.name_text Agent.personality_text
       Agent.goal_text Agent.tactic_text Agent.plan_text
       Agent.interior_text].
  repeat split.
  - intros H. apply AgentFacts.defined_iff in H. rewrite H. reflexivity.
  - intros ->. reflexivity.
  - intros ->. reflexivity.
  - intros ->. reflexivity.
  - intros ->. reflexivity.
  - intros ->. reflexivity.
  - intros ->. reflexivity.
  - intros -> ->. reflexivity.
  - intros ->. reflexivity.
  - intros ->. reflexivity.
  - intros x -> ->. reflexivity.
Qed.

Lemma applyUpdate_patch_semantics_witness :
  let v := SocketEvents.view SocketEvents.loaded_page in
  let d1 := Agent.with_tension (JS.VNum 5) Agent.empty_patch in
  let d2 := Agent.mkPatch (JS.VStr "Ann") (JS.VStr "calm") JS.VUndefined
              (JS.VStr "x") JS.VUndefined None None
              (Agent.IValue JS.VUndefined) None in
  let p1 := get Agent0 (Agent.panels (Agent.applyUpdate Agent0 d1 v)) in
  let p2 := get Agent0 (Agent.panels (Agent.applyUpdate Agent0 d2 v)) in
  (Agent.tension_text p1 = "5"
   /\ Agent.name_text p1 = "--"
   /\ Agent.personality_text p1 = "--"
   /\ Agent.goal_text p1 = "--"
   /\ Agent.tactic_text p1 = "--"
   /\ Agent.plan_text p1 = "--"
   /\ Agent.interior_text p1 = "--")
  /\ (Agent.tension_text p2 = "--"
      /\ Agent.name_text p2 = "Ann"
      /\ Agent.personality_text p2 = "calm"
      /\ Agent.goal_text p2 = "x").
Proof.
  intros v d1 d2 p1 p2.
  destruct (applyUpdate_patch_semantics Agent0 d1 v)
    as (_ & _ & Ht & _ & _ & Hn & _ & Hp & _ & Hg & Hta & Hpl & Hi & _).
  destruct (applyUpdate_patch_semantics Agent0 d2 v)
    as (_ & _ & _ & Ht2 & Hn2 & _ & Hp2 & _ & Hg2 & _).
  repeat apply conj.
  - apply Ht. discriminate.
  - apply Hn. reflexivity.
  - apply Hp. reflexivity.
  - apply Hg; reflexivity.
  - apply Hta. reflexivity.
  - apply Hpl. reflexivity.
  - apply (Hi JS.VUndefined); reflexivity.
  - apply Ht2. reflexivity.
  - apply Hn2. reflexivity.
  - apply Hp2. reflexivity.
  - apply Hg2. reflexivity.
Defined.

(** C2, counterexample.  After {goal: 'x'}, a payload that carries the
    goal '' (present, falsy) leaves the goal at 'x': for the goal it is
    truthiness that decides, not presence. *)
Lemma present_falsy_goal_not_applied :
  let v := SocketEvents.view SocketEvents.loaded_page in
  let v1 := Agent.applyUpdate Agent0
              (Agent.with_goal (JS.VStr "x") Agent.empty_patch) v in
  let d := Agent.with_goal (JS.VStr "") Agent.empty_patch in
  let v2 := Agent.applyUpdate Agent0 d v1 in
  Agent.goal d <> JS.VUndefined
  /\ Agent.goal_text (get Agent0 (Agent.panels v2)) = "x"
  /\ Agent.goal_text (get Agent0 (Agent.panels v2))
     <> JS.text_of (Agent.goal d).
Proof. cbv zeta. repeat split; try reflexivity; vm_compute; discriminate. Qed.

(** C7, as the code has it.  A truthy [goal] on the payload wins; else a
    truthy [plan.goal] is used; else the goal text is unchanged. *)
Theorem goal_resolution (a : agent) (d : Agent.patch) (v : Agent.View) :
  let p := get a (Agent.panels v) in
  let p' := get a (Agent.panels (Agent.applyUpdate a d v)) in
  (JS.truthy (Agent.goal d) = true ->
   Agent.goal_text p' = JS.text_of (Agent.goal d))
  /\ (JS.truthy (Agent.goal d) = false ->
      JS.truthy (Agent.plan_goal_of d) = true ->
      Agent.goal_text p' = JS.text_of (Agent.plan_goal_of d))
  /\ (JS.truthy (Agent.goal d) = false ->
      JS.truthy (Agent.plan_goal_of d) = false ->
      Agent.goal_text p' = Agent.goal_text p).
Proof.
  intros p p'. subst p p'. rewrite AgentFacts.panel_of_applyUpdate.
  unfold Agent.updateAgentInfo. cbn [Agent.goal_text].
  repeat split.
  - intros ->. reflexivity.
  - intros -> ->. reflexivity.
  - intros -> ->. reflexivity.
Qed.

Lemma goal_resolution_witness :
  let v := SocketEvents.view SocketEvents.loaded_page in
  let plan := Some (Agent.mkPlan (JS.VStr "y") JS.VUndefined None) in
  let both := Agent.with_plan plan
                (Agent.with_goal (JS.VStr "x") Agent.empty_patch) in
  let nested := Agent.with_plan plan Agent.empty_patch in
  Agent.goal_text (get Agent0 (Agent.panels (Agent.applyUpdate Agent0 both v)))
  = "x"
  /\ Agent.goal_text
       (get Agent0 (Agent.panels (Agent.applyUpdate Agent0 nested v)))
     = "y"
  /\ Agent.goal_text
       (get Agent0
          (Agent.panels (Agent.applyUpdate Agent0 Agent.empty_patch v)))
     = "--".
Proof.
  intros v plan both nested. repeat apply conj.
  - apply (proj1 (goal_resolution Agent0 both v)). reflexivity.
  - apply (proj1 (proj2 (goal_resolution Agent0 nested v))); reflexivity.
  - apply (proj2 (proj2 (goal_resolution Agent0 Agent.empty_patch v)));
      reflexivity.
Defined.

(** C7, counterexample.  The payload {goal: '', plan: {goal: 'y'}}
    carries a goal, yet the goal shown afterwards is the plan's 'y'. *)
Lemma present_empty_goal_loses_to_plan :
  let v := SocketEvents.view SocketEvents.loaded_page in
  let d := Agent.with_plan
             (Some (Agent.mkPlan (JS.VStr "y") JS.VUndefined None))
             (Agent.with_goal (JS.VStr "") Agent.empty_patch) in
  let p' := get Agent0 (Agent.panels (Agent.applyUpdate Agent0 d v)) in
  Agent.goal d <> JS.VUndefined
  /\ Agent.goal_text p' = "y"
  /\ Agent.goal_text p' <> JS.text_of (Agent.goal d).
Proof. cbv zeta. repeat split; try reflexivity; vm_compute; discriminate. Qed.

(** C8, as the code has it.  The active tactic and the tactic list are
    read under [plan] only: a truthy [plan.active_tactic] overwrites the
    tactic text, otherwise it is kept; a [plan.tactics] array overwrites
    the list text with its elements joined by ", ", otherwise it is kept.
    [active_tactic] and [tactics] placed on the payload itself change
    nothing. *)
Theorem tactic_resolution (a : agent) (d : Agent.patch) (v : Agent.View) :
  let p := get a (Agent.panels v) in
  let p' := get a (Agent.panels (Agent.applyUpdate a d v)) in
  (JS.truthy (Agent.plan_tactic_of d) = true ->
   Agent.tactic_text p' = JS.text_of (Agent.plan_tactic_of d))
  /\ (JS.truthy (Agent.plan_tactic_of d) = false ->
      Agent.tactic_text p' = Agent.tactic_text p)
  /\ (forall l, Agent.plan_tactics_of d = Some l ->
      Agent.plan_text p' = String.concat ", " l)
  /\ (Agent.plan_tactics_of d = None ->
      Agent.plan_text p' = Agent.plan_text p)
  /\ (forall x l,
        Agent.applyUpdate a (Agent.with_direct_tactics x l d) v
        = Agent.applyUpdate a d v)
  /\ String.concat ", " ["charm"; "deflect"; "stall"]
     = "charm, deflect, stall".
Proof.
  intros p p'. subst p p'. rewrite AgentFacts.panel_of_applyUpdate.
  unfold Agent.updateAgentInfo. cbn [Agent.tactic_text Agent.plan_text].
  repeat split.
  - intros ->. reflexivity.
  - intros ->. reflexivity.
  - intros l ->. reflexivity.
  - intros ->. reflexivity.
Qed.

Lemma tactic_resolution_witness :
  let v := SocketEvents.view SocketEvents.loaded_page in
  let d := Agent.with_plan
             (Some (Agent.mkPlan JS.VUndefined (JS.VStr "charm")
                      (Some ["charm"; "deflect"])))
             Agent.empty_patch in
  let p' := get Agent0 (Agent.panels (Agent.applyUpdate Agent0 d v)) in
  let q' := get Agent0
              (Agent.panels (Agent.applyUpdate Agent0 Agent.empty_patch v)) in
  Agent.tactic_text p' = "charm"
  /\ Agent.plan_text p' = "charm, deflect"
  /\ Agent.tactic_text q' = "--"
  /\ Agent.plan_text q' = "--".
Proof.
  intros v d p' q'.
  destruct (tactic_resolution Agent0 d v) as (Ht & _ & Hl & _).
  destruct (tactic_resolution Agent0 Agent.empty_patch v)
    as (_ & Ht0 & _ & Hl0 & _).
  repeat apply conj.
  - apply Ht. reflexivity.
  - apply (Hl ["charm"; "deflect"]). reflexivity.
  - apply Ht0. reflexivity.
  - apply Hl0. reflexivity.
Defined.

(** C8, counterexample.  A payload with [active_tactic] and [tactics]
    placed directly on it, and no plan, changes neither the tactic text
    nor the tactic list. *)
Lemma direct_tactic_fields_ignored :
  let v := SocketEvents.view SocketEvents.loaded_page in
  let d := Agent.with_direct_tactics (JS.VStr "charm")
             (Some ["charm"; "deflect"]) Agent.empty_patch in
  let p' := get Agent0 (Agent.panels (Agent.applyUpdate Agent0 d v)) in
  Agent.active_tactic d = JS.VStr "charm"
  /\ Agent.tactic_text p' = "--"
  /\ Agent.tactic_text p' <> JS.text_of (Agent.active_tactic d)
  /\ Agent.plan_text p' = "--"
  /\ Agent.plan_text p' <> String.concat ", " ["charm"; "deflect"].
Proof. cbv zeta. repeat split; try reflexivity; vm_compute; discriminate. Qed.

(** ** Socket events: what restore_state resets *)

Module RestoreFacts.
Import SocketEvents.

Lemma addMessage_presence s t i x (c : Chat.container) :
  Chat.addMessage s t i x c = None <-> c = None.
Proof.
  unfold Chat.addMessage. destruct c as [log|]; [|tauto].
  destruct (JS.is_string s "System"); split; intros H; discriminate.
Qed.

Lemma replay_presence (msgs : list message) (c : Chat.container) :
  replay msgs c = None <-> c = None.
Proof.
  unfold replay. revert c. induction msgs as [|m msgs IH]; intros c; simpl.
  - tauto.
  - rewrite IH. apply addMessage_presence.
Qed.

Lemma clearMessages_presence (c : Chat.container) :
  Chat.clearMessages c = None <-> c = None.
Proof. destruct c; simpl; split; intros H; congruence. Qed.

Lemma clearMessages_same (c1 c2 : Chat.container) :
  (c1 = None <-> c2 = None) ->
  Chat.clearMessages c1 = Chat.clearMessages c2.
Proof.
  destruct c1, c2; simpl; intros [H1 H2]; try reflexivity.
  - specialize (H2 eq_refl). discriminate.
  - specialize (H1 eq_refl). discriminate.
Qed.

Lemma chat_restore_slot (a : agent) slot (p : Page) :
  chat (restore_slot a slot p) = chat p.
Proof.
  unfold restore_slot. destruct slot as [d|]; [|reflexivity].
  destruct (JS.truthy (Agent.name d)); reflexivity.
Qed.

Lemma boxes_restore_slot (a : agent) slot (p : Page) :
  boxes (restore_slot a slot p) = boxes p.
Proof.
  unfold restore_slot. destruct slot as [d|]; [|reflexivity].
  destruct (JS.truthy (Agent.name d)); reflexivity.
Qed.

Lemma chat_on_restore_state (d : restore_payload) (p : Page) :
  chat (on_restore_state d p)
  = match messages d with
    | Some msgs => replay msgs (Chat.clearMessages (chat p))
    | None => Chat.clearMessages (chat p)
    end.
Proof.
  unfold on_restore_state.
  destruct (messages d) as [msgs|]; destruct (agent_states d) as [slots|];
    cbn [with_chat with_boxes chat]; rewrite ?chat_restore_slot;
    reflexivity.
Qed.

Lemma chat_init (agents : list init_agent) (p : Page) :
  chat (fold_left init_one agents p) = chat p.
Proof.
  revert p; induction agents as [|ag agents IH]; intros p; simpl.
  - reflexivity.
  - rewrite IH. unfold init_one.
    destruct (has_components (init_components ag)); reflexivity.
Qed.

Lemma chat_presence_handle (e : event) (p : Page) :
  chat (handle e p) = None <-> chat p = None.
Proof.
  destruct e; cbn [handle].
  - destruct (JS.truthy (conversationActive (app p))); reflexivity.
  - rewrite chat_on_restore_state.
    destruct (messages d) as [msgs|];
      rewrite ?replay_presence; apply clearMessages_presence.
  - rewrite chat_init. reflexivity.
  - unfold on_config. destruct agents as [[|c0 [|c1 l]]|]; reflexivity.
  - reflexivity.
  - apply addMessage_presence.
  - apply addMessage_presence.
  - apply addMessage_presence.
  - reflexivity.
  - reflexivity.
  - destruct (JS.truthy stage); reflexivity.
  - reflexivity.
Qed.

Lemma chat_presence_run (events : list event) (p : Page) :
  chat (run events p) = None <-> chat p = None.
Proof.
  unfold run. revert p; induction events as [|e events IH]; intros p; simpl.
  - tauto.
  - rewrite IH. apply chat_presence_handle.
Qed.

Lemma run_snoc (events : list event) (e : event) (p : Page) :
  run (events ++ [e]) p = handle e (run events p).
Proof. unfold run. rewrite fold_left_app. reflexivity. Qed.

Lemma panels_restoreAgent (a : agent) (d : Agent.patch) (v : Agent.View) :
  Agent.panels (Agent.restoreAgent (Some d) a v)
  = set a (Agent.updateAgentInfo d (get a (Agent.panels v)))
          (Agent.panels v).
Proof.
  unfold Agent.restoreAgent.
  destruct (Agent.pipeline d) as [pd|]; [|reflexivity].
  destruct (Agent.components_truthy (Agent.desc_components pd));
    reflexivity.
Qed.

Lemma panels_restore_slot (a : agent) slot (p : Page) :
  Agent.panels (view (restore_slot a slot p))
  = match slot with
    | Some d =>
        set a (Agent.updateAgentInfo d (get a (Agent.panels (view p))))
              (Agent.panels (view p))
    | None => Agent.panels (view p)
    end.
Proof.
  unfold restore_slot. destruct slot as [d|]; [|reflexivity].
  destruct (JS.truthy (Agent.name d)); cbn [with_app with_view view];
    apply panels_restoreAgent.
Qed.

Lemma manager_restore_slot (a : agent) slot (p : Page) :
  (forall d, slot = Some d -> Agent.pipeline d = None) ->
  Agent.manager (view (restore_slot a slot p)) = Agent.manager (view p).
Proof.
  intros H. unfold restore_slot. destruct slot as [d|]; [|reflexivity].
  assert (Hp : Agent.pipeline d = None) by (apply H; reflexivity).
  destruct (JS.truthy (Agent.name d)); cbn [with_app with_view view];
    unfold Agent.restoreAgent; rewrite Hp; reflexivity.
Qed.

Lemma view_on_restore_state (d : restore_payload) (p : Page) :
  view (on_restore_state d p)
  = match agent_states d with
    | Some slots =>
        view (restore_slot Agent1 (at1 slots)
                (restore_slot Agent0 (at0 slots)
                   (with_chat Chat.clearMessages p)))
    | None => view p
    end.
Proof.
  unfold on_restore_state.
  destruct (messages d); destruct (agent_states d); reflexivity.
Qed.

Lemma boxes_on_restore_state (d : restore_payload) (p : Page) :
  boxes (on_restore_state d p)
  = Conversation.restoreConversationHistory (conversation_history d)
      (boxes p).
Proof.
  unfold on_restore_state.
  destruct (messages d); destruct (agent_states d);
    cbn [with_chat with_boxes boxes]; rewrite ?boxes_restore_slot;
    reflexivity.
Qed.

Lemma restored_slots (h : Conversation.history) (b : Conversation.Boxes)
    (i : nat) :
  nth i (Conversation.to_list
           (Conversation.restoreConversationHistory (Some h) b))
      (Conversation.box2 b)
  = if (i <? Nat.min (length (Conversation.prompts h)) 3)%nat
    then Conversation.restored_box h i
    else nth i (Conversation.to_list b) (Conversation.box2 b).
Proof.
  unfold Conversation.restoreConversationHistory.
  assert (Hmin : forall l : list JS.value,
             Nat.min (S (S (S (length l)))) 3 = 3%nat) by (intros; lia).
  destruct (Conversation.prompts h) as [|x0 [|x1 [|x2 l]]];
    cbn [length]; rewrite ?Hmin;
    destruct i as [|[|[|i]]]; reflexivity.
Qed.

End RestoreFacts.

Import SocketEvents.

(** C1, as the code has it.  Two runs that start from the same page and
    receive the same restore_state event after different earlier events
    end with the same chat log.  The agent panels, pipelines and
    conversation boxes are not reset: a panel is the former panel with the
    payload's agent slot applied as an update (and the former panel when
    the slot is missing), the views are untouched when the payload has no
    agent_states, the pipelines are untouched when no agent slot carries a
    pipeline, and the boxes beyond the restored entries, or all of them
    when the payload has no conversation_history, keep what they showed. *)
Theorem restore_state_effect (d : restore_payload) :
  (forall (before1 before2 : list event) (p0 : Page),
     chat (run (before1 ++ [restore_state d]) p0)
     = chat (run (before2 ++ [restore_state d]) p0))
  /\ (forall (p : Page) (a : agent),
        get a (Agent.panels (view (on_restore_state d p)))
        = match slot_of a d with
          | Some patch =>
              Agent.updateAgentInfo patch (get a (Agent.panels (view p)))
          | None => get a (Agent.panels (view p))
          end)
  /\ (forall p : Page,
        agent_states d = None -> view (on_restore_state d p) = view p)
  /\ (forall p : Page,
        (forall a patch, slot_of a d = Some patch ->
                         Agent.pipeline patch = None) ->
        Agent.manager (view (on_restore_state d p)) = Agent.manager (view p))
  /\ (forall (p : Page) (h : Conversation.history) (i : nat),
        conversation_history d = Some h ->
        nth i (Conversation.to_list (boxes (on_restore_state d p)))
            (Conversation.box2 (boxes p))
        = if (i <? Nat.min (length (Conversation.prompts h)) 3)%nat
          then Conversation.restored_box h i
          else nth i (Conversation.to_list (boxes p))
                   (Conversation.box2 (boxes p)))
  /\ (forall p : Page,
        conversation_history d = None ->
        boxes (on_restore_state d p) = boxes p).
Proof.
  repeat apply conj.
  - intros before1 before2 p0.
    rewrite !RestoreFacts.run_snoc. cbn [handle].
    rewrite !RestoreFacts.chat_on_restore_state.
    rewrite (RestoreFacts.clearMessages_same
               (chat (run before1 p0)) (chat (run before2 p0))).
    + reflexivity.
    + rewrite !RestoreFacts.chat_presence_run. tauto.
  - intros p a. rewrite RestoreFacts.view_on_restore_state.
    unfold slot_of. destruct (agent_states d) as [[s0 s1]|]; [|reflexivity].
    rewrite !RestoreFacts.panels_restore_slot. cbn [at0 at1 with_chat view].
    destruct a, s0, s1; cbn [get set at0 at1]; reflexivity.
  - intros p H. rewrite RestoreFacts.view_on_restore_state, H. reflexivity.
  - intros p H. rewrite RestoreFacts.view_on_restore_state.
    unfold slot_of in H.
    destruct (agent_states d) as [[s0 s1]|]; [|reflexivity].
    cbn [at0 at1].
    rewrite !RestoreFacts.manager_restore_slot; [reflexivity| |].
    + intros x ->. apply (H Agent0 x). reflexivity.
    + intros x ->. apply (H Agent1 x). reflexivity.
  - intros p h i H. rewrite RestoreFacts.boxes_on_restore_state, H.
    apply RestoreFacts.restored_slots.
  - intros p H. rewrite RestoreFacts.boxes_on_restore_state, H. reflexivity.
Qed.

Lemma restore_state_effect_witness :
  let bare := mkRestore None None
                (Some [mkMsg (JS.VStr "Ann") (JS.VStr "hi") (JS.VNum 0)]) in
  let h := Conversation.mkHistory [JS.VStr "p1"] [JS.VStr "r1"]
             [JS.VStr "t1"] [JS.VStr "1s"] in
  let full := mkRestore None (Some h) None in
  let named :=
    mkRestore
      (Some (PerAgent
               (Some (Agent.with_name (JS.VStr "Ann") Agent.empty_patch))
               None))
      None None in
  let p := run [update_agent1
                  (Agent.with_goal (JS.VStr "x") Agent.empty_patch)]
               loaded_page in
  view (on_restore_state bare p) = view p
  /\ Agent.manager (view (on_restore_state named p)) = Agent.manager (view p)
  /\ boxes (on_restore_state bare p) = boxes p
  /\ nth 0 (Conversation.to_list (boxes (on_restore_state full p)))
         (Conversation.box2 (boxes p))
     = Conversation.restored_box h 0
  /\ nth 1 (Conversation.to_list (boxes (on_restore_state full p)))
         (Conversation.box2 (boxes p))
     = nth 1 (Conversation.to_list (boxes p)) (Conversation.box2 (boxes p)).
Proof.
  intros bare h full named p.
  destruct (restore_state_effect bare) as (_ & _ & Hview & _ & _ & Hboxes).
  destruct (restore_state_effect full) as (_ & _ & _ & _ & Hslots & _).
  destruct (restore_state_effect named) as (_ & _ & _ & Hman & _).
  repeat apply conj.
  - apply Hview. reflexivity.
  - apply Hman. intros [|] patch H; inversion H; reflexivity.
  - apply Hboxes. reflexivity.
  - apply (Hslots p h 0%nat). reflexivity.
  - apply (Hslots p h 1%nat). reflexivity.
Defined.

(** C1, counterexample.  The same restore_state event, carrying agent 0's
    name, one history entry and one message, is handled on a freshly
    loaded page and on a page that has first seen a goal update and two
    llm_interaction events.  The goal of agent 0 and the second
    conversation box afterwards are those of the earlier events, so the two
    runs end in different states. *)
Lemma restore_depends_on_history :
  let d :=
    mkRestore
      (Some (PerAgent
               (Some (Agent.with_name (JS.VStr "Ann") Agent.empty_patch))
               None))
      (Some (Conversation.mkHistory [JS.VStr "p1"] [JS.VStr "r1"]
               [JS.VStr "t1"] [JS.VStr "1s"]))
      (Some [mkMsg (JS.VStr "Ann") (JS.VStr "hi") (JS.VNum 0)]) in
  let e := Conversation.mkEntry (JS.VStr "old prompt") JS.VUndefined
             (JS.VStr "old response") JS.VUndefined in
  let quiet := run [restore_state d] loaded_page in
  let busy :=
    run [update_agent1 (Agent.with_goal (JS.VStr "x") Agent.empty_patch);
         llm_interaction e; llm_interaction e;
         restore_state d] loaded_page in
  Agent.goal_text (get Agent0 (Agent.panels (view quiet))) = "--"
  /\ Agent.goal_text (get Agent0 (Agent.panels (view busy))) = "x"
  /\ Conversation.promptBox (Conversation.box1 (boxes quiet)) = ""
  /\ Conversation.promptBox (Conversation.box1 (boxes busy)) = "old prompt"
  /\ view quiet <> view busy
  /\ boxes quiet <> boxes busy.
Proof.
  cbv zeta. repeat split; try reflexivity.
  - vm_compute. intros H. discriminate H.
  - vm_compute. intros H. discriminate H.
Qed.

(** * Further properties of the modules *)

(** ** Pipeline manager: what a call changes *)

Module PipelineMore.
Import Pipeline PipelineFacts PipelineSteps Observe.

Lemma agent_cases (a b : agent) : b = a \/ b = other a.
Proof. destruct a, b; auto. Qed.

Lemma other_neq (a : agent) : other a <> a.
Proof. destruct a; discriminate. Qed.

Lemma switch_summaries (a b : agent) (m : Manager) :
  summaries (get b (dom (switchActiveFlag a m))) = summaries (get b (dom m)).
Proof.
  unfold switchActiveFlag.
  destruct (isActive (get a (pipelineStates m))); [|reflexivity].
  cbn [dom]. destruct a, b; reflexivity.
Qed.

Lemma switch_other (a : agent) (m : Manager) :
  get (other a) (pipelineStates (switchActiveFlag a m))
  = get (other a) (pipelineStates m)
  /\ get (other a) (dom (switchActiveFlag a m)) = get (other a) (dom m).
Proof.
  unfold switchActiveFlag.
  destruct (isActive (get a (pipelineStates m))); [|split; reflexivity].
  cbn [pipelineStates dom]. rewrite !set_get_frame. split; reflexivity.
Qed.

Lemma switch_components (a b : agent) (m : Manager) :
  components (get b (pipelineStates (switchActiveFlag a m)))
  = components (get b (pipelineStates m))
  /\ currentStep (get b (pipelineStates (switchActiveFlag a m)))
     = currentStep (get b (pipelineStates m)).
Proof.
  unfold switchActiveFlag.
  destruct (isActive (get a (pipelineStates m))); [|split; reflexivity].
  cbn [pipelineStates]. destruct a, b; split; reflexivity.
Qed.

Lemma update_summaries (a : agent) stage data (m : Manager) :
  JS.truthy stage = true ->
  summaries (get a (dom (updatePipelineStage a stage data m)))
  = updated_summaries a stage data (summaries (get a (dom m))).
Proof.
  intros Ht. unfold updatePipelineStage, updated_summaries. rewrite Ht.
  cbn [negb].
  destruct (with_element _ _ _) as [sums|].
  - destruct (_ =? Z.of_nat _ - 1).
    + rewrite switch_summaries. cbn [dom]. rewrite get_set_same. reflexivity.
    + cbn [dom]. rewrite get_set_same. reflexivity.
  - unfold log_to. cbn [dom]. rewrite get_set_same. reflexivity.
Qed.

Lemma update_other (a : agent) stage data (m : Manager) :
  get (other a) (pipelineStates (updatePipelineStage a stage data m))
  = get (other a) (pipelineStates m)
  /\ get (other a) (dom (updatePipelineStage a stage data m))
     = get (other a) (dom m).
Proof.
  unfold updatePipelineStage.
  destruct (negb (JS.truthy stage)); [split; reflexivity|].
  destruct (with_element _ _ _) as [sums|].
  - destruct (_ =? Z.of_nat _ - 1).
    + destruct (switch_other a
        (mkManager
           (set a (mkState
                     (components
                        (if indexOf (components (get a (pipelineStates m)))
                              stage =? -1
                         then get a (pipelineStates m)
                         else mkState (components (get a (pipelineStates m)))
                                (indexOf (components (get a (pipelineStates m)))
                                   stage)
                                (isActive (get a (pipelineStates m)))))
                     (currentStep
                        (if indexOf (components (get a (pipelineStates m)))
                              stage =? -1
                         then get a (pipelineStates m)
                         else mkState (components (get a (pipelineStates m)))
                                (indexOf (components (get a (pipelineStates m)))
                                   stage)
                                (isActive (get a (pipelineStates m)))))
                     true) (pipelineStates m))
           (set a (mkEl (completed_class (get a (dom m))) sums) (dom m))
           (console m))) as [H1 H2].
      rewrite H1, H2. cbn [pipelineStates dom].
      rewrite !set_get_frame. split; reflexivity.
    + cbn [pipelineStates dom]. rewrite !set_get_frame. split; reflexivity.
  - unfold log_to. cbn [pipelineStates dom].
    rewrite !set_get_frame. split; reflexivity.
Qed.

Lemma create_other (a : agent) arg (m : Manager) :
  get (other a) (pipelineStates (createPipelineFlow a arg m))
  = get (other a) (pipelineStates m)
  /\ get (other a) (dom (createPipelineFlow a arg m)) = get (other a) (dom m).
Proof.
  unfold createPipelineFlow.
  destruct arg as [| |[|c l]]; try (split; reflexivity).
  cbn [pipelineStates dom]. rewrite !set_get_frame. split; reflexivity.
Qed.

(** After the markers are cleared and one element is marked, exactly that
    element is current. *)
Lemma marked_one (id : string) data (l l' : list SummaryEl) :
  with_element id (mark_current data) (remove_current l) = Some l' ->
  map el_id (filter current l') = [id].
Proof.
  revert l'; induction l as [|e l IH]; intros l' H; simpl in H.
  - discriminate.
  - destruct (String.eqb_spec (el_id e) id) as [Heq|Hne].
    + inversion H; subst. cbn [filter mark_current current map el_id].
      fold (remove_current l). rewrite remove_current_none. reflexivity.
    + fold (remove_current l) in H.
      destruct (with_element id (mark_current data) (remove_current l))
        as [r|]; simpl in H; [|discriminate].
      inversion H; subst. cbn [filter current]. apply IH. reflexivity.
Qed.

Lemma marked_summary_text (id : string) data (l sums : list SummaryEl) :
  with_element id (mark_current data) (remove_current l) = Some sums ->
  JS.truthy (summary data) = true ->
  In (mkSummary id true
        (JS.dquote ++ JS.to_string (summary data) ++ JS.dquote)) sums.
Proof.
  intros Hw Hd. revert sums Hw.
  induction l as [|e l IH]; intros sums Hw; simpl in Hw; [discriminate|].
  destruct (String.eqb_spec (el_id e) id) as [Heq|Hne].
  - inversion Hw; subst. left. unfold mark_current.
    cbn [el_id textContent]. rewrite Hd. reflexivity.
  - fold (remove_current l) in Hw.
    destruct (with_element id (mark_current data) (remove_current l))
      as [r|]; simpl in Hw; [|discriminate].
    inversion Hw; subst. right. apply IH. reflexivity.
Qed.

Lemma index_from_range (l : list string) (x : string) (i : Z) :
  index_from l x i = -1
  \/ i <= index_from l x i < i + Z.of_nat (length l).
Proof.
  destruct (in_dec string_dec x l) as [Hin|Hnin].
  - right. apply index_from_in. exact Hin.
  - left. apply index_from_notin. exact Hnin.
Qed.

Lemma index_from_nth (l : list string) (x : string) (i : Z) :
  In x l -> nth (Z.to_nat (index_from l x i - i)) l "" = x.
Proof.
  revert i; induction l as [|c l IH]; intros i H; simpl.
  - destruct H.
  - destruct (String.eqb_spec c x) as [->|Hne].
    + replace (i - i) with 0 by lia. reflexivity.
    + destruct H as [H|H]; [congruence|].
      pose proof (index_from_in l x (i + 1) H) as Hr.
      replace (Z.to_nat (index_from l x (i + 1) - i))
        with (S (Z.to_nat (index_from l x (i + 1) - (i + 1)))) by lia.
      apply IH. exact H.
Qed.

End PipelineMore.

Import PipelineMore Observe.

(** X1.  After any sequence of calls the page shows, for each agent, one
    summary per stored component, in the order of the components and
    under the id built from the component's name. *)
Theorem rendering_follows_components (calls : list call) (a : agent) :
  let m := exec calls initial in
  map el_id (summaries (get a (dom m)))
  = map (summary_id a) (components (get a (pipelineStates m)))
  /\ length (summaries (get a (dom m)))
     = length (components (get a (pipelineStates m))).
Proof.
  intros m. assert (H : synced a m) by (subst m; auto with pipeline).
  split; [exact H|].
  apply (f_equal (@length string)) in H. rewrite !length_map in H. exact H.
Qed.

(** X2.  After any sequence of calls at most one summary of an agent
    carries the 'current' marker. *)
Theorem at_most_one_current (calls : list call) (a : agent) :
  (length (current_ids a (exec calls initial)) <= 1)%nat.
Proof.
  revert a.
  assert (Hgen : forall m,
            (forall a, (length (current_ids a m) <= 1)%nat) ->
            forall a, (length (current_ids a (exec calls m)) <= 1)%nat).
  { induction calls as [|c calls IH]; intros m H; [exact H|].
    cbn [exec fold_left]. apply IH. clear IH. intros b.
    destruct c as [a arg|a stage data|a]; cbn [exec_call].
    - destruct (agent_cases a b) as [->| ->].
      + unfold createPipelineFlow. destruct arg as [| |[|c l]]; try apply H.
        unfold current_ids. cbn [dom]. rewrite get_set_same. cbn [summaries].
        generalize (c :: l). intros l0.
        replace (filter current (map (fresh_summary a) l0))
          with (@nil SummaryEl); [simpl; lia|].
        induction l0 as [|x l0 IHl]; [reflexivity | exact IHl].
      + unfold current_ids.
        rewrite (proj2 (create_other a arg m)). apply H.
    - destruct (agent_cases a b) as [->| ->].
      + destruct (JS.truthy stage) eqn:Ht.
        * unfold current_ids. rewrite (update_summaries a stage data m Ht).
          unfold updated_summaries.
          destruct (with_element _ _ _) as [s|] eqn:Hw.
          -- rewrite (marked_one _ _ _ _ Hw). simpl. lia.
          -- rewrite remove_current_none. simpl. lia.
        * unfold updatePipelineStage. rewrite Ht. apply H.
      + unfold current_ids.
        rewrite (proj2 (update_other a stage data m)). apply H.
    - unfold current_ids. rewrite switch_summaries. apply H. }
  apply Hgen. intros a. destruct a; simpl; lia.
Qed.

(** X3.  In any state reached from the initial manager, an update that
    names a component of the agent's pipeline marks exactly the summary of
    that stage, stores the position of its first occurrence as
    [currentStep], and, when the data carries a truthy summary, shows that
    summary between double quotes. *)
Theorem update_marks_named_stage (calls : list call) (a : agent)
    (n : string) (data : stage_data) :
  let m := exec calls initial in
  let cs := components (get a (pipelineStates m)) in
  let m' := updatePipelineStage a (JS.VStr n) data m in
  n <> "" -> In n cs ->
  current_ids a m' = [summary_id a n]
  /\ currentStep (get a (pipelineStates m')) = index_from cs n 0
  /\ nth (Z.to_nat (currentStep (get a (pipelineStates m')))) cs "" = n
  /\ (JS.truthy (summary data) = true ->
      In (mkSummary (summary_id a n) true
            (JS.dquote ++ JS.to_string (summary data) ++ JS.dquote))
         (summaries (get a (dom m')))).
Proof.
  intros m cs m' Hn Hin.
  assert (Hs : synced a m) by (subst m; auto with pipeline).
  assert (Ht : JS.truthy (JS.VStr n) = true) by (apply truthy_name; exact Hn).
  destruct (with_element_some (summary_id a n) (mark_current data)
              (remove_current (summaries (get a (dom m))))) as [sums Hw].
  { rewrite remove_current_ids, Hs. apply in_map. exact Hin. }
  assert (Hsum : summaries (get a (dom m')) = sums).
  { subst m'. rewrite (update_summaries a _ data m Ht).
    unfold updated_summaries. cbn [JS.to_string]. rewrite Hw. reflexivity. }
  assert (Hstep : currentStep (get a (pipelineStates m')) = index_from cs n 0).
  { subst m'. unfold updatePipelineStage. rewrite Ht.
    cbn [negb JS.to_string indexOf]. rewrite Hw.
    pose proof (index_from_in _ _ 0 Hin) as Hr. fold cs in Hr |- *.
    destruct (Z.eqb_spec (index_from cs n 0) (-1)) as [E|E]; [lia|].
    destruct (_ =? Z.of_nat _ - 1).
    - cbn [components currentStep]. rewrite switch_raised.
      cbn [pipelineStates]. rewrite get_set_same. reflexivity.
    - cbn [pipelineStates]. rewrite get_set_same. reflexivity. }
  repeat apply conj.
  - unfold current_ids. rewrite Hsum. apply (marked_one _ _ _ _ Hw).
  - exact Hstep.
  - rewrite Hstep.
    replace (index_from cs n 0) with (index_from cs n 0 - 0) by lia.
    apply index_from_nth. exact Hin.
  - intros Hd. rewrite Hsum. apply (marked_summary_text _ _ _ _ Hw Hd).
Qed.

Lemma update_marks_named_stage_witness :
  let m := exec [Create Agent0 (CArray ["trigger"; "intent"; "plan"])]
             initial in
  let m' := updatePipelineStage Agent0 (JS.VStr "intent")
              (mkData (JS.VStr "said hi")) m in
  current_ids Agent0 m' = ["0-intent-summary"]
  /\ currentStep (get Agent0 (pipelineStates m')) = 1
  /\ nth (Z.to_nat (currentStep (get Agent0 (pipelineStates m'))))
         ["trigger"; "intent"; "plan"] "" = "intent"
  /\ In (mkSummary "0-intent-summary" true
           (JS.dquote ++ "said hi" ++ JS.dquote))
        (summaries (get Agent0 (dom m'))).
Proof.
  intros m m'.
  destruct (update_marks_named_stage
              [Create Agent0 (CArray ["trigger"; "intent"; "plan"])]
              Agent0 "intent" (mkData (JS.VStr "said hi"))
              ltac:(discriminate) ltac:(simpl; auto))
    as (H1 & H2 & H3 & H4).
  repeat apply conj.
  - exact H1.
  - exact H2.
  - exact H3.
  - apply H4. reflexivity.
Defined.

(** X4.  After any sequence of calls the stored [currentStep] of an agent
    is 0 for an empty pipeline and otherwise a valid index into its
    components. *)
Theorem currentStep_in_range (calls : list call) (a : agent) :
  let st := get a (pipelineStates (exec calls initial)) in
  0 <= currentStep st <= Z.max 0 (Z.of_nat (length (components st)) - 1).
Proof.
  cbv zeta. revert a.
  assert (Hgen : forall m,
    (forall a, 0 <= currentStep (get a (pipelineStates m))
               <= Z.max 0 (Z.of_nat (length (components
                                        (get a (pipelineStates m)))) - 1)) ->
    forall a, 0 <= currentStep (get a (pipelineStates (exec calls m)))
              <= Z.max 0 (Z.of_nat (length (components
                            (get a (pipelineStates (exec calls m))))) - 1)).
  { induction calls as [|c calls IH]; intros m H; [exact H|].
    cbn [exec fold_left]. apply IH. clear IH. intros b.
    destruct c as [a arg|a stage data|a]; cbn [exec_call].
    - destruct (agent_cases a b) as [->| ->].
      + unfold createPipelineFlow. destruct arg as [| |[|c l]]; try apply H.
        cbn [pipelineStates]. rewrite get_set_same.
        cbn [currentStep components]. lia.
      + rewrite (proj1 (create_other a arg m)). apply H.
    - destruct (agent_cases a b) as [->| ->].
      + specialize (H a).
        unfold updatePipelineStage.
        destruct (negb (JS.truthy stage)); [exact H|].
        assert (Hidx :
          indexOf (components (get a (pipelineStates m))) stage = -1
          \/ 0 <= indexOf (components (get a (pipelineStates m))) stage
             < Z.of_nat (length (components (get a (pipelineStates m))))).
        { destruct stage; cbn [indexOf]; auto.
          destruct (index_from_range
                      (components (get a (pipelineStates m))) s 0); auto. }
        destruct (with_element _ _ _) as [sums|].
        * destruct (_ =? Z.of_nat _ - 1).
          -- destruct (Z.eqb_spec
                (indexOf (components (get a (pipelineStates m))) stage) (-1));
               cbn [components currentStep]; rewrite switch_raised;
               cbn [pipelineStates]; rewrite get_set_same;
               cbn [components currentStep]; lia.
          -- cbn [pipelineStates]. rewrite get_set_same.
             destruct (Z.eqb_spec
                (indexOf (components (get a (pipelineStates m))) stage) (-1));
               cbn [components currentStep]; lia.
        * unfold log_to. cbn [pipelineStates]. rewrite get_set_same.
          destruct (Z.eqb_spec
             (indexOf (components (get a (pipelineStates m))) stage) (-1));
            cbn [components currentStep]; lia.
      + rewrite (proj1 (update_other a stage data m)). apply H.
    - destruct (switch_components a b m) as [-> ->]. apply H. }
  apply Hgen. intros a. destruct a; simpl; lia.
Qed.

(** X5.  Summaries accumulate: an update keeps the ids and the order of
    the agent's summaries, and changes the text of a summary only if it is
    the summary of the stage named and the data carries a truthy summary;
    the other agent's rendering is untouched. *)
Theorem summaries_accumulate (a : agent) (stage : JS.value)
    (data : stage_data) (m : Manager) :
  let m' := updatePipelineStage a stage data m in
  Forall2
    (fun e e' =>
       el_id e' = el_id e
       /\ (textContent e' = textContent e
           \/ (el_id e = summary_id a (JS.to_string stage)
               /\ JS.truthy (summary data) = true)))
    (summaries (get a (dom m))) (summaries (get a (dom m')))
  /\ get (other a) (dom m') = get (other a) (dom m).
Proof.
  intros m'. split; [|apply update_other].
  subst m'. destruct (JS.truthy stage) eqn:Ht.
  - rewrite (update_summaries a stage data m Ht). unfold updated_summaries.
    generalize (summaries (get a (dom m))). intros l.
    destruct (with_element _ _ _) as [s|] eqn:Hw.
    + revert s Hw. induction l as [|e l IH]; intros s Hw; simpl in Hw.
      * discriminate.
      * destruct (String.eqb_spec (el_id e)
                    (summary_id a (JS.to_string stage))) as [Heq|Hne].
        -- inversion Hw; subst. constructor.
           ++ split; [reflexivity|]. unfold mark_current.
              cbn [textContent el_id].
              destruct (JS.truthy (summary data)); auto.
           ++ fold (remove_current l). clear.
              induction l as [|x l IHl]; constructor; auto.
        -- fold (remove_current l) in Hw.
           destruct (with_element _ _ (remove_current l)) as [r|];
             simpl in Hw; [|discriminate].
           inversion Hw; subst. constructor; auto.
    + clear Hw. induction l as [|x l IHl]; constructor; auto.
  - unfold updatePipelineStage. rewrite Ht. cbn [negb log_to dom].
    generalize (summaries (get a (dom m))). intros l.
    induction l as [|x l IHl]; constructor; auto.
Qed.

(** X6.  In any state reached from the initial manager, an update whose
    stage is falsy, or is not at the last position of the agent's
    components, or addresses an empty pipeline, flips no completion class
    and leaves [isActive] as it was. *)
Theorem completion_only_on_last_stage (calls : list call) (a b : agent)
    (stage : JS.value) (data : stage_data) :
  let m := exec calls initial in
  let cs := components (get a (pipelineStates m)) in
  let m' := updatePipelineStage a stage data m in
  JS.truthy stage = false
  \/ cs = []
  \/ indexOf cs stage <> Z.of_nat (length cs) - 1 ->
  completed_class (get b (dom m')) = completed_class (get b (dom m))
  /\ isActive (get b (pipelineStates m')) = isActive (get b (pipelineStates m)).
Proof.
  intros m cs m' H.
  assert (Hs : synced a m) by (subst m; auto with pipeline).
  destruct (agent_cases a b) as [->| ->].
  2:{ subst m'. destruct (update_other a stage data m) as [-> ->].
      split; reflexivity. }
  subst m'. unfold updatePipelineStage.
  destruct (JS.truthy stage) eqn:Ht; cbn [negb]; [|split; reflexivity].
  destruct H as [H|[H|H]]; [discriminate| |].
  - rewrite with_element_none.
    + unfold log_to. cbn [pipelineStates dom]. rewrite !get_set_same.
      cbn [completed_class].
      destruct (_ =? -1); split; reflexivity.
    + rewrite remove_current_ids, Hs. fold cs. rewrite H. simpl. tauto.
  - fold cs.
    destruct (Z.eqb_spec (indexOf cs stage) (Z.of_nat (length cs) - 1));
      [contradiction|].
    destruct (with_element _ _ _) as [sums|].
    + cbn [pipelineStates dom]. rewrite !get_set_same.
      cbn [completed_class].
      destruct (_ =? -1); split; reflexivity.
    + unfold log_to. cbn [pipelineStates dom]. rewrite !get_set_same.
      cbn [completed_class].
      destruct (_ =? -1); split; reflexivity.
Qed.

Lemma completion_only_on_last_stage_witness :
  let m := exec [Create Agent0 (CArray ["a"; "b"; "a"])] initial in
  (completed_class (get Agent0 (dom (updatePipelineStage Agent0
                                       (JS.VStr "a") no_data m)))
   = completed_class (get Agent0 (dom m)))
  /\ (completed_class (get Agent1 (dom (updatePipelineStage Agent1
                                          (JS.VStr "a") no_data m)))
      = completed_class (get Agent1 (dom m)))
  /\ (completed_class (get Agent0 (dom (updatePipelineStage Agent0
                                          (JS.VNum 0) no_data m)))
      = completed_class (get Agent0 (dom m))).
Proof.
  repeat apply conj.
  - apply (completion_only_on_last_stage
             [Create Agent0 (CArray ["a"; "b"; "a"])] Agent0 Agent0
             (JS.VStr "a") no_data).
    right; right. vm_compute. discriminate.
  - apply (completion_only_on_last_stage
             [Create Agent0 (CArray ["a"; "b"; "a"])] Agent1 Agent1
             (JS.VStr "a") no_data).
    right; left. reflexivity.
  - apply (completion_only_on_last_stage
             [Create Agent0 (CArray ["a"; "b"; "a"])] Agent0 Agent0
             (JS.VNum 0) no_data).
    left. reflexivity.
Defined.

(** X7.  In any state reached from the initial manager a direct call of
    switchActiveFlag changes nothing: the flag it tests is never left
    raised. *)
Theorem switchActiveFlag_has_no_effect (calls : list call) (a : agent) :
  switchActiveFlag a (exec calls initial) = exec calls initial.
Proof.
  unfold switchActiveFlag.
  rewrite (flag_down_exec calls initial flag_down_initial a). reflexivity.
Qed.

(** X8.  Calls addressed to one agent never change what is stored or
    rendered for the other agent. *)
Theorem agents_are_independent (calls : list call) (a : agent)
    (m : Manager) :
  Forall (fun c => call_agent c = a) calls ->
  get (other a) (pipelineStates (exec calls m))
  = get (other a) (pipelineStates m)
  /\ get (other a) (dom (exec calls m)) = get (other a) (dom m).
Proof.
  revert m; induction calls as [|c calls IH]; intros m H.
  - split; reflexivity.
  - inversion H as [|c' l' Hc Hl]; subst.
    change (exec (c :: calls) m) with (exec calls (exec_call c m)).
    destruct (IH (exec_call c m) Hl) as [-> ->].
    destruct c as [a' arg|a' stage data|a']; cbn [call_agent exec_call].
    + apply create_other.
    + apply update_other.
    + apply switch_other.
Qed.

Lemma agents_are_independent_witness :
  let calls := [Create Agent0 (CArray ["a"; "b"]);
                Update Agent0 (JS.VStr "b") no_data] in
  get Agent1 (pipelineStates (exec calls initial))
  = get Agent1 (pipelineStates initial)
  /\ get Agent1 (dom (exec calls initial)) = get Agent1 (dom initial).
Proof.
  apply (agents_are_independent
           [Create Agent0 (CArray ["a"; "b"]);
            Update Agent0 (JS.VStr "b") no_data] Agent0 initial).
  repeat constructor.
Defined.

(** ** Chat and socket events: what reaches the chat *)

Module ChatMore.
Import SocketEvents Observe.

Lemma replay_some (msgs : list message) (log : list Chat.MessageEl) :
  replay msgs (Some log)
  = Some (log ++ map render_message
                   (filter (fun m => negb (is_system m)) msgs))%list.
Proof.
  unfold replay. revert log. induction msgs as [|m msgs IH]; intros log.
  - simpl. rewrite app_nil_r. reflexivity.
  - cbn [fold_left filter]. unfold Chat.addMessage at 2.
    unfold is_system at 1.
    destruct (JS.is_string (sender m) "System"); cbn [negb].
    + apply IH.
    + rewrite IH. cbn [map]. rewrite <- app_assoc. reflexivity.
Qed.

Lemma replay_none (msgs : list message) : replay msgs None = None.
Proof. apply RestoreFacts.replay_presence. reflexivity. Qed.

Lemma number_text_not_system (n : Z) :
  NilZero.string_of_int (Z.to_int n) <> "System".
Proof.
  destruct (Z.to_int n) as [d|d]; destruct d; simpl; discriminate.
Qed.

Lemma render_plain (m : message) :
  is_system m = false -> plain (render_message m).
Proof.
  intros H. unfold plain, render_message, Chat.render.
  cbn [Chat.contentClass Chat.contentTitle Chat.senderText Chat.no_extra
       Chat.emotion Chat.original_speech JS.truthy andb].
  repeat split. unfold is_system in H.
  destruct (sender m) as [| |[|]|n|s]; cbn [JS.text_of JS.to_string];
    try discriminate.
  - apply number_text_not_system.
  - cbn [JS.is_string] in H. intros ->. discriminate.
Qed.

Lemma replay_plain (msgs : list message) (c : Chat.container) :
  (forall log, c = Some log -> Forall plain log) ->
  forall log', replay msgs c = Some log' -> Forall plain log'.
Proof.
  intros Hc log' H. destruct c as [log|].
  - rewrite replay_some in H. inversion H; subst. apply Forall_app. split.
    + apply Hc. reflexivity.
    + apply Forall_forall. intros e He. apply in_map_iff in He.
      destruct He as [m [<- Hm]]. apply filter_In in Hm.
      apply render_plain. destruct Hm as [_ Hm].
      destruct (is_system m); [discriminate | reflexivity].
  - rewrite replay_none in H. discriminate.
Qed.

Lemma clear_plain (c : Chat.container) :
  forall log, Chat.clearMessages c = Some log -> Forall plain log.
Proof.
  intros log H. destruct c; simpl in H; inversion H. constructor.
Qed.

Lemma addMessage_as_replay s t i (c : Chat.container) :
  Chat.addMessage s t i Chat.no_extra c = replay [mkMsg s t i] c.
Proof. reflexivity. Qed.

Lemma handle_plain (e : event) (p : Page) :
  (forall log, chat p = Some log -> Forall plain log) ->
  forall log', chat (handle e p) = Some log' -> Forall plain log'.
Proof.
  intros Hp. destruct e; cbn [handle].
  - destruct (JS.truthy (conversationActive (app p))); exact Hp.
  - rewrite RestoreFacts.chat_on_restore_state.
    destruct (messages d) as [msgs|].
    + apply replay_plain. apply clear_plain.
    + apply clear_plain.
  - rewrite RestoreFacts.chat_init. exact Hp.
  - unfold on_config. destruct agents as [[|c0 [|c1 l]]|]; exact Hp.
  - exact Hp.
  - unfold on_message. cbn [with_chat chat].
    rewrite addMessage_as_replay. apply replay_plain. exact Hp.
  - unfold on_message. cbn [with_chat chat].
    rewrite addMessage_as_replay. apply replay_plain. exact Hp.
  - cbn [with_chat with_app chat].
    rewrite addMessage_as_replay. apply replay_plain. exact Hp.
  - exact Hp.
  - exact Hp.
  - destruct (JS.truthy stage); exact Hp.
  - exact Hp.
Qed.

(** The State flag and id are written by conversation_status only. *)
Lemma app_restore_slot (a : agent) slot (p : Page) :
  conversationActive (app (restore_slot a slot p)) = conversationActive (app p)
  /\ currentConversationId (app (restore_slot a slot p))
     = currentConversationId (app p).
Proof.
  unfold restore_slot. destruct slot as [d|]; [|split; reflexivity].
  destruct (JS.truthy (Agent.name d)); split; reflexivity.
Qed.

Lemma app_init (agents : list init_agent) (p : Page) :
  conversationActive (app (fold_left init_one agents p))
  = conversationActive (app p)
  /\ currentConversationId (app (fold_left init_one agents p))
     = currentConversationId (app p).
Proof.
  revert p; induction agents as [|ag agents IH]; intros p; simpl.
  - split; reflexivity.
  - destruct (IH (init_one p ag)) as [-> ->]. unfold init_one.
    destruct (has_components (init_components ag)); split; reflexivity.
Qed.

Lemma flag_frame_handle (e : event) (p : Page) :
  is_status e = false ->
  conversationActive (app (handle e p)) = conversationActive (app p)
  /\ currentConversationId (app (handle e p)) = currentConversationId (app p).
Proof.
  intros H. destruct e; cbn [handle]; try discriminate;
    try (split; reflexivity).
  - destruct (JS.truthy (conversationActive (app p))); split; reflexivity.
  - unfold on_restore_state.
    destruct (messages d); destruct (agent_states d) as [slots|];
      cbn [with_chat with_boxes app];
      try (split; reflexivity);
      destruct (app_restore_slot Agent1 (at1 slots)
                  (restore_slot Agent0 (at0 slots)
                     (with_chat Chat.clearMessages p))) as [-> ->];
      destruct (app_restore_slot Agent0 (at0 slots)
                  (with_chat Chat.clearMessages p)) as [-> ->];
      split; reflexivity.
  - apply app_init.
  - unfold on_config. destruct agents as [[|c0 [|c1 l]]|]; split; reflexivity.
  - destruct (JS.truthy stage); split; reflexivity.
Qed.

Lemma flag_frame_run (events : list event) (p : Page) :
  Forall (fun e => is_status e = false) events ->
  conversationActive (app (run events p)) = conversationActive (app p)
  /\ currentConversationId (app (run events p)) = currentConversationId (app p).
Proof.
  revert p; induction events as [|e events IH]; intros p H.
  - split; reflexivity.
  - inversion H as [|e' l' He Hl]; subst.
    change (run (e :: events) p) with (run events (handle e p)).
    destruct (IH (handle e p) Hl) as [-> ->].
    apply flag_frame_handle. exact He.
Qed.

End ChatMore.

Import ChatMore.



(** X10.  Starting from a chat whose messages have no emotion styling, no
    hover title and no sender line 'System', no sequence of socket events
    adds a message that has one: the handlers never pass emotion data to
    addMessage, and conversation_status notes are never shown. *)
Theorem events_render_plain_messages (events : list event) (p : Page) :
  (forall log, chat p = Some log -> Forall plain log) ->
  forall log', chat (run events p) = Some log' -> Forall plain log'.
Proof.
  revert p; induction events as [|e events IH]; intros p Hp.
  - exact Hp.
  - change (run (e :: events) p) with (run events (handle e p)).
    apply IH. apply handle_plain. exact Hp.
Qed.

Lemma events_render_plain_messages_witness :
  Forall plain
    [render_message (mkMsg (JS.VStr "Ann") (JS.VStr "hi") (JS.VNum 0))].
Proof.
  apply (events_render_plain_messages
           [message_event (mkMsg (JS.VStr "Ann") (JS.VStr "hi") (JS.VNum 0));
            conversation_status (JS.VBool true) (JS.VNum 7)
              (JS.VStr "started")]
           loaded_page).
  - intros log H. inversion H. constructor.
  - reflexivity.
Defined.

(** X11.  Only conversation_status writes the active flag and the
    conversation id of State.  So once a conversation_status with a truthy
    [active] has arrived, a connect that follows any events other than
    conversation_status sends no request_autostart and changes nothing. *)
Theorem reconnect_while_active_is_silent (events : list event)
    (active conversation_id status : JS.value) (p : Page) :
  Forall (fun e => is_status e = false) events ->
  (conversationActive (app (run events p)) = conversationActive (app p)
   /\ currentConversationId (app (run events p))
      = currentConversationId (app p))
  /\ (JS.truthy active = true ->
      let q := run events
                 (handle (conversation_status active conversation_id status)
                    p) in
      handle connect q = q).
Proof.
  intros H. split; [apply flag_frame_run; exact H|].
  intros Ha q. cbn [handle].
  destruct (flag_frame_run events
              (handle (conversation_status active conversation_id status) p)
              H) as [Hf _].
  fold q in Hf. rewrite Hf. cbn [handle with_chat with_app app
                                  conversationActive].
  rewrite Ha. reflexivity.
Qed.

Lemma reconnect_while_active_is_silent_witness :
  let q := run [message_event (mkMsg (JS.VStr "Ann") (JS.VStr "hi")
                                 (JS.VNum 0))]
             (handle (conversation_status (JS.VBool true) (JS.VNum 7)
                        (JS.VStr "started")) loaded_page) in
  handle connect q = q.
Proof.
  apply (proj2 (reconnect_while_active_is_silent
                  [message_event (mkMsg (JS.VStr "Ann") (JS.VStr "hi")
                                    (JS.VNum 0))]
                  (JS.VBool true) (JS.VNum 7) (JS.VStr "started")
                  loaded_page
                  ltac:(repeat constructor))).
  reflexivity.
Defined.

(** X12.  startConversation does nothing while State says a conversation
    is active.  Otherwise it clears the chat and sends start_conversation,
    and since it does not write State itself, a second call before the
    server answers sends the event a second time. *)
Theorem startConversation_twice (p : Page) :
  (JS.truthy (conversationActive (app p)) = true ->
   ConversationController.startConversation p = p)
  /\ (JS.truthy (conversationActive (app p)) = false ->
      ConversationController.startConversation
        (ConversationController.startConversation p)
      = mkPage (Chat.clearMessages (chat p)) (view p) (boxes p) (app p)
               (emitted p ++ ["start_conversation"; "start_conversation"])).
Proof.
  unfold ConversationController.startConversation. split; intros H.
  - rewrite H. reflexivity.
  - rewrite H. cbn [app]. rewrite H. cbn [chat view boxes emitted].
    rewrite <- app_assoc. cbn [app].
    destruct (chat p); reflexivity.
Qed.

Lemma startConversation_twice_witness :
  ConversationController.startConversation
    (handle (conversation_status (JS.VBool true) (JS.VNum 7)
               (JS.VStr "started")) loaded_page)
  = handle (conversation_status (JS.VBool true) (JS.VNum 7)
              (JS.VStr "started")) loaded_page
  /\ emitted (ConversationController.startConversation
                (ConversationController.startConversation loaded_page))
     = ["start_conversation"; "start_conversation"].
Proof.
  split.
  - apply (proj1 (startConversation_twice
                    (handle (conversation_status (JS.VBool true) (JS.VNum 7)
                               (JS.VStr "started")) loaded_page))).
    reflexivity.
  - rewrite (proj2 (startConversation_twice loaded_page) eq_refl).
    reflexivity.
Defined.

(** ** Conversation boxes: restoring *)

Module ConversationMore.
Import Conversation Observe.

Lemma min3 (n : nat) : Nat.min (S (S (S n))) 3 = 3%nat.
Proof. lia. Qed.

Lemma restore_cases (h : history) (b : Boxes) :
  restoreConversationHistory (Some h) b
  = match prompts h with
    | [] => b
    | [_] => mkBoxes (restored_box h 0) (box1 b) (box2 b)
    | [_; _] => mkBoxes (restored_box h 0) (restored_box h 1) (box2 b)
    | _ => mkBoxes (restored_box h 0) (restored_box h 1) (restored_box h 2)
    end.
Proof.
  unfold restoreConversationHistory.
  destruct (prompts h) as [|x0 [|x1 [|x2 l]]]; cbn [length];
    rewrite ?min3; reflexivity.
Qed.

Lemma at_index_firstn (l : list JS.value) (i : nat) :
  (i < 3)%nat -> JS.at_index (firstn 3 l) i = JS.at_index l i.
Proof.
  intros H. unfold JS.at_index.
  destruct i as [|[|[|i]]]; [| | |lia];
    destruct l as [|x0 [|x1 [|x2 l]]]; reflexivity.
Qed.

Lemma restored_box_truncate (h : history) (i : nat) :
  (i < 3)%nat -> restored_box (truncate h) i = restored_box h i.
Proof.
  intros H. unfold restored_box, truncate.
  cbn [prompts responses titles times].
  rewrite !at_index_firstn by exact H. reflexivity.
Qed.

Lemma or_default_text (v : JS.value) :
  shown_alike v = true -> JS.or_default v "" = JS.text_of v.
Proof.
  unfold JS.or_default. destruct v as [| |[|]|n|s]; cbn; try reflexivity;
    try discriminate.
  - intros H. rewrite H. reflexivity.
  - destruct (String.eqb_spec s ""); subst; reflexivity.
Qed.

Lemma restored_box_history_of (es : list entry) (i : nat) (d : entry) :
  nth_error es i = Some d ->
  shown_alike (prompt d) = true -> shown_alike (response d) = true ->
  restored_box (history_of es) i = render d.
Proof.
  intros Hn Hp Hr. unfold restored_box, history_of, render, JS.at_index.
  cbn [prompts responses titles times].
  assert (Hm : forall (f : entry -> JS.value),
             nth i (map f es) JS.VUndefined = f d).
  { intros f. revert i Hn. induction es as [|e es IH]; intros [|i] Hn;
      simpl in Hn; try discriminate.
    - inversion Hn; reflexivity.
    - simpl. apply IH. exact Hn. }
  rewrite !Hm. rewrite !or_default_text by assumption. reflexivity.
Qed.

End ConversationMore.

Import ConversationMore.

(** X13.  A history with three or more prompts overwrites all three
    boxes: what was shown before does not matter, and entries past the
    third are not looked at. *)
Theorem restore_overwrites_all_boxes (h : Conversation.history)
    (b : Conversation.Boxes) :
  (3 <= length (Conversation.prompts h))%nat ->
  Conversation.restoreConversationHistory (Some h) b
  = Conversation.mkBoxes (Conversation.restored_box h 0)
      (Conversation.restored_box h 1) (Conversation.restored_box h 2).
Proof.
  intros H. rewrite restore_cases.
  destruct (Conversation.prompts h) as [|x0 [|x1 [|x2 l]]];
    cbn [length] in H; try lia. reflexivity.
Qed.

Lemma restore_overwrites_all_boxes_witness :
  let h := Conversation.mkHistory
             [JS.VStr "p1"; JS.VStr "p2"; JS.VStr "p3"; JS.VStr "p4"]
             [JS.VStr "r1"] [] [] in
  Conversation.restoreConversationHistory (Some h) (boxes loaded_page)
  = Conversation.mkBoxes (Conversation.restored_box h 0)
      (Conversation.restored_box h 1) (Conversation.restored_box h 2).
Proof.
  apply (restore_overwrites_all_boxes
           (Conversation.mkHistory
              [JS.VStr "p1"; JS.VStr "p2"; JS.VStr "p3"; JS.VStr "p4"]
              [JS.VStr "r1"] [] [])
           (boxes loaded_page)).
  simpl. lia.
Defined.

(** X14.  Restoring is idempotent, depends on the first three entries of
    each array only, and is bounded by the prompts: a history without
    prompts restores nothing, whatever its other arrays hold. *)
Theorem restore_is_idempotent_and_truncating (h : Conversation.history)
    (b : Conversation.Boxes) :
  Conversation.restoreConversationHistory (Some h)
    (Conversation.restoreConversationHistory (Some h) b)
  = Conversation.restoreConversationHistory (Some h) b
  /\ Conversation.restoreConversationHistory (Some (truncate h)) b
     = Conversation.restoreConversationHistory (Some h) b
  /\ (Conversation.prompts h = [] ->
      Conversation.restoreConversationHistory (Some h) b = b).
Proof.
  repeat apply conj.
  - rewrite !restore_cases.
    destruct (Conversation.prompts h) as [|x0 [|x1 [|x2 l]]]; reflexivity.
  - rewrite !restore_cases. unfold truncate at 1.
    cbn [Conversation.prompts].
    destruct (Conversation.prompts h) as [|x0 [|x1 [|x2 l]]];
      cbn [firstn]; rewrite ?restored_box_truncate by lia; reflexivity.
  - intros H. rewrite restore_cases, H. reflexivity.
Qed.

Lemma restore_is_idempotent_and_truncating_witness :
  let h := Conversation.mkHistory [] [JS.VStr "r1"] [JS.VStr "t1"] [] in
  Conversation.restoreConversationHistory (Some h) (boxes loaded_page)
  = boxes loaded_page.
Proof.
  apply (proj2 (proj2 (restore_is_idempotent_and_truncating
                         (Conversation.mkHistory [] [JS.VStr "r1"]
                            [JS.VStr "t1"] [])
                         (boxes loaded_page)))).
  reflexivity.
Defined.

(** X15.  Pushing and restoring agree: for entries, newest first, whose
    prompt and response are not the number 0 or false, restoring their
    history fills the first min(3, n) boxes exactly as pushing them, oldest
    first, does. *)
Theorem restore_agrees_with_pushes (entries : list Conversation.entry)
    (b b' : Conversation.Boxes) :
  Forall (fun d => shown_alike (Conversation.prompt d) = true
                   /\ shown_alike (Conversation.response d) = true)
         entries ->
  firstn (Nat.min 3 (length entries))
    (Conversation.to_list
       (Conversation.restoreConversationHistory
          (Some (history_of entries)) b))
  = firstn (Nat.min 3 (length entries))
      (Conversation.to_list (Conversation.push_all (rev entries) b')).
Proof.
  intros H.
  rewrite ConversationFacts.to_list_push_all.
  rewrite map_rev, rev_involutive.
  rewrite restore_cases. unfold history_of at 1. cbn [Conversation.prompts].
  assert (Hbox : forall i d, nth_error entries i = Some d ->
            Conversation.restored_box (history_of entries) i
            = Conversation.render d).
  { intros i d Hn. pose proof (nth_error_In _ _ Hn) as Hin.
    rewrite Forall_forall in H. destruct (H d Hin) as [Hp Hr].
    apply (restored_box_history_of entries i d); assumption. }
  destruct entries as [|d0 [|d1 [|d2 l]]]; cbn [map length].
  - reflexivity.
  - rewrite (Hbox 0%nat d0 eq_refl). reflexivity.
  - rewrite (Hbox 0%nat d0 eq_refl), (Hbox 1%nat d1 eq_refl). reflexivity.
  - rewrite (Hbox 0%nat d0 eq_refl), (Hbox 1%nat d1 eq_refl),
      (Hbox 2%nat d2 eq_refl).
    replace (Nat.min 3 (S (S (S (length l))))) with 3%nat by lia.
    reflexivity.
Qed.

Lemma restore_agrees_with_pushes_witness :
  let e1 := Conversation.mkEntry (JS.VStr "p1") (JS.VStr "plan")
              (JS.VStr "r1") JS.VUndefined in
  let e2 := Conversation.mkEntry (JS.VStr "p2") JS.VUndefined
              JS.VNull (JS.VNum 3) in
  firstn 2
    (Conversation.to_list
       (Conversation.restoreConversationHistory
          (Some (history_of [e2; e1])) (boxes loaded_page)))
  = firstn 2
      (Conversation.to_list
         (Conversation.push_all [e1; e2] (boxes loaded_page))).
Proof.
  intros e1 e2.
  apply (restore_agrees_with_pushes [e2; e1]
           (boxes loaded_page) (boxes loaded_page)).
  repeat constructor.
Defined.

(** ** Agent manager: composing updates and restoring *)

Module AgentMore.
Import Agent Pipeline PipelineFacts PipelineSteps PipelineMore.

Lemma set_set {A} (a : agent) (x y : A) (m : per_agent A) :
  set a x (set a y m) = set a x m.
Proof. destruct a; reflexivity. Qed.

Lemma set_comm {A} (a b : agent) (x y : A) (m : per_agent A) :
  a <> b -> set a x (set b y m) = set b y (set a x m).
Proof. destruct a, b; intros H; try congruence; reflexivity. Qed.

Lemma updateAgentInfo_idem (d : patch) (p : Panel) :
  updateAgentInfo d (updateAgentInfo d p) = updateAgentInfo d p.
Proof.
  unfold updateAgentInfo.
  cbn [name_text personality_text tension_text goal_text tactic_text
       plan_text interior_text].
  destruct (JS.truthy (name d)), (JS.truthy (personality d)),
    (JS.defined (tension d)), (JS.truthy (goal d)),
    (JS.truthy (plan_goal_of d)), (JS.truthy (plan_tactic_of d)),
    (plan_tactics_of d), (interior d) as [x|x];
    try destruct (JS.truthy x); reflexivity.
Qed.

Lemma with_element_texts (id : string) f (l l' : list SummaryEl) :
  (forall e, textContent (f e) = textContent e) ->
  with_element id f l = Some l' -> map textContent l' = map textContent l.
Proof.
  intros Hf. revert l'; induction l as [|e l IH]; simpl; intros l' H.
  - discriminate.
  - destruct (String.eqb (el_id e) id).
    + inversion H; subst. simpl. rewrite Hf. reflexivity.
    + destruct (with_element id f l) as [r|]; simpl in H; [|discriminate].
      inversion H; subst. simpl. f_equal. apply IH. reflexivity.
Qed.

Lemma update_texts_without_summary (a : agent) stage data (m : Manager) :
  JS.truthy (summary data) = false ->
  summary_texts a (updatePipelineStage a stage data m) = summary_texts a m.
Proof.
  intros Hd. unfold summary_texts.
  destruct (JS.truthy stage) eqn:Ht.
  - rewrite (update_summaries a stage data m Ht).
    unfold Observe.updated_summaries.
    destruct (with_element _ _ _) as [s|] eqn:Hw.
    + apply with_element_texts in Hw.
      * rewrite Hw. apply remove_current_texts.
      * intros e. unfold mark_current. cbn [textContent]. rewrite Hd.
        reflexivity.
    + apply remove_current_texts.
  - unfold updatePipelineStage. rewrite Ht. reflexivity.
Qed.

Lemma update_components (a b : agent) stage data (m : Manager) :
  components (get b (pipelineStates (updatePipelineStage a stage data m)))
  = components (get b (pipelineStates m)).
Proof.
  destruct (agent_cases a b) as [->| ->].
  2:{ rewrite (proj1 (update_other a stage data m)). reflexivity. }
  unfold updatePipelineStage.
  destruct (negb (JS.truthy stage)); [reflexivity|].
  destruct (with_element _ _ _) as [sums|].
  - destruct (_ =? Z.of_nat _ - 1).
    + rewrite (proj1 (switch_components a a _)).
      cbn [pipelineStates]. rewrite get_set_same. cbn [components].
      destruct (_ =? -1); reflexivity.
    + cbn [pipelineStates]. rewrite get_set_same.
      destruct (_ =? -1); reflexivity.
  - unfold log_to. cbn [pipelineStates]. rewrite get_set_same.
    destruct (_ =? -1); reflexivity.
Qed.

Lemma synced_after_create (a : agent) (c : string) (l : list string)
    (m : Manager) :
  synced a (createPipelineFlow a (CArray (c :: l)) m).
Proof.
  unfold synced. cbn [createPipelineFlow pipelineStates dom].
  rewrite !get_set_same. cbn [summaries components].
  rewrite map_map. reflexivity.
Qed.

(** The manager after restoreAgent met a pipeline with a stage list. *)
Lemma manager_restoreAgent (a : agent) (d : patch) (v : View)
    (cs : list string) (stage : JS.value) :
  pipeline d = Some (mkDesc (Agent.CArray cs) stage) ->
  manager (restoreAgent (Some d) a v)
  = if JS.truthy stage
    then updatePipelineStage a stage no_data
           (createPipelineFlow a (Pipeline.CArray cs) (manager v))
    else createPipelineFlow a (Pipeline.CArray cs) (manager v).
Proof.
  intros H. unfold restoreAgent. rewrite H.
  cbn [desc_components desc_stage components_truthy to_arg applyUpdate
       manager panels].
  destruct (JS.truthy stage); reflexivity.
Qed.

End AgentMore.

Import AgentMore.

(** X16.  Applying the same payload twice is the same as applying it
    once, and payloads for different agents can be applied in either
    order. *)
Theorem applyUpdate_composes (a b : agent) (d d' : Agent.patch)
    (v : Agent.View) :
  Agent.applyUpdate a d (Agent.applyUpdate a d v) = Agent.applyUpdate a d v
  /\ (a <> b ->
      Agent.applyUpdate a d (Agent.applyUpdate b d' v)
      = Agent.applyUpdate b d' (Agent.applyUpdate a d v)).
Proof.
  split.
  - unfold Agent.applyUpdate. cbn [Agent.panels Agent.manager].
    rewrite get_set_same, set_set, updateAgentInfo_idem. reflexivity.
  - intros H. unfold Agent.applyUpdate. cbn [Agent.panels Agent.manager].
    rewrite (get_set_other b a) by congruence.
    rewrite (get_set_other a b) by exact H.
    rewrite (set_comm a b) by exact H. reflexivity.
Qed.

Lemma applyUpdate_composes_witness :
  let d := Agent.with_goal (JS.VStr "x") Agent.empty_patch in
  let d' := Agent.with_name (JS.VStr "Bob") Agent.empty_patch in
  let v := view loaded_page in
  Agent.applyUpdate Agent0 d (Agent.applyUpdate Agent1 d' v)
  = Agent.applyUpdate Agent1 d' (Agent.applyUpdate Agent0 d v).
Proof.
  intros d d' v.
  apply (proj2 (applyUpdate_composes Agent0 Agent1 d d' v)).
  discriminate.
Defined.

(** X17.  A payload whose name, personality and goal are falsy (missing,
    null or empty), whose tension is missing, whose plan is missing or has
    a falsy goal and active tactic and no tactics, and whose interior is a
    falsy primitive leaves the panel as it is; a null tension, in
    contrast, blanks the tension text. *)
Theorem falsy_payload_changes_nothing (d : Agent.patch) (p : Agent.Panel) :
  (JS.truthy (Agent.name d) = false ->
   JS.truthy (Agent.personality d) = false ->
   Agent.tension d = JS.VUndefined ->
   JS.truthy (Agent.goal d) = false ->
   JS.truthy (Agent.plan_goal_of d) = false ->
   JS.truthy (Agent.plan_tactic_of d) = false ->
   Agent.plan_tactics_of d = None ->
   (exists x, Agent.interior d = Agent.IValue x /\ JS.truthy x = false) ->
   Agent.updateAgentInfo d p = p)
  /\ (Agent.tension d = JS.VNull ->
      Agent.tension_text (Agent.updateAgentInfo d p) = "").
Proof.
  split.
  - intros Hn Hp Ht Hg Hpg Hpt Hl [x [Hix Hx]].
    unfold Agent.updateAgentInfo.
    rewrite Hn, Hp, Ht, Hg, Hpg, Hpt, Hl, Hix, Hx. cbn [JS.defined].
    destruct p; reflexivity.
  - intros Ht. unfold Agent.updateAgentInfo. cbn [Agent.tension_text].
    rewrite Ht. reflexivity.
Qed.

Lemma falsy_payload_changes_nothing_witness :
  let d := Agent.mkPatch JS.VNull (JS.VStr "") JS.VUndefined (JS.VNum 0)
             JS.VUndefined None
             (Some (Agent.mkPlan JS.VNull (JS.VStr "") None))
             (Agent.IValue JS.VNull) None in
  let d0 := Agent.with_tension JS.VNull Agent.empty_patch in
  Agent.updateAgentInfo d placeholder_panel = placeholder_panel
  /\ Agent.tension_text (Agent.updateAgentInfo d0 placeholder_panel) = "".
Proof.
  intros d d0. split.
  - apply (proj1 (falsy_payload_changes_nothing d placeholder_panel));
      try reflexivity.
    exists JS.VNull. split; reflexivity.
  - apply (proj2 (falsy_payload_changes_nothing d0 placeholder_panel)).
    reflexivity.
Defined.

(** X18.  restoreAgent does not bring summaries back: after it has
    rebuilt a pipeline from a non-empty stage list, that list is what is
    stored and every summary of the agent is empty, whatever stage the
    state names and whatever was shown before. *)
Theorem restoreAgent_drops_summaries (a : agent) (d : Agent.patch)
    (v : Agent.View) (c : string) (l : list string) (stage : JS.value) :
  Agent.pipeline d = Some (Agent.mkDesc (Agent.CArray (c :: l)) stage) ->
  let m' := Agent.manager (Agent.restoreAgent (Some d) a v) in
  components (get a (pipelineStates m')) = c :: l
  /\ length (summary_texts a m') = length (c :: l)
  /\ Forall (fun t => t = "") (summary_texts a m').
Proof.
  intros H m'. subst m'. rewrite (manager_restoreAgent a d v _ _ H).
  set (m1 := createPipelineFlow a (Pipeline.CArray (c :: l))
               (Agent.manager v)).
  assert (Hc : components (get a (pipelineStates m1)) = c :: l).
  { subst m1. cbn [createPipelineFlow pipelineStates].
    rewrite get_set_same. reflexivity. }
  assert (Ht : summary_texts a m1 = map (fun _ => "") (c :: l)).
  { subst m1. unfold summary_texts. cbn [createPipelineFlow dom].
    rewrite get_set_same. cbn [summaries]. rewrite map_map. reflexivity. }
  assert (Hall : summary_texts a
                   (if JS.truthy stage
                    then updatePipelineStage a stage no_data m1 else m1)
                 = map (fun _ => "") (c :: l)).
  { destruct (JS.truthy stage); [|exact Ht].
    rewrite update_texts_without_summary by reflexivity. exact Ht. }
  repeat apply conj.
  - destruct (JS.truthy stage); [|exact Hc].
    rewrite update_components. exact Hc.
  - rewrite Hall, length_map. reflexivity.
  - rewrite Hall. apply Forall_forall. intros t Hin.
    apply in_map_iff in Hin. destruct Hin as [x [Hx _]]. symmetry. exact Hx.
Qed.

Lemma restoreAgent_drops_summaries_witness :
  let d := Agent.mkPatch (JS.VStr "Ann") JS.VUndefined JS.VUndefined
             JS.VUndefined JS.VUndefined None None
             (Agent.IValue JS.VUndefined)
             (Some (Agent.mkDesc (Agent.CArray ["trigger"; "plan"])
                      (JS.VStr "trigger"))) in
  let v := view (run [initialize_agents
                        [mkInit Agent0 Agent.empty_patch
                           (Agent.CArray ["trigger"; "plan"])];
                      pipeline_update Agent0 (JS.VStr "trigger")
                        (Some (mkData (JS.VStr "saw it")))]
                   loaded_page) in
  summary_texts Agent0 (Agent.manager v)
  = [(JS.dquote ++ "saw it" ++ JS.dquote)%string; ""]
  /\ Forall (fun t => t = "")
       (summary_texts Agent0
          (Agent.manager (Agent.restoreAgent (Some d) Agent0 v))).
Proof.
  intros d v. split; [reflexivity|].
  apply (restoreAgent_drops_summaries Agent0 d v "trigger" ["plan"]
           (JS.VStr "trigger")).
  reflexivity.
Defined.

(** X19.  Restoring an agent state whose stage is the last of its own
    stage list flips the 'pipeline-completed' class of that agent, so
    restoring the same state a second time flips it back: the class after
    a restore depends on what the page showed before. *)
Theorem restoreAgent_flips_completed_class (a : agent) (d : Agent.patch)
    (v : Agent.View) (cs : list string) (n : string) :
  Agent.pipeline d = Some (Agent.mkDesc (Agent.CArray cs) (JS.VStr n)) ->
  cs <> [] -> n <> "" ->
  index_from cs n 0 = Z.of_nat (length cs) - 1 ->
  let v1 := Agent.restoreAgent (Some d) a v in
  let v2 := Agent.restoreAgent (Some d) a v1 in
  completed_class (get a (dom (Agent.manager v1)))
  = negb (completed_class (get a (dom (Agent.manager v))))
  /\ completed_class (get a (dom (Agent.manager v2)))
     = completed_class (get a (dom (Agent.manager v))).
Proof.
  intros H Hne Hn Hidx v1 v2.
  assert (Hflip : forall w,
            completed_class
              (get a (dom (Agent.manager (Agent.restoreAgent (Some d) a w))))
            = negb (completed_class (get a (dom (Agent.manager w))))).
  { intros w. rewrite (manager_restoreAgent a d w _ _ H).
    rewrite (truthy_name n Hn).
    destruct cs as [|c l]; [congruence|].
    set (m1 := createPipelineFlow a (Pipeline.CArray (c :: l))
                 (Agent.manager w)).
    assert (Hc : components (get a (pipelineStates m1)) = c :: l).
    { subst m1. cbn [createPipelineFlow pipelineStates].
      rewrite get_set_same. reflexivity. }
    destruct (update_last_stage a n no_data m1) as (_ & _ & _ & Hcls).
    - subst m1. apply synced_after_create.
    - rewrite Hc. discriminate.
    - exact Hn.
    - rewrite Hc. exact Hidx.
    - rewrite Hcls. subst m1. cbn [createPipelineFlow dom].
      rewrite get_set_same. reflexivity. }
  split.
  - subst v1. apply Hflip.
  - subst v2 v1. rewrite !Hflip. apply negb_involutive.
Qed.

Lemma restoreAgent_flips_completed_class_witness :
  let d := Agent.mkPatch (JS.VStr "Ann") JS.VUndefined JS.VUndefined
             JS.VUndefined JS.VUndefined None None
             (Agent.IValue JS.VUndefined)
             (Some (Agent.mkDesc (Agent.CArray ["trigger"; "action"])
                      (JS.VStr "action"))) in
  let v := view loaded_page in
  let v1 := Agent.restoreAgent (Some d) Agent0 v in
  let v2 := Agent.restoreAgent (Some d) Agent0 v1 in
  completed_class (get Agent0 (dom (Agent.manager v1))) = true
  /\ completed_class (get Agent0 (dom (Agent.manager v2))) = false.
Proof.
  intros d v.
  apply (restoreAgent_flips_completed_class Agent0 d v
           ["trigger"; "action"] "action").
  - reflexivity.
  - discriminate.
  - discriminate.
  - reflexivity.
Defined.

(** ** Socket events: the warning for a missing stage *)

Module WarningMore.
Import SocketEvents Observe Pipeline.

Lemma filter_snoc_false {A} (f : A -> bool) (l : list A) (x : A) :
  f x = false -> filter f (l ++ [x]) = filter f l.
Proof.
  intros H. rewrite filter_app. cbn [filter]. rewrite H. apply app_nil_r.
Qed.

Lemma quiet_create (a : agent) arg (m : Manager) :
  no_stage_warnings (createPipelineFlow a arg m) = no_stage_warnings m.
Proof.
  unfold no_stage_warnings, createPipelineFlow.
  destruct arg as [| |[|c l]]; try reflexivity;
    unfold log_to; cbn [console]; apply filter_snoc_false;
    destruct a; reflexivity.
Qed.

Lemma quiet_switch (a : agent) (m : Manager) :
  no_stage_warnings (switchActiveFlag a m) = no_stage_warnings m.
Proof.
  unfold no_stage_warnings, switchActiveFlag.
  destruct (isActive (get a (pipelineStates m))); [|reflexivity].
  cbn [console]. apply filter_snoc_false. reflexivity.
Qed.

Lemma quiet_update (a : agent) stage data (m : Manager) :
  JS.truthy stage = true ->
  no_stage_warnings (updatePipelineStage a stage data m)
  = no_stage_warnings m.
Proof.
  intros Ht. unfold updatePipelineStage. rewrite Ht. cbn [negb].
  destruct (with_element _ _ _) as [sums|].
  - destruct (_ =? Z.of_nat _ - 1).
    + rewrite quiet_switch. reflexivity.
    + reflexivity.
  - unfold no_stage_warnings, log_to. cbn [console].
    apply filter_snoc_false. destruct a; reflexivity.
Qed.

Lemma quiet_restoreAgent (a : agent) slot (v : Agent.View) :
  no_stage_warnings (Agent.manager (Agent.restoreAgent slot a v))
  = no_stage_warnings (Agent.manager v).
Proof.
  unfold Agent.restoreAgent. destruct slot as [d|]; [|reflexivity].
  destruct (Agent.pipeline d) as [pd|]; [|reflexivity].
  destruct (Agent.components_truthy (Agent.desc_components pd));
    [|reflexivity].
  cbn [Agent.manager Agent.applyUpdate].
  destruct (JS.truthy (Agent.desc_stage pd)) eqn:Ht.
  - rewrite quiet_update by exact Ht. apply quiet_create.
  - apply quiet_create.
Qed.

Lemma quiet_restore_slot (a : agent) slot (p : Page) :
  no_stage_warnings (Agent.manager (view (restore_slot a slot p)))
  = no_stage_warnings (Agent.manager (view p)).
Proof.
  unfold restore_slot. destruct slot as [d|]; [|reflexivity].
  destruct (JS.truthy (Agent.name d)); cbn [with_app with_view view];
    apply quiet_restoreAgent.
Qed.

Lemma quiet_init (agents : list init_agent) (p : Page) :
  no_stage_warnings (Agent.manager (view (fold_left init_one agents p)))
  = no_stage_warnings (Agent.manager (view p)).
Proof.
  revert p; induction agents as [|ag agents IH]; intros p; simpl.
  - reflexivity.
  - rewrite IH. unfold init_one.
    destruct (has_components (init_components ag));
      cbn [with_app with_view view Agent.manager Agent.applyUpdate];
      [apply quiet_create | reflexivity].
Qed.

Lemma quiet_handle (e : event) (p : Page) :
  no_stage_warnings (Agent.manager (view (handle e p)))
  = no_stage_warnings (Agent.manager (view p)).
Proof.
  destruct e; cbn [handle]; try reflexivity.
  - destruct (JS.truthy (conversationActive (app p))); reflexivity.
  - rewrite RestoreFacts.view_on_restore_state.
    destruct (agent_states d) as [slots|]; [|reflexivity].
    rewrite !quiet_restore_slot. reflexivity.
  - apply quiet_init.
  - unfold on_config. destruct agents as [[|c0 [|c1 l]]|]; reflexivity.
  - destruct (JS.truthy stage) eqn:Ht; [|reflexivity].
    cbn [with_view view with_manager Agent.manager].
    apply quiet_update. exact Ht.
Qed.

End WarningMore.

(** X20.  However many socket events are handled, the console never
    gains the warning "Cannot update pipeline stage: No stage provided":
    pipeline_update and restoreAgent test the stage before they call
    updatePipelineStage, so the manager's own test for a missing stage is
    never the one that fires. *)
Theorem no_stage_warning_never_logged (events : list event) (p : Page) :
  no_stage_warnings (Agent.manager (view (run events p)))
  = no_stage_warnings (Agent.manager (view p))
  /\ no_stage_warnings
       (updatePipelineStage Agent0 JS.VUndefined no_data
          (Agent.manager (view p)))
     = (no_stage_warnings (Agent.manager (view p))
          ++ [no_stage_warning Agent0])%list.
Proof.
  split.
  - revert p; induction events as [|e events IH]; intros p.
    + reflexivity.
    + change (run (e :: events) p) with (run events (handle e p)).
      rewrite IH. apply WarningMore.quiet_handle.
  - unfold no_stage_warnings.
    cbn [updatePipelineStage JS.truthy negb]. unfold log_to. cbn [console].
    rewrite filter_app. reflexivity.
Qed.

(** ** Agent page: latest message, speech, escaping, portrait *)

Module AgentPageMore.
Import AgentPage.

Section Search.
Variable is_space : ascii -> bool.

Lemma scan_spec (l : list message) :
  match scan is_space l with
  | Found m =>
      exists l1 l2,
        l = (l1 ++ m :: l2)%list
        /\ speaks is_space m = true
        /\ Forall (fun x => speaks is_space x = false) l1
  | NotFound => Forall (fun x => speaks is_space x = false) l
  | TypeError =>
      exists x, In x l /\ candidate x = true
                /\ forall s, text x <> JS.VStr s
  end.
Proof.
  induction l as [|m l IH]; cbn [scan].
  - constructor.
  - assert (Hskip : speaks is_space m = false ->
      match scan is_space l with
      | Found m0 =>
          exists l1 l2,
            (m :: l) = (l1 ++ m0 :: l2)%list
            /\ speaks is_space m0 = true
            /\ Forall (fun x => speaks is_space x = false) l1
      | NotFound => Forall (fun x => speaks is_space x = false) (m :: l)
      | TypeError =>
          exists x, In x (m :: l) /\ candidate x = true
                    /\ forall s, text x <> JS.VStr s
      end).
    { intros Hm. destruct (scan is_space l) as [m0| |].
      - destruct IH as (l1 & l2 & -> & Hs & Hall).
        exists (m :: l1), l2. repeat split; auto.
      - constructor; auto.
      - destruct IH as (x & Hin & Hc & Ht). exists x.
        repeat split; auto. right; exact Hin. }
    unfold speaks, candidate in *.
    destruct (JS.is_number (sender_id m) 1) eqn:Hid; cbn [andb] in *;
      [|apply Hskip; reflexivity].
    destruct (JS.truthy (text m)) eqn:Ht; cbn [andb] in *;
      [|apply Hskip; reflexivity].
    destruct (text m) as [| |b|n|s] eqn:Htext;
      try (exists m; repeat split;
           [left; reflexivity
           | rewrite Hid, Htext, Ht; reflexivity
           | intros s' Hs; rewrite Htext in Hs; discriminate]).
    destruct (blank is_space s) eqn:Hb; cbn [negb].
    + apply Hskip. reflexivity.
    + exists [], l. repeat split.
      * rewrite Hid, Htext, Ht. cbn [andb]. rewrite Hb. reflexivity.
      * constructor.
Qed.

End Search.

Lemma string_app_assoc (a b c : string) : a ++ (b ++ c) = (a ++ b) ++ c.
Proof.
  induction a as [|x a IH]; cbn [append]; [reflexivity|].
  rewrite IH. reflexivity.
Qed.

Lemma replace_all_app (c : ascii) (r a b : string) :
  replace_all c r (a ++ b) = replace_all c r a ++ replace_all c r b.
Proof.
  induction a as [|x a IH]; cbn [append replace_all].
  - reflexivity.
  - rewrite IH. destruct (Ascii.eqb x c); [|reflexivity].
    apply string_app_assoc.
Qed.

Lemma escape_by_chars (s : string) : escape s = escape_chars s.
Proof.
  unfold escape. induction s as [|x s IH]; [reflexivity|].
  cbn [replace_all escape_chars]. unfold escape_char.
  destruct (Ascii.eqb_spec x "&"%char) as [->|Hamp].
  - rewrite !replace_all_app, IH. reflexivity.
  - cbn [replace_all].
    destruct (Ascii.eqb_spec x "<"%char) as [->|Hlt].
    + rewrite !replace_all_app, IH. reflexivity.
    + cbn [replace_all].
      destruct (Ascii.eqb_spec x ">"%char) as [->|Hgt].
      * rewrite IH. reflexivity.
      * rewrite IH. reflexivity.
Qed.

Lemma chars_app (a b : string) :
  list_ascii_of_string (a ++ b)
  = (list_ascii_of_string a ++ list_ascii_of_string b)%list.
Proof.
  induction a as [|x a IH]; cbn; [reflexivity | rewrite IH; reflexivity].
Qed.

Lemma escape_char_cases (x : ascii) :
  (x = "&"%char /\ escape_char x = "&amp;")
  \/ (x = "<"%char /\ escape_char x = "&lt;")
  \/ (x = ">"%char /\ escape_char x = "&gt;")
  \/ (x <> "&"%char /\ x <> "<"%char /\ x <> ">"%char
      /\ escape_char x = String x EmptyString).
Proof.
  unfold escape_char.
  destruct (Ascii.eqb_spec x "&"%char) as [->|Hamp]; [auto|].
  destruct (Ascii.eqb_spec x "<"%char) as [->|Hlt]; [auto|].
  destruct (Ascii.eqb_spec x ">"%char) as [->|Hgt]; [auto 6|].
  right; right; right. auto.
Qed.

Lemma escape_chars_inj (s1 s2 : string) :
  escape_chars s1 = escape_chars s2 -> s1 = s2.
Proof.
  revert s2; induction s1 as [|x s1 IH]; intros [|y s2] H;
    cbn [escape_chars] in H.
  - reflexivity.
  - destruct (escape_char_cases y) as [[_ E]|[[_ E]|[[_ E]|(_ & _ & _ & E)]]];
      rewrite E in H; discriminate.
  - destruct (escape_char_cases x) as [[_ E]|[[_ E]|[[_ E]|(_ & _ & _ & E)]]];
      rewrite E in H; discriminate.
  - destruct (escape_char_cases x)
      as [[Hx Ex]|[[Hx Ex]|[[Hx Ex]|(Hx1 & Hx2 & Hx3 & Ex)]]];
      destruct (escape_char_cases y)
        as [[Hy Ey]|[[Hy Ey]|[[Hy Ey]|(Hy1 & Hy2 & Hy3 & Ey)]]];
      rewrite Ex, Ey in H; cbn [append] in H; subst;
      try congruence;
      (assert (Ht : escape_chars s1 = escape_chars s2) by congruence);
      rewrite (IH s2 Ht); congruence.
Qed.

Lemma src_inj (folder e1 e2 : string) :
  portrait_src folder e1 = portrait_src folder e2 -> e1 = e2.
Proof.
  unfold portrait_src. intros H.
  apply append_inj_l in H. apply append_inj_l in H.
  apply append_inj_l in H. apply append_inj_r in H. exact H.
Qed.

Lemma no_repeat_snoc (l : list string) (x : string) :
  no_repeat l -> (l = [] \/ last l "" <> x) -> no_repeat (l ++ [x]).
Proof.
  induction l as [|a l IH]; intros Hn Hl.
  - exact I.
  - destruct l as [|b l].
    + cbn. split; [|exact I]. destruct Hl as [Hl|Hl]; [discriminate|].
      exact Hl.
    + cbn [app no_repeat] in *. destruct Hn as [Hab Hn].
      split; [exact Hab|]. apply IH; [exact Hn|].
      right. destruct Hl as [Hl|Hl]; [discriminate | exact Hl].
Qed.

End AgentPageMore.

Import AgentPage AgentPageMore.

Section AgentPageProperties.
Variable is_space : ascii -> bool.

(** X21.  findLatestAgentMessage returns the last message of agent 1
    whose text is a string with something other than white space in it;
    it returns nothing only when there is no such message; and it stops on
    a TypeError only when some message of agent 1 has a truthy text that
    is not a string. *)
Theorem findLatestAgentMessage_finds_last (messages : list message) :
  (forall m,
     findLatestAgentMessage is_space messages = Found m ->
     exists before after,
       messages = (before ++ m :: after)%list
       /\ speaks is_space m = true
       /\ Forall (fun x => speaks is_space x = false) after)
  /\ (findLatestAgentMessage is_space messages = NotFound ->
      Forall (fun x => speaks is_space x = false) messages)
  /\ (findLatestAgentMessage is_space messages = TypeError ->
      exists x, In x messages /\ candidate x = true
                /\ forall s, text x <> JS.VStr s).
Proof.
  unfold findLatestAgentMessage.
  pose proof (scan_spec is_space (rev messages)) as H.
  repeat apply conj.
  - intros m Hm. rewrite Hm in H. destruct H as (l1 & l2 & Hl & Hs & Hall).
    exists (rev l2), (rev l1). repeat apply conj.
    + rewrite <- (rev_involutive messages), Hl.
      rewrite rev_app_distr. cbn [rev]. rewrite <- app_assoc. reflexivity.
    + exact Hs.
    + apply Forall_rev. exact Hall.
  - intros Hm. rewrite Hm in H.
    rewrite <- (rev_involutive messages). apply Forall_rev. exact H.
  - intros Hm. rewrite Hm in H. destruct H as (x & Hin & Hc & Ht).
    exists x. repeat apply conj; auto. apply in_rev. exact Hin.
Qed.

(** X22.  A live message of agent 1 is shown by its [speech] when that is
    a non-blank string; when the same message is the one a restore finds,
    it is shown by its [original_speech] instead, and [speech] is not
    looked at.  A message without text is shown live but is not found by a
    restore. *)
Theorem restore_prefers_original_speech (m : message) (s o : string)
    (messages : list message) :
  sender_id m = JS.VNum 1 ->
  speech m = JS.VStr s -> blank is_space s = false ->
  original_speech m = JS.VStr o -> blank is_space o = false ->
  handleMessage is_space m = Says s
  /\ (findLatestAgentMessage is_space messages = Found m ->
      handleStateRestore is_space (Some messages) = Says o)
  /\ (JS.truthy (text m) = false ->
      handleStateRestore is_space (Some [m]) = Silent).
Proof.
  intros Hid Hs Hbs Ho Hbo.
  assert (Hts : JS.truthy (JS.VStr s) = true).
  { destruct s; [discriminate Hbs | reflexivity]. }
  assert (Hto : JS.truthy (JS.VStr o) = true).
  { destruct o; [discriminate Hbo | reflexivity]. }
  repeat apply conj.
  - unfold handleMessage. rewrite Hid, Hs, Hts. cbn [JS.is_number Z.eqb negb].
    unfold display. rewrite Hts, Hbs. reflexivity.
  - intros Hf. unfold handleStateRestore. rewrite Hf, Ho, Hto.
    unfold display. rewrite Hto, Hbo. reflexivity.
  - intros Ht. unfold handleStateRestore, findLatestAgentMessage.
    change (rev [m]) with [m]. cbn [scan]. rewrite Hid, Ht. reflexivity.
Qed.

End AgentPageProperties.

Lemma findLatestAgentMessage_finds_last_witness :
  let sp := fun c => Ascii.eqb c " "%char in
  let m1 := mkMessage (JS.VNum 1) (JS.VStr "first") JS.VUndefined
              JS.VUndefined JS.VUndefined in
  let m2 := mkMessage (JS.VNum 1) (JS.VStr "second") JS.VUndefined
              JS.VUndefined JS.VUndefined in
  let m3 := mkMessage (JS.VNum 1) (JS.VStr "  ") JS.VUndefined
              JS.VUndefined JS.VUndefined in
  let bad := mkMessage (JS.VNum 1) (JS.VNum 5) JS.VUndefined
               JS.VUndefined JS.VUndefined in
  (exists before after,
     [m1; m2; m3] = (before ++ m2 :: after)%list
     /\ speaks sp m2 = true
     /\ Forall (fun x => speaks sp x = false) after)
  /\ Forall (fun x => speaks sp x = false) [m3]
  /\ (exists x, In x [m1; bad] /\ candidate x = true
                /\ forall s, text x <> JS.VStr s).
Proof.
  intros sp m1 m2 m3 bad. repeat apply conj.
  - apply (proj1 (findLatestAgentMessage_finds_last sp [m1; m2; m3]) m2).
    reflexivity.
  - apply (proj1 (proj2 (findLatestAgentMessage_finds_last sp [m3]))).
    reflexivity.
  - apply (proj2 (proj2 (findLatestAgentMessage_finds_last sp [m1; bad]))).
    reflexivity.
Defined.

Lemma restore_prefers_original_speech_witness :
  let sp := fun c => Ascii.eqb c " "%char in
  let m := mkMessage (JS.VNum 1) (JS.VStr "fine") (JS.VStr "calm")
             (JS.VStr "I am fine.") (JS.VStr "I'm, like, fine") in
  let quiet := mkMessage (JS.VNum 1) JS.VUndefined (JS.VStr "calm")
                 (JS.VStr "I am fine.") (JS.VStr "I'm, like, fine") in
  handleMessage sp m = Says "I'm, like, fine"
  /\ handleStateRestore sp (Some [m]) = Says "I am fine."
  /\ handleStateRestore sp (Some [quiet]) = Silent.
Proof.
  intros sp m quiet.
  destruct (restore_prefers_original_speech sp m "I'm, like, fine"
              "I am fine." [m] eq_refl eq_refl eq_refl eq_refl eq_refl)
    as (H1 & H2 & _).
  destruct (restore_prefers_original_speech sp quiet "I'm, like, fine"
              "I am fine." [quiet] eq_refl eq_refl eq_refl eq_refl eq_refl)
    as (_ & _ & H3).
  repeat apply conj.
  - exact H1.
  - apply H2. reflexivity.
  - apply H3. reflexivity.
Defined.

(** X23.  The escaping of typeWriterEffect, three global replacements in
    a row, rewrites each character on its own; its result holds no '<' and
    no '>', and two different texts never escape to the same result. *)
Theorem escape_is_safe_and_injective (s : string) :
  escape s = escape_chars s
  /\ ~ In "<"%char (list_ascii_of_string (escape s))
  /\ ~ In ">"%char (list_ascii_of_string (escape s))
  /\ (forall t, escape s = escape t -> s = t).
Proof.
  repeat apply conj.
  - apply escape_by_chars.
  - rewrite escape_by_chars. induction s as [|x s IH]; cbn [escape_chars].
    + intros [].
    + rewrite chars_app. intros Hin. apply in_app_or in Hin.
      destruct Hin as [Hin|Hin]; [|exact (IH Hin)].
      destruct (escape_char_cases x)
        as [[_ E]|[[_ E]|[[_ E]|(_ & H2 & _ & E)]]];
        rewrite E in Hin; cbn in Hin;
        repeat (destruct Hin as [Hin|Hin]; [try discriminate|]);
        try contradiction; try (apply H2; congruence).
  - rewrite escape_by_chars. induction s as [|x s IH]; cbn [escape_chars].
    + intros [].
    + rewrite chars_app. intros Hin. apply in_app_or in Hin.
      destruct Hin as [Hin|Hin]; [|exact (IH Hin)].
      destruct (escape_char_cases x)
        as [[_ E]|[[_ E]|[[_ E]|(_ & _ & H3 & E)]]];
        rewrite E in Hin; cbn in Hin;
        repeat (destruct Hin as [Hin|Hin]; [try discriminate|]);
        try contradiction; try (apply H3; congruence).
  - intros t H. rewrite !escape_by_chars in H.
    apply escape_chars_inj. exact H.
Qed.

Lemma escape_is_safe_and_injective_witness :
  escape "a<b & c>d" = "a&lt;b &amp; c&gt;d"
  /\ "a<b" = "a<b".
Proof.
  split; [reflexivity|].
  apply (proj2 (proj2 (proj2 (escape_is_safe_and_injective "a<b"))) "a<b").
  reflexivity.
Defined.

(** X24.  From the portrait the page loads with, a run of emotions, each
    a name or nothing, never assigns the same image source twice in a row,
    and a run of nothing but 'neutral' or missing emotions assigns no
    source at all. *)
Theorem portrait_changes_only_on_new_emotion (folder : string)
    (emotions : list JS.value) :
  Forall (fun v => emotion_name v = true) emotions ->
  no_repeat (assigned (show_all folder emotions initial_portrait))
  /\ (Forall (fun v => JS.truthy v = false \/ v = JS.VStr "neutral")
             emotions ->
      assigned (show_all folder emotions initial_portrait) = []).
Proof.
  intros H. split.
  - assert (Hgen : forall p,
              (exists e, lastEmotion p = JS.VStr e
                         /\ no_repeat (assigned p)
                         /\ (assigned p = []
                             \/ last (assigned p) "" = portrait_src folder e)) ->
              no_repeat (assigned (show_all folder emotions p))).
    { induction emotions as [|v vs IH]; intros p (e & He & Hn & Hl).
      - exact Hn.
      - inversion H as [|v' vs' Hv Hvs]; subst.
        change (show_all folder (v :: vs) p)
          with (show_all folder vs (updateAgentImage folder v p)).
        apply (IH Hvs). unfold updateAgentImage.
        assert (He2 : exists e2,
                  (if JS.truthy v then v else JS.VStr "neutral") = JS.VStr e2).
        { destruct v as [| |b|n|s]; cbn in Hv |- *; try discriminate;
            try (eexists; reflexivity).
          destruct (negb (s =? "")%string); eexists; reflexivity. }
        destruct He2 as [e2 ->]. rewrite He. cbn [strict_eq].
        destruct (String.eqb_spec e e2) as [->|Hne].
        + exists e2. auto.
        + exists e2. cbn [lastEmotion assigned JS.to_string].
          repeat apply conj.
          * reflexivity.
          * apply no_repeat_snoc; [exact Hn|].
            destruct Hl as [Hl|Hl]; [left; exact Hl|right].
            rewrite Hl. intros Heq. apply src_inj in Heq. contradiction.
          * right. apply last_last. }
    apply Hgen. exists "neutral". cbn. auto.
  - clear H. intros H.
    assert (Hgen : forall p,
              lastEmotion p = JS.VStr "neutral" ->
              assigned (show_all folder emotions p) = assigned p).
    { induction emotions as [|v vs IH]; intros p Hp; [reflexivity|].
      inversion H as [|v' vs' Hv Hvs]; subst.
      change (show_all folder (v :: vs) p)
        with (show_all folder vs (updateAgentImage folder v p)).
      assert (Hsame : updateAgentImage folder v p = p).
      { unfold updateAgentImage. destruct Hv as [Hv| ->].
        - rewrite Hv, Hp. reflexivity.
        - rewrite Hp. reflexivity. }
      rewrite Hsame. apply (IH Hvs). exact Hp. }
    apply (Hgen initial_portrait). reflexivity.
Qed.

Lemma portrait_changes_only_on_new_emotion_witness :
  no_repeat
    (assigned (show_all "alice"
                 [JS.VStr "happy"; JS.VStr "happy"; JS.VUndefined;
                  JS.VStr "neutral"; JS.VStr "sad"]
                 initial_portrait))
  /\ assigned (show_all "alice" [JS.VUndefined; JS.VStr "neutral"; JS.VNull]
                 initial_portrait) = [].
Proof.
  split.
  - apply (proj1 (portrait_changes_only_on_new_emotion "alice"
                    [JS.VStr "happy"; JS.VStr "happy"; JS.VUndefined;
                     JS.VStr "neutral"; JS.VStr "sad"]
                    ltac:(repeat constructor))).
  - apply (proj2 (portrait_changes_only_on_new_emotion "alice"
                    [JS.VUndefined; JS.VStr "neutral"; JS.VNull]
                    ltac:(repeat constructor))).
    constructor; [left; reflexivity|].
    constructor; [right; reflexivity|].
    constructor; [left; reflexivity|]. constructor.
Defined.

(** ** Socket events: from initialize_agents to the last stage *)

Module InitMore.
Import SocketEvents Pipeline PipelineFacts PipelineSteps PipelineMore.

Lemma create_class (a b : agent) arg (m : Manager) :
  completed_class (get b (dom (createPipelineFlow a arg m)))
  = completed_class (get b (dom m)).
Proof.
  destruct (agent_cases a b) as [->| ->].
  - unfold createPipelineFlow. destruct arg as [| |[|c l]]; try reflexivity.
    cbn [dom]. rewrite get_set_same. reflexivity.
  - rewrite (proj2 (create_other a arg m)). reflexivity.
Qed.

Lemma class_init (agents : list init_agent) (b : agent) (p : Page) :
  completed_class
    (get b (dom (Agent.manager (view (fold_left init_one agents p)))))
  = completed_class (get b (dom (Agent.manager (view p)))).
Proof.
  revert p; induction agents as [|ag agents IH]; intros p; simpl.
  - reflexivity.
  - rewrite IH. unfold init_one.
    destruct (has_components (init_components ag));
      cbn [with_app with_view view Agent.manager Agent.applyUpdate];
      [apply create_class | reflexivity].
Qed.

Lemma manager_init_last (agents : list init_agent) (a : agent)
    (d : Agent.patch) (c : string) (l : list string) (p : Page) :
  Agent.manager
    (view (handle (initialize_agents
                     (agents ++ [mkInit a d (Agent.CArray (c :: l))])) p))
  = createPipelineFlow a (CArray (c :: l))
      (Agent.manager (view (fold_left init_one agents p))).
Proof.
  cbn [handle]. rewrite fold_left_app. reflexivity.
Qed.

End InitMore.

(** X25.  End to end: when the last agent of an initialize_agents event
    comes with a non-empty stage list, and a pipeline_update then names
    the last stage of that list with a truthy summary, the agent's stored
    stages are that list, [currentStep] is its last index, getActiveFlag
    is false, the 'pipeline-completed' class is the opposite of what the
    page showed before both events, and the stage's summary shows the
    text between double quotes. *)
Theorem initialize_then_last_stage (agents : list init_agent) (a : agent)
    (d : Agent.patch) (cs : list string) (n : string) (s : JS.value)
    (p : Page) :
  cs <> [] -> n <> "" ->
  index_from cs n 0 = Z.of_nat (length cs) - 1 ->
  JS.truthy s = true ->
  let p1 := handle (initialize_agents
                      (agents ++ [mkInit a d (Agent.CArray cs)])) p in
  let p2 := handle (pipeline_update a (JS.VStr n) (Some (mkData s))) p1 in
  let m := Agent.manager (view p2) in
  components (get a (pipelineStates m)) = cs
  /\ currentStep (get a (pipelineStates m)) = Z.of_nat (length cs) - 1
  /\ getActiveFlag a m = false
  /\ completed_class (get a (dom m))
     = negb (completed_class (get a (dom (Agent.manager (view p)))))
  /\ In (mkSummary (summary_id a n) true
           (JS.dquote ++ JS.to_string s ++ JS.dquote))
        (summaries (get a (dom m))).
Proof.
  intros Hne Hn Hidx Hs p1 p2 m.
  destruct cs as [|c l]; [congruence|].
  assert (Ht : JS.truthy (JS.VStr n) = true) by (apply truthy_name; exact Hn).
  set (m1 := createPipelineFlow a (CArray (c :: l))
               (Agent.manager (view (fold_left init_one agents p)))).
  assert (Hm : m = updatePipelineStage a (JS.VStr n) (mkData s) m1).
  { subst m p2. cbn [handle]. rewrite Ht.
    cbn [with_view view with_manager Agent.manager].
    subst p1. rewrite InitMore.manager_init_last. reflexivity. }
  assert (Hc : components (get a (pipelineStates m1)) = c :: l).
  { subst m1. cbn [createPipelineFlow pipelineStates].
    rewrite get_set_same. reflexivity. }
  assert (Hsync : synced a m1) by (subst m1; apply synced_after_create).
  destruct (update_last_stage a n (mkData s) m1 Hsync)
    as (H1 & H2 & H3 & H4).
  { rewrite Hc. discriminate. }
  { exact Hn. }
  { rewrite Hc. exact Hidx. }
  rewrite <- Hm in H1, H2, H3, H4. rewrite Hc in H1, H2.
  repeat apply conj.
  - exact H1.
  - exact H2.
  - exact H3.
  - rewrite H4. subst m1. rewrite InitMore.create_class.
    rewrite InitMore.class_init. reflexivity.
  - rewrite Hm. rewrite (update_summaries a _ _ m1 Ht).
    unfold updated_summaries. cbn [JS.to_string].
    destruct (with_element_some (summary_id a n) (mark_current (mkData s))
                (remove_current (summaries (get a (dom m1))))) as [sums Hw].
    { rewrite remove_current_ids, Hsync, Hc. apply in_map.
      apply (index_last_in (c :: l) n); [discriminate | exact Hidx]. }
    rewrite Hw. apply (marked_summary_text _ _ _ _ Hw). exact Hs.
Qed.

Lemma initialize_then_last_stage_witness :
  let cs := ["trigger"; "intent"; "plan"; "action"] in
  let p1 := handle (initialize_agents
                      [mkInit Agent0 Agent.empty_patch (Agent.CArray cs);
                       mkInit Agent1 Agent.empty_patch (Agent.CArray cs)])
              loaded_page in
  let p2 := handle (pipeline_update Agent1 (JS.VStr "action")
                      (Some (mkData (JS.VStr "said hi")))) p1 in
  let m := Agent.manager (view p2) in
  components (get Agent1 (pipelineStates m)) = cs
  /\ currentStep (get Agent1 (pipelineStates m)) = 3
  /\ getActiveFlag Agent1 m = false
  /\ completed_class (get Agent1 (dom m)) = true
  /\ In (mkSummary "1-action-summary" true
           (JS.dquote ++ "said hi" ++ JS.dquote))
        (summaries (get Agent1 (dom m))).
Proof.
  apply (initialize_then_last_stage
           [mkInit Agent0 Agent.empty_patch
              (Agent.CArray ["trigger"; "intent"; "plan"; "action"])]
           Agent1 Agent.empty_patch
           ["trigger"; "intent"; "plan"; "action"] "action"
           (JS.VStr "said hi") loaded_page).
  - discriminate.
  - discriminate.
  - reflexivity.
  - reflexivity.
Defined.

(** ** Pipeline manager: the two revisions side by side *)

Module RevisionFacts.
Import Pipeline PipelineFacts PipelineSteps PipelineMore.
Import StatelessPipeline.

Lemma warnings_snoc_warn (m : Manager) (msg : string) :
  warnings_of (log_to Warn msg m) = (warnings_of m ++ [msg])%list.
Proof.
  unfold warnings_of, log_to. cbn [console].
  rewrite filter_app, map_app. reflexivity.
Qed.

Lemma warnings_switch (a : agent) (m : Manager) :
  warnings_of (switchActiveFlag a m) = warnings_of m.
Proof.
  unfold switchActiveFlag.
  destruct (isActive (get a (pipelineStates m))); [|reflexivity].
  unfold warnings_of. cbn [console]. rewrite filter_app, map_app.
  cbn. apply app_nil_r.
Qed.

Lemma warnings_update (a : agent) stage data (m : Manager) :
  JS.truthy stage = true ->
  warnings_of (Pipeline.updatePipelineStage a stage data m)
  = (warnings_of m
       ++ match with_element (summary_id a (JS.to_string stage))
                  (mark_current data)
                  (remove_current (summaries (get a (dom m)))) with
          | Some _ => []
          | None => [("Pipeline stage element not found: "
                        ++ summary_id a (JS.to_string stage))%string]
          end)%list.
Proof.
  intros Ht. unfold Pipeline.updatePipelineStage. rewrite Ht. cbn [negb].
  destruct (with_element _ _ _) as [sums|].
  - rewrite app_nil_r. destruct (_ =? Z.of_nat _ - 1).
    + rewrite warnings_switch. reflexivity.
    + reflexivity.
  - unfold warnings_of, log_to. cbn [console].
    rewrite filter_app, map_app. reflexivity.
Qed.

Lemma same_cleared (l l' : list SummaryEl) :
  Forall2 same_summary l l' ->
  Forall2 same_summary (remove_current l) (remove_current l').
Proof.
  induction 1 as [|e e' l l' (Hid & _ & Htext) _ IH]; [constructor|].
  cbn [remove_current map]. constructor; [|exact IH].
  repeat split; auto.
Qed.

Lemma same_marked (id : string) data (l l' : list SummaryEl) :
  Forall2 same_summary l l' ->
  match with_element id (mark_active data) (remove_current l),
        with_element id (mark_current data) (remove_current l') with
  | Some s, Some s' => Forall2 same_summary s s'
  | None, None => True
  | _, _ => False
  end.
Proof.
  induction 1 as [|e e' l l' (Hid & Hcur & Htext) Hrest IH]; [exact I|].
  cbn [remove_current map with_element el_id].
  rewrite Hid.
  destruct (String.eqb (el_id e) id).
  - constructor.
    + unfold mark_active, mark_current, same_summary.
      cbn [el_id current textContent]. repeat split.
      destruct (JS.truthy (summary data)) eqn:Hd; [|exact Htext].
      right. destruct (summary data); try discriminate; reflexivity.
    + apply same_cleared. exact Hrest.
  - fold (remove_current l). fold (remove_current l').
    destruct (with_element id (mark_active data) (remove_current l)) as [s|];
      destruct (with_element id (mark_current data) (remove_current l'))
        as [s'|]; cbn [option_map]; try exact IH.
    constructor; [|exact IH]. repeat split; auto.
Qed.

Lemma alike_call (c : StatelessPipeline.call) (r : Rendering) (m : Manager) :
  alike r m ->
  alike (StatelessPipeline.exec_call c r) (Pipeline.exec_call (stateful c) m).
Proof.
  intros [Hs Hw]. destruct c as [a arg|a stage data];
    cbn [StatelessPipeline.exec_call stateful Pipeline.exec_call].
  - unfold StatelessPipeline.createPipelineFlow, Pipeline.createPipelineFlow.
    destruct arg as [| |[|c l]];
      try (split; [exact Hs | rewrite warnings_snoc_warn, Hw; reflexivity]).
    split; [|exact Hw]. intros b. cbn [summaries_of dom].
    destruct (agent_cases a b) as [->| ->].
    + rewrite !get_set_same. cbn [summaries].
      generalize (c :: l). intros l0.
      induction l0 as [|x l0 IH]; constructor; [|exact IH].
      repeat split. left. split; reflexivity.
    + rewrite !set_get_frame. apply Hs.
  - destruct (JS.truthy stage) eqn:Ht.
    + split.
      * intros b. destruct (agent_cases a b) as [->| ->].
        -- rewrite (update_summaries a stage data m Ht).
           unfold Observe.updated_summaries,
             StatelessPipeline.updatePipelineStage.
           rewrite Ht. cbn [negb].
           pose proof (same_marked (summary_id a (JS.to_string stage)) data
                         _ _ (Hs a)) as Hm.
           destruct (with_element _ (mark_active data) _) as [s|];
             destruct (with_element _ (mark_current data) _) as [s'|];
             try contradiction.
           ++ cbn [summaries_of]. rewrite get_set_same. exact Hm.
           ++ unfold warn. cbn [summaries_of]. rewrite get_set_same.
              apply same_cleared. apply Hs.
        -- rewrite (proj2 (update_other a stage data m)).
           unfold StatelessPipeline.updatePipelineStage.
           rewrite Ht. cbn [negb].
           destruct (with_element _ (mark_active data) _) as [s|];
             unfold warn; cbn [summaries_of]; rewrite set_get_frame;
             apply Hs.
      * rewrite (warnings_update a stage data m Ht), Hw.
        unfold StatelessPipeline.updatePipelineStage.
        rewrite Ht. cbn [negb].
        pose proof (same_marked (summary_id a (JS.to_string stage)) data
                      _ _ (Hs a)) as Hm.
        destruct (with_element _ (mark_active data) _) as [s|];
          destruct (with_element _ (mark_current data) _) as [s'|];
          try contradiction.
        -- cbn [warnings]. apply app_nil_r.
        -- reflexivity.
    + unfold StatelessPipeline.updatePipelineStage,
        Pipeline.updatePipelineStage.
      rewrite Ht. cbn [negb].
      split; [exact Hs | rewrite warnings_snoc_warn, Hw; reflexivity].
Qed.

End RevisionFacts.

(** X26.  The revision of the pipeline manager without stored state and
    the revision with it show the same page: after the same createPipelineFlow
    and updatePipelineStage calls, each agent's summaries have the same ids
    in the same order, the same one marked, and the same texts, which the
    stateful revision puts between double quotes; and both have written
    the same warnings. *)
Theorem revisions_render_alike (calls : list StatelessPipeline.call) :
  StatelessPipeline.alike
    (StatelessPipeline.exec calls StatelessPipeline.initial)
    (Pipeline.exec (map StatelessPipeline.stateful calls) Pipeline.initial).
Proof.
  assert (Hgen : forall r m,
            StatelessPipeline.alike r m ->
            StatelessPipeline.alike
              (StatelessPipeline.exec calls r)
              (Pipeline.exec (map StatelessPipeline.stateful calls) m)).
  { induction calls as [|c calls IH]; intros r m H; [exact H|].
    cbn [map]. 
    change (StatelessPipeline.exec (c :: calls) r)
      with (StatelessPipeline.exec calls (StatelessPipeline.exec_call c r)).
    change (Pipeline.exec (StatelessPipeline.stateful c
                             :: map StatelessPipeline.stateful calls) m)
      with (Pipeline.exec (map StatelessPipeline.stateful calls)
              (Pipeline.exec_call (StatelessPipeline.stateful c) m)).
    apply IH. apply RevisionFacts.alike_call. exact H. }
  apply Hgen. split.
  - intros a. destruct a; constructor.
  - reflexivity.
Qed.
